(** * aspen.configuration: a shallow embedding and its properties

    The development follows [lib/python/aspen/configuration.py], and after
    it the static handler and the static application
    ([src/aspen/handlers/static.py], [src/aspen/apps/static.py]):

      1. [validate_address]   -- socket address validation
      2. the optparse surface -- the three options and their callbacks
      3. [Paths]              -- conf file and library directories of a root
      4. [ConfFile]           -- a RawConfigParser with section access
      5. [Configuration]      -- defaults, the three updates, logging set-up

    Python values are embedded as follows: [str] is [string], [int] is [Z],
    a [dict] with string keys is a [gmap string _], [None]-able values are
    [option]s, and an exception is a value of [exn] returned in [result].
    Process-wide state ([sys.path], the mode slot, the 'aspen' logger) is
    threaded explicitly through the state-and-exception monad [M]. The calls
    [log.debug] and [log.info] only emit records and are left out. *)

From Stdlib Require Import ZArith Bool List Ascii String QArith DecimalString Lia.
From stdpp Require Import gmap strings list fin_maps.

Local Open Scope Z_scope.

(** ** Python strings *)

Module Py.

Definition ord (c : ascii) : Z := Z.of_N (N_of_ascii c).

Definition chr_eqb (a b : ascii) : bool := Ascii.eqb a b.

(** [c.isdigit()] for one character of a byte string. *)
Definition isdigit_char (c : ascii) : bool := (48 <=? ord c) && (ord c <=? 57).

Definition digit_value (c : ascii) : Z := ord c - 48.

Fixpoint all_chars (f : ascii -> bool) (s : string) : bool :=
  match s with
  | EmptyString => true
  | String c s' => f c && all_chars f s'
  end.

(** [s.isdigit()]: at least one character, and all of them digits. *)
Definition isdigit (s : string) : bool :=
  match s with
  | EmptyString => false
  | String _ _ => all_chars isdigit_char s
  end.

(** Decimal value of a digit string, most significant digit first. *)
Fixpoint int_acc (acc : Z) (s : string) : Z :=
  match s with
  | EmptyString => acc
  | String c s' => int_acc (acc * 10 + digit_value c) s'
  end.

(** [int(s)] on a string for which [s.isdigit()] holds. *)
Definition int_of_digits (s : string) : Z := int_acc 0 s.

(** [s.count(c)] for a one-character [c]. *)
Fixpoint count (c : ascii) (s : string) : Z :=
  match s with
  | EmptyString => 0
  | String a s' => (if chr_eqb a c then 1 else 0) + count c s'
  end.

(** [s.split(c)] for a one-character separator [c]. *)
Fixpoint split (sep : ascii) (s : string) : list string :=
  match s with
  | EmptyString => [EmptyString]
  | String a s' =>
      if chr_eqb a sep then EmptyString :: split sep s'
      else match split sep s' with
           | w :: ws => String a w :: ws
           | [] => [String a EmptyString]
           end
  end.

(** Whitespace of [str.strip()] and [str.split()]: space, \t, \n, \v, \f, \r. *)
Definition isspace_char (c : ascii) : bool :=
  (ord c =? 32) || ((9 <=? ord c) && (ord c <=? 13)).

Fixpoint lstrip (s : string) : string :=
  match s with
  | EmptyString => EmptyString
  | String c s' => if isspace_char c then lstrip s' else s
  end.

(** Drop the longest suffix whose characters all satisfy [f]. *)
Fixpoint rstrip_by (f : ascii -> bool) (s : string) : string :=
  match s with
  | EmptyString => EmptyString
  | String c s' =>
      match rstrip_by f s' with
      | EmptyString => if f c then EmptyString else String c EmptyString
      | r => String c r
      end
  end.

Definition rstrip : string -> string := rstrip_by isspace_char.

Definition strip (s : string) : string := rstrip (lstrip s).

(** [s.split()] with no argument: runs of whitespace separate the words,
    and no empty word is produced. [cur] is the word being read, reversed. *)
Fixpoint split_ws_aux (cur : list ascii) (s : string) : list string :=
  let flush := match cur with
               | [] => []
               | _ => [string_of_list_ascii (rev cur)]
               end in
  match s with
  | EmptyString => flush
  | String c s' =>
      if isspace_char c then flush ++ split_ws_aux [] s'
      else split_ws_aux (c :: cur) s'
  end.

Definition split_ws (s : string) : list string := split_ws_aux [] s.

Definition lower_char (c : ascii) : ascii :=
  if (65 <=? ord c) && (ord c <=? 90) then ascii_of_N (N_of_ascii c + 32) else c.

Definition upper_char (c : ascii) : ascii :=
  if (97 <=? ord c) && (ord c <=? 122) then ascii_of_N (N_of_ascii c - 32) else c.

Fixpoint map_chars (f : ascii -> ascii) (s : string) : string :=
  match s with
  | EmptyString => EmptyString
  | String c s' => String (f c) (map_chars f s')
  end.

Definition lower : string -> string := map_chars lower_char.
Definition upper : string -> string := map_chars upper_char.

Fixpoint startswith (p s : string) : bool :=
  match p, s with
  | EmptyString, _ => true
  | String a p', String b s' => chr_eqb a b && startswith p' s'
  | String _ _, EmptyString => false
  end.

(** [sub in s] for strings. *)
Fixpoint contains (sub s : string) : bool :=
  startswith sub s ||
  match s with
  | EmptyString => false
  | String _ s' => contains sub s'
  end.

(** [s[:n]] *)
Fixpoint take (n : nat) (s : string) : string :=
  match n, s with
  | S n', String c s' => String c (take n' s')
  | _, _ => EmptyString
  end.

(** ['%d' % n] *)
Definition str_of_int (n : Z) : string := NilZero.string_of_int (Z.to_int n).

(** [int(s)] on an arbitrary string: surrounding whitespace is dropped,
    one sign is allowed, and at least one digit must follow. *)
Definition int (s : string) : option Z :=
  match strip s with
  | String "-" d => if isdigit d then Some (- int_of_digits d) else None
  | String "+" d => if isdigit d then Some (int_of_digits d) else None
  | d => if isdigit d then Some (int_of_digits d) else None
  end.

End Py.

(** ** Exceptions and results *)

(** What a [raise] in this module (or in a library it calls) can deliver.
    [StringException] is a [raise] whose operand is a plain [str], as in the
    eight [raise err] statements of [validate_address]; the constructor
    carries the operand. Under Python up to 2.5 (the module tests
    [sys.version_info >= (2, 5)]) the string itself is what is raised; from
    Python 2.6 on the statement raises [TypeError: exceptions must be
    old-style classes or derived from BaseException, not str] in its place.
    Under either reading what reaches the caller is no instance of
    [ConfigurationError]. *)
Inductive exn : Type :=
  | ConfigurationError (msg : string)
  | StringException (msg : string)
  | IndexError
  | TypeError (msg : string)
  | ValueError (msg : string)
  | UnboundLocalError (name : string)
  | IOError (path : string)
  | ParsingError (path : string)
  | AttributeError (name : string)
  | KeyError (key : string)
  | OptionValueError (msg : string)
  | SystemExit (code : Z).

(** [isinstance(e, ConfigurationError)]: the class has no subclass here. *)
Definition is_ConfigurationError (e : exn) : bool :=
  match e with
  | ConfigurationError _ => true
  | _ => false
  end.

Inductive result (A : Type) : Type :=
  | Ok (a : A)
  | Raise (e : exn).

Arguments Ok {A} a.
Arguments Raise {A} e.

Definition rbind {A B : Type} (r : result A) (k : A -> result B) : result B :=
  match r with
  | Ok a => k a
  | Raise e => Raise e
  end.

Declare Scope result_scope.
Delimit Scope result_scope with result.
Notation "x <- r ;; k" := (rbind r (fun x => k))
  (at level 100, r at next level, k at level 200, right associativity)
  : result_scope.

(** ** The surroundings of the process *)

(** One parsed line group of an INI file: a section header and the
    [name = value] lines below it, in file order. *)
Definition ini_section : Type := string * list (string * string).

(** Everything the module reads from outside itself. [open_ini path] is
    [None] when [open(path)] fails, [Some None] when RawConfigParser rejects
    the text, and otherwise the sections of the file in order;
    [can_append path] tells whether [open(path, 'a')] succeeds; [float] is
    the builtin on strings, with rationals standing for its values;
    [logging_getattr name] is [getattr(logging, name)], an [int] for a level
    name. Paths follow [posixpath]. *)
Record world : Type := {
  sys_platform : string;
  sys_version : string;
  getcwd : string;
  realpath : string -> string;
  isfile : string -> bool;
  isdir : string -> bool;
  open_ini : string -> option (option (list ini_section));
  can_append : string -> bool;
  float : string -> option Q;
  logging_getattr : string -> option (Z + string)
}.

(** ** 1. validate_address *)

Inductive address_family : Type := AF_UNIX | AF_INET | AF_INET6.

(** An address is a path or a literal passed through ([str]), or the pair
    [(ip, port)]. *)
Inductive pyaddr : Type :=
  | AStr (s : string)
  | APair (ip : string) (port : Z).

(** [socket.inet_aton] parses its argument as a C string (format [s], which
    refuses a [str] holding a NUL byte with [TypeError]) and hands it to the
    C library's [inet_aton]: up to four numbers separated by dots, each read
    as [strtoul] reads it in base 0 (leading [0x] and a hexadecimal digit:
    hexadecimal; leading [0]: octal), the last one filling the remaining
    bytes, optionally followed by white space. Where the routine returns 0,
    [socket.inet_aton] raises [socket.error]. *)
Module Inet.

Definition isxdigit_char (c : ascii) : bool :=
  Py.isdigit_char c
  || ((97 <=? Py.ord c) && (Py.ord c <=? 102))
  || ((65 <=? Py.ord c) && (Py.ord c <=? 70)).

Definition xdigit_value (c : ascii) : Z :=
  if Py.isdigit_char c then Py.digit_value c
  else if 97 <=? Py.ord c then Py.ord c - 97 + 10
  else Py.ord c - 65 + 10.

(** The inner loop: consume the digits of one number. *)
Fixpoint digits (base val : Z) (s : string) : option (Z * string) :=
  match s with
  | EmptyString => Some (val, s)
  | String c s' =>
      if Py.isdigit_char c then
        if (base =? 8) && (56 <=? Py.ord c) then None
        else digits base (val * base + Py.digit_value c) s'
      else if (base =? 16) && isxdigit_char c then
        digits base (val * 16 + xdigit_value c) s'
      else Some (val, s)
  end.

(** One number: the base is chosen from its prefix. A [0x] that no
    hexadecimal digit follows is the octal number [0], and the [x] is left
    unread. *)
Definition number (s : string) : option (Z * string) :=
  match s with
  | EmptyString => None
  | String c s' =>
      if negb (Py.isdigit_char c) then None
      else if Py.chr_eqb c "0" then
        match s' with
        | String x (String h s'') =>
            if (Py.chr_eqb x "x" || Py.chr_eqb x "X") && isxdigit_char h
            then digits 16 0 (String h s'')
            else digits 8 0 s'
        | _ => digits 8 0 s'
        end
      else digits 10 0 s
  end.

(** The outer loop; [room] is the number of dots still allowed
    ([pp >= parts + 3] fails). Returns the parts before the last number,
    the last number, and what follows it. *)
Fixpoint parts (room : nat) (acc : list Z) (s : string)
  : option (list Z * Z * string) :=
  match number s with
  | None => None
  | Some (val, rest) =>
      match rest with
      | String "." rest' =>
          match room with
          | O => None
          | S room' => parts room' (acc ++ [val]) rest'
          end
      | _ => Some (acc, val, rest)
      end
  end.

Definition trailing_ok (rest : string) : bool :=
  match rest with
  | EmptyString => true
  | String c _ => (Py.ord c <? 128) && Py.isspace_char c
  end.

Definition in_range (ps : list Z) (val : Z) : bool :=
  forallb (fun p => p <=? 255) ps &&
  match ps with
  | [] => val <=? 4294967295
  | [_] => val <=? 16777215
  | [_; _] => val <=? 65535
  | _ => val <=? 255
  end.

(** The C routine: [true] where it returns 1. *)
Definition aton (s : string) : bool :=
  match parts 3 [] s with
  | None => false
  | Some (ps, val, rest) => trailing_ok rest && in_range ps val
  end.

Definition has_nul (s : string) : bool := 0 <? Py.count "000" s.

Definition null_bytes : string :=
  "inet_aton() argument 1 must be string without null bytes, not str".

(** What a call of [socket.inet_aton] on a [str] comes to: the packed
    address, [socket.error], or the [TypeError] of the argument parser. *)
Inductive reply : Type :=
  | Packed
  | SocketError
  | NullBytes.

Definition inet_aton (s : string) : reply :=
  if has_nul s then NullBytes
  else if aton s then Packed
  else SocketError.

End Inet.

Section Address.

Variable W : world.

(** [WINDOWS = 'win' in sys.platform] *)
Definition WINDOWS : bool := Py.contains "win" (sys_platform W).

(** [validate_address] on a [str] argument, which is what both of its
    callers ([callback_address] and [update_from_conf_file]) pass; the
    [isinstance] tests then select the [basestring] branches. The handler
    around [socket.inet_aton] is [except socket.error]: the [TypeError] of a
    NUL byte passes it. *)
Definition validate_address (address : string) : result (pyaddr * address_family) :=
  match address with
  | EmptyString => Raise IndexError
  | String c0 _ =>
      if Py.chr_eqb c0 "/" || Py.chr_eqb c0 "." then
        if WINDOWS then
          Raise (ConfigurationError "Can't use an AF_UNIX socket on Windows.")
        else Ok (AStr (realpath W address), AF_UNIX)
      else if 1 <? Py.count ":" address then
        Ok (AStr address, AF_INET6)
      else
        let err := StringException ("Bad address " +:+ address) in
        if negb (Py.count ":" address =? 1) then Raise err
        else
          match map Py.strip (Py.split ":" address) with
          | [ip; port] =>
              (ip <- match ip with
                     | EmptyString => Ok "0.0.0.0"
                     | _ =>
                         match Inet.inet_aton ip with
                         | Inet.Packed => Ok ip
                         | Inet.SocketError => Raise err
                         | Inet.NullBytes =>
                             Raise (TypeError Inet.null_bytes)
                         end
                     end ;;
               port <- (if Py.isdigit port then Ok (Py.int_of_digits port)
                        else Raise err) ;;
               if (0 <=? port) && (port <=? 65535)
               then Ok (APair ip port, AF_INET)
               else Raise err)%result
          | _ => Raise (ValueError "need exactly 2 values to unpack")
          end
  end.

End Address.

(** ** os.path, POSIX flavour *)

Module Path.

(** [posixpath.join(a, b)] *)
Definition join2 (path b : string) : string :=
  if Py.startswith "/" b then b
  else match last (list_ascii_of_string path) with
       | None => b
       | Some c => if Py.chr_eqb c "/" then path +:+ b
                   else path +:+ "/" +:+ b
       end.

(** [posixpath.join(a, *p)] *)
Definition join (a : string) (p : list string) : string := fold_left join2 p a.

Definition isabs (s : string) : bool := Py.startswith "/" s.

(** [p[:p.rfind('/') + 1]] *)
Fixpoint upto_last_slash (p : string) : string :=
  match p with
  | EmptyString => EmptyString
  | String c p' =>
      if 0 <? Py.count "/" p then String c (upto_last_slash p') else EmptyString
  end.

(** [posixpath.dirname(p)] *)
Definition dirname (p : string) : string :=
  let head := upto_last_slash p in
  match head with
  | EmptyString => head
  | _ => if Py.all_chars (fun c => Py.chr_eqb c "/") head then head
         else Py.rstrip_by (fun c => Py.chr_eqb c "/") head
  end.

End Path.

(** ** Process-wide state *)

(** A handler of the logging package: where it writes, and the formatter
    and filters attached to it. The two formatter templates are kept by
    name. *)
Inductive handler_kind : Type :=
  | StreamHandler
  | RotatingFileHandler (filename mode : string) (maxBytes : Q) (backupCount : Z).

Record handler : Type := {
  kind : handler_kind;
  formatter : option string;
  filters : list string
}.

Record logger : Type := {
  handlers : list handler;
  level : Z + string;
  propagate : bool
}.

(** The state shared by the whole process: [sys.path], the mode slot behind
    [aspen.mode], and the logger named 'aspen'. *)
Record process : Type := {
  sys_path : list string;
  mode_slot : string;
  aspen_log : logger
}.

(** State and exceptions: a computation runs from a process state and
    delivers a value or an exception together with the state it leaves; the
    mutations made before a [raise] stay in effect. *)
Definition M (A : Type) : Type := process -> result A * process.

Definition ret {A : Type} (a : A) : M A := fun p => (Ok a, p).

Definition raise {A : Type} (e : exn) : M A := fun p => (Raise e, p).

Definition bind {A B : Type} (m : M A) (k : A -> M B) : M B :=
  fun p => match m p with
           | (Ok a, p') => k a p'
           | (Raise e, p') => (Raise e, p')
           end.

Definition lift {A : Type} (r : result A) : M A := fun p => (r, p).

Definition modify (f : process -> process) : M unit := fun p => (Ok tt, f p).

Declare Scope proc_scope.
Delimit Scope proc_scope with proc.
Bind Scope proc_scope with M.
Notation "x <- m ;; k" := (bind m (fun x => k))
  (at level 100, m at next level, k at level 200, right associativity)
  : proc_scope.
Notation "m ;;; k" := (bind m (fun _ => k))
  (at level 100, k at level 200, right associativity) : proc_scope.

(** Reading a local name: [None] is a local that has not been assigned. *)
Definition load_local {A : Type} (name : string) (v : option A) : M A :=
  match v with
  | Some a => ret a
  | None => raise (UnboundLocalError name)
  end.

(** [sys.path.insert(0, d)] *)
Definition sys_path_insert0 (d : string) : M unit :=
  modify (fun p => {| sys_path := d :: sys_path p;
                      mode_slot := mode_slot p;
                      aspen_log := aspen_log p |}).

(** Modelled from the spec: the module [aspen.mode], which is imported here
    and lives outside this file. Section 6 describes it as a single
    process-wide current-mode slot that is read at start and written back on
    mode overrides: [get] returns the slot and [set] stores into it. *)
Module mode.

Definition get : M string := fun p => (Ok (mode_slot p), p).

Definition set (m : string) : M unit :=
  modify (fun p => {| sys_path := sys_path p;
                      mode_slot := m;
                      aspen_log := aspen_log p |}).

End mode.

(** ** 3. Paths *)

Module Paths.

(** The attributes of a [Paths] object; all but [root] can be [None]. *)
Record t : Type := {
  root : string;
  aspen_conf : option string;
  etc : option string;
  lib : option string;
  pkg : option string;
  plat : option string
}.

Section Init.

Variable W : world.

(** [Paths(root)]. The local names [lib], [pkg] and [plat] of the
    constructor are the strings looked for; the attributes are the
    options stored. *)
Definition __init__ (root : string) : M t :=
  let aspen_conf := Path.join root ["aspen.conf"] in
  let has_aspen_conf := isfile W aspen_conf in
  let etc_aspen_conf := Path.join root ["etc"; "aspen.conf"] in
  let has_etc_aspen_conf := isfile W etc_aspen_conf in
  if has_aspen_conf && has_etc_aspen_conf then
    raise (ConfigurationError
             "Only one of aspen.conf and etc/aspen.conf may be present.")
  else
    let self_etc :=
      if has_aspen_conf then None
      else if has_etc_aspen_conf then Some (Path.join root ["etc"])
      else None in
    let self_aspen_conf :=
      if has_aspen_conf then Some aspen_conf
      else if has_etc_aspen_conf then Some etc_aspen_conf
      else None in
    match self_etc with
    | None =>
        ret {| root := root; aspen_conf := self_aspen_conf; etc := self_etc;
               lib := None; pkg := None; plat := None |}
    | Some _ =>
        (found <-
           (let lib := Path.join root ["lib"; "python"] in
            if isdir W lib then
              sys_path_insert0 lib ;;; ret (lib, Some lib)
            else
              let lib := Path.join root
                           ["lib"; "python" +:+ Py.take 3 (sys_version W)] in
              if isdir W lib then
                sys_path_insert0 lib ;;; ret (lib, Some lib)
              else ret (lib, None)) ;;
         let lib := fst found in
         let self_lib := snd found in
         let pkg := Path.join lib ["site-packages"] in
         self_pkg <-
           (if isdir W pkg then sys_path_insert0 pkg ;;; ret (Some pkg)
            else ret None) ;;
         let plat := Path.join lib ["plat-" +:+ sys_platform W] in
         self_plat <-
           (if isdir W plat then sys_path_insert0 plat ;;; ret (Some plat)
            else ret None) ;;
         ret {| root := root; aspen_conf := self_aspen_conf; etc := self_etc;
                lib := self_lib; pkg := self_pkg; plat := self_plat |})%proc
    end.

End Init.

End Paths.

(** ** 2. optparse *)

(** The option values that [optparser.parse_args] delivers. [sockfam] and
    the two [have_] flags exist only once a callback has stored them:
    [sockfam] is [None] and the flags are [false] until then, which is what
    [getattr(opts, 'have_address', False)] reads. *)
Module Values.

Record t : Type := {
  address : pyaddr;
  sockfam : option address_family;
  have_address : bool;
  mode : string;
  have_mode : bool;
  root : string
}.

End Values.

Module Optparse.

Inductive opt : Type := OptAddress | OptMode | OptRoot | OptHelp.

Definition choices : list string :=
  ["debugging"; "deb"; "development"; "dev";
   "staging"; "st"; "production"; "prod"].

Definition short_opt (c : ascii) : option opt :=
  if Py.chr_eqb c "a" then Some OptAddress
  else if Py.chr_eqb c "m" then Some OptMode
  else if Py.chr_eqb c "r" then Some OptRoot
  else if Py.chr_eqb c "h" then Some OptHelp
  else None.

(** [_match_abbrev]: the exact name or a prefix of exactly one long option;
    the four names start with different letters. *)
Definition long_opt (s : string) : option opt :=
  match s with
  | String "-" (String "-" (String _ _)) =>
      if Py.startswith s "--address" then Some OptAddress
      else if Py.startswith s "--mode" then Some OptMode
      else if Py.startswith s "--root" then Some OptRoot
      else if Py.startswith s "--help" then Some OptHelp
      else None
  | _ => None
  end.

(** [arg.split("=", 1)]: the text before the first [=], and the text after
    it when there is one. *)
Fixpoint split_eq (s : string) : string * option string :=
  match s with
  | EmptyString => (EmptyString, None)
  | String c s' =>
      if Py.chr_eqb c "=" then (EmptyString, Some s')
      else let r := split_eq s' in (String c (fst r), snd r)
  end.

Section Parser.

Variable W : world.

Definition defaults : Values.t :=
  {| Values.address := APair "0.0.0.0" 8080;
     Values.sockfam := None;
     Values.have_address := false;
     Values.mode := "development";
     Values.have_mode := false;
     Values.root := getcwd W |}.

Definition callback_address (value : string) (values : Values.t)
  : result Values.t :=
  (r <- validate_address W value ;;
   Ok {| Values.address := fst r;
         Values.sockfam := Some (snd r);
         Values.have_address := true;
         Values.mode := Values.mode values;
         Values.have_mode := Values.have_mode values;
         Values.root := Values.root values |})%result.

Definition callback_root (value : string) (values : Values.t)
  : result Values.t :=
  let value := realpath W value in
  if negb (isdir W value) then
    Raise (OptionValueError (value +:+ " does not point to a directory"))
  else
    Ok {| Values.address := Values.address values;
          Values.sockfam := Values.sockfam values;
          Values.have_address := Values.have_address values;
          Values.mode := Values.mode values;
          Values.have_mode := Values.have_mode values;
          Values.root := value |}.

Definition callback_mode (value : string) (values : Values.t)
  : result Values.t :=
  Ok {| Values.address := Values.address values;
        Values.sockfam := Values.sockfam values;
        Values.have_address := Values.have_address values;
        Values.mode := value;
        Values.have_mode := true;
        Values.root := Values.root values |}.

(** [Option.process]: check the value against the option's type, then
    run its callback. *)
Definition process (o : opt) (value : string) (values : Values.t)
  : result Values.t :=
  match o with
  | OptAddress => callback_address value values
  | OptMode =>
      if existsb (String.eqb value) choices then callback_mode value values
      else Raise (OptionValueError ("invalid choice: " +:+ value))
  | OptRoot => callback_root value values
  | OptHelp => Raise (SystemExit 0)
  end.

(** [_process_args]: options may be mixed with positional arguments;
    [--] ends the options. *)
Fixpoint process_args (rargs largs : list string) (values : Values.t)
  : result (Values.t * list string) :=
  match rargs with
  | [] => Ok (values, largs)
  | arg :: rest =>
      if String.eqb arg "--" then Ok (values, largs ++ rest)
      else if Py.startswith "--" arg then
        let name := fst (split_eq arg) in
        match long_opt name, snd (split_eq arg) with
        | None, _ => Raise (OptionValueError ("no such option: " +:+ name))
        | Some OptHelp, Some _ =>
            Raise (OptionValueError "--help option does not take a value")
        | Some OptHelp, None => Raise (SystemExit 0)
        | Some o, Some value =>
            (values <- process o value values ;;
             process_args rest largs values)%result
        | Some o, None =>
            match rest with
            | [] => Raise (OptionValueError (name +:+ " option requires an argument"))
            | value :: rest' =>
                (values <- process o value values ;;
                 process_args rest' largs values)%result
            end
        end
      else
        match arg with
        | String "-" (String ch tail) =>
            match short_opt ch, tail with
            | None, _ =>
                Raise (OptionValueError
                         ("no such option: -" +:+ String ch EmptyString))
            | Some OptHelp, _ => Raise (SystemExit 0)
            | Some o, String _ _ =>
                (values <- process o tail values ;;
                 process_args rest largs values)%result
            | Some o, EmptyString =>
                match rest with
                | [] => Raise (OptionValueError "option requires an argument")
                | value :: rest' =>
                    (values <- process o value values ;;
                     process_args rest' largs values)%result
                end
            end
        | _ => process_args rest (largs ++ [arg]) values
        end
  end.

(** [optparser.parse_args(argv)]: a bad option or option value ends the
    process through [parser.error]; what a callback raises otherwise
    passes through. *)
Definition parse_args (argv : list string) : result (Values.t * list string) :=
  match process_args argv [] defaults with
  | Raise (OptionValueError _) => Raise (SystemExit 2)
  | r => r
  end.

End Parser.

End Optparse.

(** ** 4. ConfFile *)

Module ConfFile.

(** The state of a RawConfigParser: the options of the [DEFAULT] section,
    and the other sections by name. *)
Record t : Type := {
  _defaults : gmap string string;
  _sections : gmap string (gmap string string)
}.

Definition RawConfigParser : t := {| _defaults := ∅; _sections := ∅ |}.

(** [cursect[optionxform(optname.rstrip())] = optval], line after line. *)
Definition read_options (lines : list (string * string))
  (cursect : gmap string string) : gmap string string :=
  fold_left (fun d kv => <[Py.lower (Py.rstrip (fst kv)) := snd kv]> d)
            lines cursect.

(** One section of the file, as [RawConfigParser._read] files it: under
    its name when the name is already known, in [_defaults] when it is
    [DEFAULT], and as a new section otherwise. *)
Definition read_section (self : t) (sec : ini_section) : t :=
  let sectname := fst sec in
  match _sections self !! sectname with
  | Some cursect =>
      {| _defaults := _defaults self;
         _sections := <[sectname := read_options (snd sec) cursect]>
                        (_sections self) |}
  | None =>
      if String.eqb sectname "DEFAULT" then
        {| _defaults := read_options (snd sec) (_defaults self);
           _sections := _sections self |}
      else
        {| _defaults := _defaults self;
           _sections :=
             <[sectname := read_options (snd sec) {["__name__" := sectname]}]>
               (_sections self) |}
  end.

Definition readfp (self : t) (fp : list ini_section) : t :=
  fold_left read_section fp self.

(** "The DEFAULT section is not acknowledged." *)
Definition has_section (self : t) (section : string) : bool :=
  bool_decide (is_Some (_sections self !! section)).

(** [dict(self.items(section))] for a section that is present: the
    defaults, updated with the section, without [__name__]. *)
Definition items (self : t) (section : string) : option (gmap string string) :=
  match _sections self !! section with
  | Some d2 => Some (delete "__name__" (d2 ∪ _defaults self))
  | None =>
      if String.eqb section "DEFAULT"
      then Some (delete "__name__" (_defaults self))
      else None
  end.

(** [self.has_section(name) and dict(self.items(name)) or {}] *)
Definition __getitem__ (self : t) (name : string) : gmap string string :=
  if has_section self name then
    match items self name with
    | Some d => d
    | None => ∅
    end
  else ∅.

(** Attribute access falls back on item access; no attribute of the
    class is called [DEFAULT] or [logging]. *)
Definition __getattr__ (self : t) (name : string) : gmap string string :=
  __getitem__ self name.

(** The iteration API. [sections()] lists the keys of [_sections]; the
    generators are embedded as the lists of what they yield. *)
Definition sections (self : t) : list string :=
  map fst (map_to_list (_sections self)).

Definition iterkeys (self : t) : list string := sections self.

Definition iteritems (self : t) : list (string * gmap string string) :=
  map (fun k => (k, __getitem__ self k)) (iterkeys self).

Definition itervalues (self : t) : list (gmap string string) :=
  map (fun k => __getitem__ self k) (iterkeys self).

Section Init.

Variable W : world.

(** [ConfFile(filepath)]; [None] is the default [False], and the empty
    string is as false as it. *)
Definition __init__ (filepath : option string) : result t :=
  match filepath with
  | None | Some EmptyString => Ok RawConfigParser
  | Some path =>
      match open_ini W path with
      | None => Raise (IOError path)
      | Some None => Raise (ParsingError path)
      | Some (Some fp) => Ok (readfp RawConfigParser fp)
      end
  end.

End Init.

End ConfFile.

(** ** 5. Configuration *)

Definition MEGABYTE : Z := 2 ^ 20.

Definition COMMANDS : list string := ["start"; "status"; "stop"; "restart"; "runfg"].

(** The logger named 'aspen'. A handler that was just constructed is not
    among the handlers already attached, so [addHandler] appends it. *)
Module Logger.

Definition set_handlers (hs : list handler) (self : logger) : logger :=
  {| handlers := hs; level := level self; propagate := propagate self |}.

Definition addHandler (hdlr : handler) (self : logger) : logger :=
  set_handlers (handlers self ++ [hdlr]) self.

Definition setLevel (lvl : Z + string) (self : logger) : logger :=
  {| handlers := handlers self; level := lvl; propagate := propagate self |}.

Definition set_propagate (b : bool) (self : logger) : logger :=
  {| handlers := handlers self; level := level self; propagate := b |}.

End Logger.

(** [aspen_log = logging.getLogger('aspen')] followed by an update of it. *)
Definition with_aspen_log (f : logger -> logger) : M unit :=
  modify (fun p => {| sys_path := sys_path p;
                      mode_slot := mode_slot p;
                      aspen_log := f (aspen_log p) |}).

Module Configuration.

(** The attributes of a [Configuration] that hold configuration data
    ([apps], [middleware] and [optparser] are left out: the first two stay
    [None], the third holds the module's parser object). *)
Record t : Type := {
  argv : list string;
  args : option (list string);
  conf : option ConfFile.t;
  opts : option Values.t;
  paths : option Paths.t;
  address : pyaddr;
  command : string;
  daemon : bool;
  defaults : list string;
  http_version : string;
  log_filepath : string;
  log_filter : string;
  log_format : string;
  log_keep : Z;
  log_level : Z + string;
  log_size : Q;
  sockfam : address_family;
  threads : Z;
  verbosity : Z;
  _mode : string
}.

(** [self.<attribute> = v], one definition per attribute assigned. *)
Definition set_args (v : option (list string)) (self : t) : t :=
  {| argv := argv self; args := v; conf := conf self; opts := opts self;
     paths := paths self; address := address self; command := command self;
     daemon := daemon self; defaults := defaults self;
     http_version := http_version self; log_filepath := log_filepath self;
     log_filter := log_filter self; log_format := log_format self;
     log_keep := log_keep self; log_level := log_level self;
     log_size := log_size self; sockfam := sockfam self;
     threads := threads self; verbosity := verbosity self;
     _mode := _mode self |}.

Definition set_conf (v : option ConfFile.t) (self : t) : t :=
  {| argv := argv self; args := args self; conf := v; opts := opts self;
     paths := paths self; address := address self; command := command self;
     daemon := daemon self; defaults := defaults self;
     http_version := http_version self; log_filepath := log_filepath self;
     log_filter := log_filter self; log_format := log_format self;
     log_keep := log_keep self; log_level := log_level self;
     log_size := log_size self; sockfam := sockfam self;
     threads := threads self; verbosity := verbosity self;
     _mode := _mode self |}.

Definition set_opts (v : option Values.t) (self : t) : t :=
  {| argv := argv self; args := args self; conf := conf self; opts := v;
     paths := paths self; address := address self; command := command self;
     daemon := daemon self; defaults := defaults self;
     http_version := http_version self; log_filepath := log_filepath self;
     log_filter := log_filter self; log_format := log_format self;
     log_keep := log_keep self; log_level := log_level self;
     log_size := log_size self; sockfam := sockfam self;
     threads := threads self; verbosity := verbosity self;
     _mode := _mode self |}.

Definition set_paths (v : option Paths.t) (self : t) : t :=
  {| argv := argv self; args := args self; conf := conf self;
     opts := opts self; paths := v; address := address self;
     command := command self; daemon := daemon self;
     defaults := defaults self; http_version := http_version self;
     log_filepath := log_filepath self; log_filter := log_filter self;
     log_format := log_format self; log_keep := log_keep self;
     log_level := log_level self; log_size := log_size self;
     sockfam := sockfam self; threads := threads self;
     verbosity := verbosity self; _mode := _mode self |}.

Definition set_address (v : pyaddr) (self : t) : t :=
  {| argv := argv self; args := args self; conf := conf self;
     opts := opts self; paths := paths self; address := v;
     command := command self; daemon := daemon self;
     defaults := defaults self; http_version := http_version self;
     log_filepath := log_filepath self; log_filter := log_filter self;
     log_format := log_format self; log_keep := log_keep self;
     log_level := log_level self; log_size := log_size self;
     sockfam := sockfam self; threads := threads self;
     verbosity := verbosity self; _mode := _mode self |}.

Definition set_command (v : string) (self : t) : t :=
  {| argv := argv self; args := args self; conf := conf self;
     opts := opts self; paths := paths self; address := address self;
     command := v; daemon := daemon self; defaults := defaults self;
     http_version := http_version self; log_filepath := log_filepath self;
     log_filter := log_filter self; log_format := log_format self;
     log_keep := log_keep self; log_level := log_level self;
     log_size := log_size self; sockfam := sockfam self;
     threads := threads self; verbosity := verbosity self;
     _mode := _mode self |}.

Definition set_daemon (v : bool) (self : t) : t :=
  {| argv := argv self; args := args self; conf := conf self;
     opts := opts self; paths := paths self; address := address self;
     command := command self; daemon := v; defaults := defaults self;
     http_version := http_version self; log_filepath := log_filepath self;
     log_filter := log_filter self; log_format := log_format self;
     log_keep := log_keep self; log_level := log_level self;
     log_size := log_size self; sockfam := sockfam self;
     threads := threads self; verbosity := verbosity self;
     _mode := _mode self |}.

Definition set_defaults (v : list string) (self : t) : t :=
  {| argv := argv self; args := args self; conf := conf self;
     opts := opts self; paths := paths self; address := address self;
     command := command self; daemon := daemon self; defaults := v;
     http_version := http_version self; log_filepath := log_filepath self;
     log_filter := log_filter self; log_format := log_format self;
     log_keep := log_keep self; log_level := log_level self;
     log_size := log_size self; sockfam := sockfam self;
     threads := threads self; verbosity := verbosity self;
     _mode := _mode self |}.

Definition set_http_version (v : string) (self : t) : t :=
  {| argv := argv self; args := args self; conf := conf self;
     opts := opts self; paths := paths self; address := address self;
     command := command self; daemon := daemon self;
     defaults := defaults self; http_version := v;
     log_filepath := log_filepath self; log_filter := log_filter self;
     log_format := log_format self; log_keep := log_keep self;
     log_level := log_level self; log_size := log_size self;
     sockfam := sockfam self; threads := threads self;
     verbosity := verbosity self; _mode := _mode self |}.

Definition set_log_filter (v : string) (self : t) : t :=
  {| argv := argv self; args := args self; conf := conf self;
     opts := opts self; paths := paths self; address := address self;
     command := command self; daemon := daemon self;
     defaults := defaults self; http_version := http_version self;
     log_filepath := log_filepath self; log_filter := v;
     log_format := log_format self; log_keep := log_keep self;
     log_level := log_level self; log_size := log_size self;
     sockfam := sockfam self; threads := threads self;
     verbosity := verbosity self; _mode := _mode self |}.

Definition set_log_format (v : string) (self : t) : t :=
  {| argv := argv self; args := args self; conf := conf self;
     opts := opts self; paths := paths self; address := address self;
     command := command self; daemon := daemon self;
     defaults := defaults self; http_version := http_version self;
     log_filepath := log_filepath self; log_filter := log_filter self;
     log_format := v; log_keep := log_keep self; log_level := log_level self;
     log_size := log_size self; sockfam := sockfam self;
     threads := threads self; verbosity := verbosity self;
     _mode := _mode self |}.

Definition set_log_keep (v : Z) (self : t) : t :=
  {| argv := argv self; args := args self; conf := conf self;
     opts := opts self; paths := paths self; address := address self;
     command := command self; daemon := daemon self;
     defaults := defaults self; http_version := http_version self;
     log_filepath := log_filepath self; log_filter := log_filter self;
     log_format := log_format self; log_keep := v;
     log_level := log_level self; log_size := log_size self;
     sockfam := sockfam self; threads := threads self;
     verbosity := verbosity self; _mode := _mode self |}.

Definition set_log_level (v : Z + string) (self : t) : t :=
  {| argv := argv self; args := args self; conf := conf self;
     opts := opts self; paths := paths self; address := address self;
     command := command self; daemon := daemon self;
     defaults := defaults self; http_version := http_version self;
     log_filepath := log_filepath self; log_filter := log_filter self;
     log_format := log_format self; log_keep := log_keep self;
     log_level := v; log_size := log_size self; sockfam := sockfam self;
     threads := threads self; verbosity := verbosity self;
     _mode := _mode self |}.

Definition set_log_size (v : Q) (self : t) : t :=
  {| argv := argv self; args := args self; conf := conf self;
     opts := opts self; paths := paths self; address := address self;
     command := command self; daemon := daemon self;
     defaults := defaults self; http_version := http_version self;
     log_filepath := log_filepath self; log_filter := log_filter self;
     log_format := log_format self; log_keep := log_keep self;
     log_level := log_level self; log_size := v; sockfam := sockfam self;
     threads := threads self; verbosity := verbosity self;
     _mode := _mode self |}.

Definition set_sockfam (v : address_family) (self : t) : t :=
  {| argv := argv self; args := args self; conf := conf self;
     opts := opts self; paths := paths self; address := address self;
     command := command self; daemon := daemon self;
     defaults := defaults self; http_version := http_version self;
     log_filepath := log_filepath self; log_filter := log_filter self;
     log_format := log_format self; log_keep := log_keep self;
     log_level := log_level self; log_size := log_size self; sockfam := v;
     threads := threads self; verbosity := verbosity self;
     _mode := _mode self |}.

Definition set_threads (v : Z) (self : t) : t :=
  {| argv := argv self; args := args self; conf := conf self;
     opts := opts self; paths := paths self; address := address self;
     command := command self; daemon := daemon self;
     defaults := defaults self; http_version := http_version self;
     log_filepath := log_filepath self; log_filter := log_filter self;
     log_format := log_format self; log_keep := log_keep self;
     log_level := log_level self; log_size := log_size self;
     sockfam := sockfam self; threads := v; verbosity := verbosity self;
     _mode := _mode self |}.

Definition set__mode (v : string) (self : t) : t :=
  {| argv := argv self; args := args self; conf := conf self;
     opts := opts self; paths := paths self; address := address self;
     command := command self; daemon := daemon self;
     defaults := defaults self; http_version := http_version self;
     log_filepath := log_filepath self; log_filter := log_filter self;
     log_format := log_format self; log_keep := log_keep self;
     log_level := log_level self; log_size := log_size self;
     sockfam := sockfam self; threads := threads self;
     verbosity := verbosity self; _mode := v |}.

Section Methods.

Variable W : world.

(** The attributes before the updates. *)
Definition initial (argv : list string) : t :=
  {| argv := argv; args := None; conf := None; opts := None; paths := None;
     address := APair EmptyString 8080;
     command := "runfg";
     daemon := false;
     defaults := ["index.html"; "index.htm"];
     http_version := "1.1";
     log_filepath := Path.join "var" ["aspen.log"];
     log_filter := EmptyString;
     log_format := "compact";
     log_keep := 5;
     log_level := inl 20;
     log_size := 1%Q;
     sockfam := AF_INET;
     threads := 10;
     verbosity := 1;
     _mode := "development" |}.

Definition update_from_environment (self : t) : M t :=
  (m <- mode.get ;;
   ret (set__mode m self))%proc.

Definition update_from_command_line (self : t) (argv : list string) : M t :=
  (parsed <- lift (Optparse.parse_args W argv) ;;
   let opts := fst parsed in
   let args := snd parsed in
   paths <- Paths.__init__ W (Values.root opts) ;;
   let self := set_opts (Some opts) self in
   let self := set_args (Some args) self in
   let self := set_paths (Some paths) self in
   (* command/daemon: [len(args) > 1 and args[1] or 'runfg'] *)
   let command := match args with
                  | _ :: EmptyString :: _ => "runfg"
                  | _ :: arg1 :: _ => arg1
                  | _ => "runfg"
                  end in
   if negb (existsb (String.eqb command) COMMANDS) then
     raise (ConfigurationError ("Bad command: " +:+ command))
   else
     let daemon := negb (String.eqb command "runfg") in
     if daemon && WINDOWS W then
       raise (ConfigurationError "Can only daemonize on UNIX.")
     else
       let self := set_command command self in
       let self := set_daemon daemon self in
       (* address/sockfam *)
       self <- (if Values.have_address opts then
                  match Values.sockfam opts with
                  | Some fam =>
                      ret (set_sockfam fam
                             (set_address (Values.address opts) self))
                  | None => raise (AttributeError "sockfam")
                  end
                else ret self) ;;
       (* mode *)
       self <- (if Values.have_mode opts then
                  mode.set (Values.mode opts) ;;;
                  ret (set__mode (Values.mode opts) self)
                else ret self) ;;
       ret self)%proc.

(** The [logging] section of [update_from_conf_file]. The [filepath]
    value is checked and then dropped: the block ends without an
    assignment to [self.log_filepath]. *)
Definition update_logging (root : string) (logging : gmap string string)
  (self : t) : M t :=
  (_ <- match logging !! "filepath" with
        | Some value =>
            let value := if negb (Path.isabs value)
                         then Path.join root [value] else value in
            if negb (isdir W (Path.dirname value)) then
              raise (ConfigurationError
                       ("Log file's parent directory does not exist: "
                        +:+ value))
            else ret tt
        | None => ret tt
        end ;;
   self <- match logging !! "filter" with
           | Some value => ret (set_log_filter value self)
           | None => ret self
           end ;;
   self <- match logging !! "format" with
           | Some value =>
               let value := Py.lower value in
               if negb (existsb (String.eqb value) ["compact"; "verbose"])
               then raise (ConfigurationError ("Bad log format: " +:+ value))
               else ret (set_log_format value self)
           | None => ret self
           end ;;
   self <- match logging !! "level" with
           | Some value =>
               match logging_getattr W (Py.upper value) with
               | Some lvl => ret (set_log_level lvl self)
               | None =>
                   raise (ConfigurationError ("Bad log level: " +:+ value))
               end
           | None => ret self
           end ;;
   self <- match logging !! "size" with
           | Some value =>
               match float W value with
               | Some x => ret (set_log_size x self)
               | None =>
                   raise (ConfigurationError ("Bad logfile size: " +:+ value))
               end
           | None => ret self
           end ;;
   self <- match logging !! "keep" with
           | Some value =>
               match Py.int value with
               | Some n => ret (set_log_keep n self)
               | None =>
                   raise (ConfigurationError
                            ("Bad number of log files to keep: " +:+ value))
               end
           | None => ret self
           end ;;
   ret self)%proc.

Definition update_from_conf_file (self : t) : M t :=
  match paths self with
  | None => raise (AttributeError "aspen_conf")
  | Some paths =>
      match Paths.aspen_conf paths with
      | None =>
          (conf <- lift (ConfFile.__init__ W None) ;;
           ret (set_conf (Some conf) self))%proc
      | Some aspen_conf =>
          (conf <- lift (ConfFile.__init__ W (Some aspen_conf)) ;;
           let self := set_conf (Some conf) self in
           let DEFAULT := ConfFile.__getattr__ conf "DEFAULT" in
           (* address *)
           self <- match DEFAULT !! "address" with
                   | Some value =>
                       r <- lift (validate_address W value) ;;
                       ret (set_sockfam (snd r) (set_address (fst r) self))
                   | None => ret self
                   end ;;
           (* defaults *)
           self <- match DEFAULT !! "defaults" with
                   | Some defaults =>
                       let defaults :=
                         if 0 <? Py.count "," defaults
                         then map Py.strip (Py.split "," defaults)
                         else Py.split_ws defaults in
                       ret (set_defaults defaults self)
                   | None => ret self
                   end ;;
           (* http_version *)
           self <- match DEFAULT !! "http_version" with
                   | Some http_version =>
                       if negb (existsb (String.eqb http_version) ["1.0"; "1.1"])
                       then raise (TypeError
                                     ("http_version must be 1.0 or 1.1, not '"
                                      +:+ http_version +:+ "'"))
                       else ret (set_http_version http_version self)
                   | None => ret self
                   end ;;
           (* logging *)
           let logging := ConfFile.__getattr__ conf "logging" in
           self <- (if bool_decide (logging = ∅) then ret self
                    else update_logging (Paths.root paths) logging self) ;;
           (* mode *)
           self <- match DEFAULT !! "mode" with
                   | Some value =>
                       mode.set value ;;; ret (set__mode value self)
                   | None => ret self
                   end ;;
           (* threads: the test names the local [threads], which is
              assigned only inside the block the test guards *)
           key <- load_local "threads" (@None string) ;;
           match DEFAULT !! key with
           | Some _ =>
               match DEFAULT !! "threads" with
               | None => raise (KeyError "threads")
               | Some threads =>
                   if negb (Py.isdigit threads) then
                     raise (TypeError
                              ("thread count not a positive integer: '"
                               +:+ threads +:+ "'"))
                   else
                     let threads := Py.int_of_digits threads in
                     if negb (1 <=? threads) then
                       raise (ValueError
                                ("thread count less than 1: '"
                                 +:+ Py.str_of_int threads +:+ "'"))
                     else ret (set_threads threads self)
               end
           | None => ret self
           end)%proc
      end
  end.

(** "Propagate logging configuration": the last part of the
    constructor. *)
Definition configure_logging (self : t) : M unit :=
  (format <- (if String.eqb (log_format self) "compact" then ret "compact"
              else if String.eqb (log_format self) "verbose" then ret "verbose"
              else raise (ConfigurationError "Sanity check.")) ;;
   let filt := log_filter self in
   k <- (if negb (daemon self) then ret StreamHandler
         else if can_append W (log_filepath self) then
           ret (RotatingFileHandler (log_filepath self) "a"
                  (log_size self * inject_Z MEGABYTE)%Q (log_keep self))
         else raise (IOError (log_filepath self))) ;;
   let handler := {| kind := k; formatter := Some format; filters := [filt] |} in
   with_aspen_log (Logger.set_handlers []) ;;;
   with_aspen_log (Logger.addHandler handler) ;;;
   with_aspen_log (Logger.setLevel (log_level self)) ;;;
   with_aspen_log (Logger.set_propagate false))%proc.

(** [Configuration(argv)] *)
Definition __init__ (argv : list string) : M t :=
  (let self := initial argv in
   self <- update_from_environment self ;;
   self <- update_from_command_line self argv ;;
   self <- update_from_conf_file self ;;
   configure_logging self ;;;
   ret self)%proc.

End Methods.

End Configuration.

(** ** Vocabulary of the properties *)

(** A decimal octet as it is written in a dotted quad: digits only, no
    leading zero, value at most 255. *)
Definition dec_octet (s : string) : bool :=
  Py.isdigit s
  && match s with
     | String "0" (String _ _) => false
     | _ => true
     end
  && (Py.int_of_digits s <=? 255).

(** A dotted quad: four decimal octets separated by dots. *)
Definition dotted_quad (h : string) : bool :=
  match Py.split "." h with
  | [a; b; c; d] => dec_octet a && dec_octet b && dec_octet c && dec_octet d
  | _ => false
  end.

(** The host that [validate_address] reports for the host part [h]. *)
Definition normalized_host (h : string) : string :=
  match h with
  | EmptyString => "0.0.0.0"
  | _ => h
  end.

(** An outcome that is an exception of class [ConfigurationError] (or of a
    specialization of it). *)
Definition raises_ConfigurationError {A : Type} (r : result A) : Prop :=
  exists e, r = Raise e /\ is_ConfigurationError e = true.

(** The library directory that [Paths] settles on for a root: [lib/python]
    when it is a directory, the version-suffixed name otherwise. *)
Definition lib_dir (W : world) (root : string) : string :=
  if isdir W (Path.join root ["lib"; "python"])
  then Path.join root ["lib"; "python"]
  else Path.join root ["lib"; "python" +:+ Py.take 3 (sys_version W)].

(** ** Sample surroundings *)

Module Sample.

Definition mem (s : string) (l : list string) : bool := existsb (String.eqb s) l.

(** A POSIX host with the given files and directories; [conf] is the
    content of every conf file that can be opened. *)
Definition host (files dirs : list string) (conf : list ini_section) : world :=
  {| sys_platform := "linux2";
     sys_version := "2.5.1 (r251:54863)";
     getcwd := "/srv/www";
     realpath := fun s => s;
     isfile := fun s => mem s files;
     isdir := fun s => mem s dirs;
     open_ini := fun s => if mem s files then Some (Some conf) else None;
     can_append := fun s => mem (Path.dirname s) dirs;
     float := fun s => option_map inject_Z (Py.int s);
     logging_getattr := fun s =>
       if String.eqb s "DEBUG" then Some (inl 10)
       else if String.eqb s "INFO" then Some (inl 20)
       else if String.eqb s "WARNING" then Some (inl 30)
       else if String.eqb s "ERROR" then Some (inl 40)
       else if String.eqb s "CRITICAL" then Some (inl 50)
       else None |}.

Definition bare : world := host [] ["/srv/www"] [].

(** A root with [etc/aspen.conf] and the three library directories. *)
Definition with_lib : world :=
  host ["/srv/www/etc/aspen.conf"]
       ["/srv/www"; "/srv/www/lib/python";
        "/srv/www/lib/python/site-packages";
        "/srv/www/lib/python/plat-linux2"] [].

(** A root with both conf files. *)
Definition both_confs : world :=
  host ["/srv/www/aspen.conf"; "/srv/www/etc/aspen.conf"] ["/srv/www"] [].

(** A root with [aspen.conf] of the given content. *)
Definition with_conf (conf : list ini_section) : world :=
  host ["/srv/www/aspen.conf"] ["/srv/www"; "/var/log"] conf.

Definition logger0 : logger :=
  {| handlers := []; level := inl 0; propagate := true |}.

(** A process whose mode slot holds [m]. *)
Definition process_in (m : string) : process :=
  {| sys_path := ["/usr/lib/python2.5"]; mode_slot := m; aspen_log := logger0 |}.

(** A process whose 'aspen' logger already carries two handlers. *)
Definition process_with_handlers : process :=
  {| sys_path := ["/usr/lib/python2.5"];
     mode_slot := "development";
     aspen_log :=
       {| handlers :=
            [{| kind := RotatingFileHandler "/var/log/old.log" "a" 1 3;
                formatter := Some "verbose"; filters := ["aspen.old"] |};
             {| kind := StreamHandler; formatter := None; filters := [] |}];
          level := inl 40;
          propagate := true |} |}.

Definition conf_mode : list ini_section := [("DEFAULT", [("mode", "production")])].

Definition conf_threads (n : string) : list ini_section :=
  [("DEFAULT", [("threads", n)])].

Definition conf_filepath (path : string) : list ini_section :=
  [("logging", [("filepath", path)])].

End Sample.

(** A computation that ends in an exception from every state. *)
Definition always_raises {A : Type} (m : M A) : Prop :=
  forall p, exists e p', m p = (Raise e, p').

(** A computation whose successful results all satisfy [P]. *)
Definition returns {A : Type} (P : A -> Prop) (m : M A) : Prop :=
  forall p a p', m p = (Ok a, p') -> P a.

(** What may follow a number of a dotted quad: nothing, or a dot. *)
Definition at_boundary (rest : string) : Prop :=
  rest = EmptyString \/ exists r, rest = String "." r.

(** The characters of a dotted quad: digits and dots. *)
Definition host_char (c : ascii) : bool := Py.isdigit_char c || Py.chr_eqb c ".".

(** A computation that leaves the process state as it found it. *)
Definition stateless {A : Type} (m : M A) : Prop :=
  forall p r p', m p = (r, p') -> p' = p.

(** ** 6. The static handler and the static application *)

(** [handlers/static.py] and [apps/static.py] read the conf file object
    [aspen.conf], reach the filesystem and the mimetypes, rfc822 and time
    libraries, and answer through [start_response]. What the debugging and
    development modes print is left out. *)
Module Static.

(** What these two modules raise. [ConfigError] is imported from
    [aspen.exceptions] and built from a message, a file name and a line. *)
Inductive error : Type :=
  | ConfigError (msg filename lineno : string)
  | NotImplementedError
  | AssertionError
  | KeyError (key : string)
  | OSError (path : string)
  | IOError (path : string)
  | TypeError (msg : string)
  | Failure (what : string).

Inductive outcome (A : Type) : Type :=
  | Return (a : A)
  | Throw (e : error).

Arguments Return {A} a.
Arguments Throw {A} e.

(** The libraries and the filesystem. [stat path] gives [st_mtime] and
    [st_size], or [None] for an [OSError]; [guess_type path] is the first
    component of [mimetypes.guess_type]; [parsedate] and [gmtime] deliver
    time tuples, [parsedate] giving [None] for a date it cannot read;
    [open_rb path] is the content of a file that can be opened. *)
Record env : Type := {
  isdir : string -> bool;
  isfile : string -> bool;
  stat : string -> option (Z * Z);
  guess_type : string -> option string;
  parsedate : string -> option (list Z);
  gmtime : Z -> list Z;
  formatdate : Z -> string;
  open_rb : string -> option (list Byte.byte)
}.

(** *** Import-time configuration *)

(** [str(val)], [val < 1] and [int(val)] for a value that is the default
    [int] or a [str] of the conf file. Python 2 orders every [int] before
    every [str], so a [str] is never less than 1. *)
Definition str_of (val : Z + string) : string :=
  match val with
  | inl n => Py.str_of_int n
  | inr s => s
  end.

Definition less_than_1 (val : Z + string) : bool :=
  match val with
  | inl n => n <? 1
  | inr _ => false
  end.

Definition int_of (val : Z + string) : Z :=
  match val with
  | inl n => n
  | inr s => Py.int_of_digits s
  end.

(** The statements that set [CHUNK_SIZE]. *)
Definition CHUNK_SIZE (conf : ConfFile.t) : outcome Z :=
  let val : Z + string :=
    match ConfFile.__getattr__ conf "static" !! "chunk_size" with
    | Some s => inr s
    | None => inl 8192
    end in
  if negb (Py.isdigit (str_of val)) || less_than_1 val then
    Throw (ConfigError "chunk_size must be an integer greater than 0"
             "__/etc/aspen.conf" "<?>")
  else Return (int_of val).

(** The statements that set [AUTOINDEX]. *)
Definition AUTOINDEX (conf : ConfFile.t) : outcome bool :=
  match ConfFile.__getattr__ conf "static" !! "autoindex" with
  | None => Return true
  | Some val =>
      if String.eqb (Py.lower val) "yes" then Return true
      else if String.eqb (Py.lower val) "no" then Return false
      else Throw (ConfigError "autoindex must be 'yes' or 'no'"
                    "__/etc/aspen.conf" "<?>")
  end.

(** *** Resource *)

(** A [Resource] is its open file: the bytes not read yet. *)
Definition Resource : Type := list Byte.byte.

(** [fp.read(n)]: at most [n] bytes, all of them for a negative [n]. *)
Definition read (n : Z) (fp : list Byte.byte) : list Byte.byte * list Byte.byte :=
  if n <? 0 then (fp, [])
  else (take (Z.to_nat n) fp, drop (Z.to_nat n) fp).

(** [Resource(filename)] *)
Definition Resource_init (E : env) (filename : string) : outcome Resource :=
  match open_rb E filename with
  | Some content => Return content
  | None => Throw (IOError filename)
  end.

(** [Resource.next]: a chunk and the resource after it, or [None] for
    [StopIteration]. *)
Definition next (chunk_size : Z) (self : Resource) : option (list Byte.byte * Resource) :=
  match fst (read chunk_size self) with
  | [] => None
  | chunk_ => Some (chunk_, snd (read chunk_size self))
  end.

(** A consumer that calls [next] until [StopIteration], at most [calls]
    times: [None] when that many calls do not reach the end. *)
Fixpoint iterate (calls : nat) (chunk_size : Z) (self : Resource)
  : option (list (list Byte.byte)) :=
  match calls with
  | O => None
  | S calls' =>
      match next chunk_size self with
      | None => Some []
      | Some (chunk_, self') =>
          option_map (cons chunk_) (iterate calls' chunk_size self')
      end
  end.

(** *** The WSGI callables *)

(** What a callable returns: a list of strings, or a [Resource]. *)
Inductive body : Type :=
  | Strings (l : list string)
  | File (r : Resource).

(** A call of a WSGI callable: the arguments that [start_response] was
    called with, if it was, and what the callable returned or raised. *)
Definition response : Type :=
  option (string * list (string * string)) * outcome body.

(** [a <= b] on tuples of integers. *)
Fixpoint tuple_le (a b : list Z) : bool :=
  match a, b with
  | [], _ => true
  | _ :: _, [] => false
  | x :: a', y :: b' => (x <? y) || ((x =? y) && tuple_le a' b')
  end.

Section Handler.

Variable E : env.

(** The value of [mode.stprod] when the handler runs. *)
Variable stprod : bool.

(** [handlers/static.py], [static(environ, start_response)] *)
Definition static (environ : gmap string string) : response :=
  match environ !! "PATH_TRANSLATED" with
  | None => (None, Throw (KeyError "PATH_TRANSLATED"))
  | Some path =>
      if isdir E path then (None, Throw NotImplementedError)
      else if negb (isfile E path) then (None, Throw AssertionError)
      else
        match stat E path with
        | None => (None, Throw (OSError path))
        | Some (mtime, size) =>
            let content_type :=
              match guess_type E path with
              | None | Some EmptyString => "text/plain"
              | Some t => t
              end in
            let ims := default EmptyString (environ !! "HTTP_IF_MODIFIED_SINCE") in
            let status : outcome string :=
              if stprod then
                match ims with
                | EmptyString => Return "200 OK"
                | _ =>
                    match parsedate E ims with
                    | None => Throw (TypeError "'NoneType' object is unsubscriptable")
                    | Some mod_since =>
                        if tuple_le (take 6 (gmtime E mtime)) (take 6 mod_since)
                        then Return "304 Not Modified"
                        else Return "200 OK"
                    end
                end
              else Return "200 OK" in
            match status with
            | Throw e => (None, Throw e)
            | Return status =>
                let headers := [("Last-Modified", formatdate E mtime);
                                ("Content-Type", content_type);
                                ("Content-Length", Py.str_of_int size)] in
                if String.eqb status "304 Not Modified"
                then (Some (status, headers), Return (Strings []))
                else (Some (status, headers),
                      match Resource_init E path with
                      | Return r => Return (File r)
                      | Throw e => Throw e
                      end)
            end
        end
  end.

(** [aspen.utils.translate] and [aspen.utils.find_default], which live
    outside these files: [find_default] receives the mapping [environ] and
    may update it, so it delivers the mapping it leaves as well. *)
Variable translate : string -> string -> outcome string.
Variable find_default :
  list string -> gmap string string -> outcome (string * gmap string string).

(** [s.endswith(suffix)] *)
Definition endswith (suffix s : string) : bool :=
  Py.startswith (String.rev suffix) (String.rev s).

(** [apps/static.py], [static(environ, start_response)]; [conf] is
    [aspen.conf] and [defaults] is [configuration.defaults]. *)
Definition static_app (conf : ConfFile.t) (defaults : list string)
  (environ : gmap string string) : response :=
  match environ !! "PATH_TRANSLATED" with
  | None => (None, Throw (KeyError "PATH_TRANSLATED"))
  | Some path_translated =>
      let root := default path_translated
                    (ConfFile.__getattr__ conf "statics" !! "doc_root") in
      match environ !! "PATH_INFO" with
      | None => (None, Throw (KeyError "PATH_INFO"))
      | Some path_info =>
          match translate root path_info with
          | Throw e => (None, Throw e)
          | Return translated =>
              let environ := <["PATH_TRANSLATED" := translated]> environ in
              match find_default defaults environ with
              | Throw e => (None, Throw e)
              | Return (fspath, environ) =>
                  if isdir E fspath then
                    (Some ("403 Forbidden", []),
                     Return (Strings ["This directory has no index."]))
                  else if negb (isfile E fspath) || endswith "README.aspen" fspath
                  then
                    (Some ("404 Not Found", []),
                     Return (Strings ["Resource not found."]))
                  else static environ
              end
          end
      end
  end.

End Handler.

End Static.

(** ** More sample surroundings *)

Module Sample2.

(** Mac OS X: [sys.platform] is ["darwin"]. *)
Definition darwin : world :=
  {| sys_platform := "darwin";
     sys_version := "2.5.1 (r251:54863)";
     getcwd := "/srv/www";
     realpath := fun s => s;
     isfile := fun _ => false;
     isdir := fun s => Sample.mem s ["/srv/www"];
     open_ini := fun _ => None;
     can_append := fun _ => true;
     float := fun s => option_map inject_Z (Py.int s);
     logging_getattr := fun _ => None |}.

(** A conf file object with a [static] section. *)
Definition conf_static (lines : list (string * string)) : ConfFile.t :=
  ConfFile.readfp ConfFile.RawConfigParser [("static", lines)].

(** A server with one file, [/srv/www/index.html], last modified at
    second 1000, and the directory [/srv/www]. Dates are seconds written
    in decimal. *)
Definition server : Static.env :=
  {| Static.isdir := fun s => String.eqb s "/srv/www";
     Static.isfile := fun s => String.eqb s "/srv/www/index.html";
     Static.stat := fun s =>
       if String.eqb s "/srv/www/index.html" then Some (1000, 5) else None;
     Static.guess_type := fun _ => Some "text/html";
     Static.parsedate := fun s =>
       if Py.isdigit s then Some [Py.int_of_digits s; 0; 0; 0; 0; 0; 0; 0; 0]
       else None;
     Static.gmtime := fun t => [t; 0; 0; 0; 0; 0; 0; 0; 0];
     Static.formatdate := Py.str_of_int;
     Static.open_rb := fun s =>
       if String.eqb s "/srv/www/index.html"
       then Some [Byte.x68; Byte.x65; Byte.x6c; Byte.x6c; Byte.x6f]
       else None |}.

Definition request (path : string) : gmap string string :=
  {["PATH_TRANSLATED" := path]}.

(** The value of a result, [d] standing in when there is none. *)
Definition value_of {A : Type} (d : A) (r : result A) : A :=
  match r with
  | Ok a => a
  | Raise _ => d
  end.

End Sample2.

(** A computation that raises nothing but exceptions satisfying [P]. *)
Definition raises_only {A : Type} (P : exn -> Prop) (m : M A) : Prop :=
  forall p e p', m p = (Raise e, p') -> P e.

(** * Properties *)

(** ** validate_address: failures *)

(** C10: on the empty string [validate_address] fails at [address[0]],
    before any classification: the outcome is an [IndexError], which is not
    a [ConfigurationError] and not one of the validator's own failures. *)
Theorem C10_validate_address_empty_string :
  forall W : world,
    validate_address W EmptyString = Raise IndexError
    /\ ~ raises_ConfigurationError (validate_address W EmptyString).
Proof.
  intros W. split; [reflexivity |].
  intros (e & He & Hc). simpl in He. injection He as <-. discriminate Hc.
Qed.

(** What ["bad"] raises is not an instance of [ConfigurationError], so it is
    no specialization of it either. *)
Lemma C3_bad_is_not_a_ConfigurationError :
  ~ raises_ConfigurationError (validate_address Sample.bare "bad").
Proof.
  intros (e & He & Hc). vm_compute in He. injection He as <-. discriminate Hc.
Qed.

(** C3: each of the three inputs makes [validate_address] fail, at a
    [raise err] whose operand is the [str] ["Bad address "] followed by the
    input: what reaches the caller is no instance of [ConfigurationError],
    and so of no specialization of it, on any platform and under either
    reading of such a [raise]. The other branch of the same function does
    raise [ConfigurationError], for a path on Windows. *)
Theorem C3_bad_addresses_raise_no_ConfigurationError :
  forall W : world,
    (validate_address W "256.1.1.1:80"
       = Raise (StringException "Bad address 256.1.1.1:80")
     /\ ~ raises_ConfigurationError (validate_address W "256.1.1.1:80"))
    /\ (validate_address W "1.1.1.1:99999"
          = Raise (StringException "Bad address 1.1.1.1:99999")
        /\ ~ raises_ConfigurationError (validate_address W "1.1.1.1:99999"))
    /\ (validate_address W "bad" = Raise (StringException "Bad address bad")
        /\ ~ raises_ConfigurationError (validate_address W "bad"))
    /\ validate_address W "/tmp/aspen.sock"
       = (if WINDOWS W
          then Raise (ConfigurationError "Can't use an AF_UNIX socket on Windows.")
          else Ok (AStr (realpath W "/tmp/aspen.sock"), AF_UNIX)).
Proof.
  intros W.
  assert (Hno : forall (a : string) (msg : string),
             validate_address W a = Raise (StringException msg) ->
             ~ raises_ConfigurationError (validate_address W a)).
  { intros a msg Ha (e & He & Hc). rewrite Ha in He. injection He as <-.
    discriminate Hc. }
  repeat split; try reflexivity; eapply Hno; reflexivity.
Qed.

(** ** validate_address: the IPv4 literals *)

Section Strings.

Local Open Scope Z_scope.

Lemma chr_eqb_true (a b : ascii) : Py.chr_eqb a b = true -> a = b.
Proof. apply Ascii.eqb_eq. Qed.

(** A digit is none of the characters the validator looks for. *)
Lemma digit_is_not (c k : ascii) :
  Py.isdigit_char k = false -> Py.isdigit_char c = true -> Py.chr_eqb c k = false.
Proof.
  intros Hk Hc. destruct (Py.chr_eqb c k) eqn:E; [| reflexivity].
  apply chr_eqb_true in E. subst k. congruence.
Qed.

Lemma digit_is_not_space (c : ascii) :
  Py.isdigit_char c = true -> Py.isspace_char c = false.
Proof.
  unfold Py.isdigit_char, Py.isspace_char. intros H.
  apply andb_true_iff in H as [H1 H2].
  apply Z.leb_le in H1. apply Z.leb_le in H2.
  apply orb_false_iff. split.
  - apply Z.eqb_neq. lia.
  - apply andb_false_iff. right. apply Z.leb_gt. lia.
Qed.

Lemma digit_value_range (c : ascii) :
  Py.isdigit_char c = true -> 0 <= Py.digit_value c <= 9.
Proof.
  unfold Py.isdigit_char, Py.digit_value. intros H.
  apply andb_true_iff in H as [H1 H2].
  apply Z.leb_le in H1. apply Z.leb_le in H2. lia.
Qed.

Lemma app_cons (c : ascii) (a b : string) :
  String c a +:+ b = String c (a +:+ b).
Proof. reflexivity. Qed.

Lemma app_nil (b : string) : EmptyString +:+ b = b.
Proof. reflexivity. Qed.

Lemma all_chars_app (f : ascii -> bool) (a b : string) :
  Py.all_chars f (a +:+ b) = Py.all_chars f a && Py.all_chars f b.
Proof.
  induction a as [| c a IH]; [reflexivity |].
  rewrite app_cons. cbn. rewrite IH. apply andb_assoc.
Qed.

Lemma all_chars_impl (f g : ascii -> bool) (s : string) :
  (forall c, f c = true -> g c = true) ->
  Py.all_chars f s = true -> Py.all_chars g s = true.
Proof.
  intros Hfg. induction s as [| c s IH]; [reflexivity |].
  cbn. intros H. apply andb_true_iff in H as [H1 H2].
  rewrite (Hfg c H1), (IH H2). reflexivity.
Qed.

Lemma count_nonneg (c : ascii) (s : string) : 0 <= Py.count c s.
Proof.
  induction s as [| a s IH]; cbn; [lia |].
  destruct (Py.chr_eqb a c); lia.
Qed.

Lemma count_app (c : ascii) (a b : string) :
  Py.count c (a +:+ b) = Py.count c a + Py.count c b.
Proof.
  induction a as [| x a IH]; [reflexivity |].
  rewrite app_cons. cbn. rewrite IH. lia.
Qed.

Lemma count_absent (f : ascii -> bool) (c : ascii) (s : string) :
  (forall x, f x = true -> Py.chr_eqb x c = false) ->
  Py.all_chars f s = true -> Py.count c s = 0.
Proof.
  intros Hf. induction s as [| x s IH]; [reflexivity |].
  cbn. intros H. apply andb_true_iff in H as [H1 H2].
  rewrite (Hf x H1), (IH H2). reflexivity.
Qed.

Lemma split_nonempty (sep : ascii) (s : string) : Py.split sep s <> [].
Proof.
  destruct s as [| a s]; cbn; [discriminate |].
  destruct (Py.chr_eqb a sep); [discriminate |].
  destruct (Py.split sep s); discriminate.
Qed.

Lemma split_absent (sep : ascii) (s : string) :
  Py.count sep s = 0 -> Py.split sep s = [s].
Proof.
  induction s as [| a s IH]; [reflexivity |].
  cbn. pose proof (count_nonneg sep s) as Hn.
  destruct (Py.chr_eqb a sep); intros H; [lia |].
  rewrite IH by lia. reflexivity.
Qed.

Lemma split_app_sep (sep : ascii) (a b : string) :
  Py.count sep a = 0 ->
  Py.split sep (a +:+ String sep b) = a :: Py.split sep b.
Proof.
  induction a as [| x a IH]; [rewrite app_nil | rewrite app_cons]; cbn.
  - intros _. unfold Py.chr_eqb. rewrite Ascii.eqb_refl. reflexivity.
  - pose proof (count_nonneg sep a) as Hn.
    destruct (Py.chr_eqb x sep); intros H; [lia |].
    rewrite IH by lia. reflexivity.
Qed.

(** What precedes the first separator, and what [split] does after it. *)
Lemma split_cons_inv (sep : ascii) (s a : string) (rest : list string) :
  Py.split sep s = a :: rest ->
  (rest = [] /\ s = a)
  \/ (exists s', rest = Py.split sep s' /\ s = a +:+ String sep s').
Proof.
  revert a rest. induction s as [| x s IH]; intros a rest; cbn.
  - intros H. injection H as <- <-. left. split; reflexivity.
  - destruct (Py.chr_eqb x sep) eqn:E.
    + intros H. injection H as <- <-. right. exists s.
      apply chr_eqb_true in E. subst x. split; reflexivity.
    + destruct (Py.split sep s) as [| w ws] eqn:Hs.
      { exfalso. exact (split_nonempty sep s Hs). }
      intros H. injection H as <- <-.
      destruct (IH w ws eq_refl) as [[-> ->] | (s' & -> & ->)].
      * left. split; reflexivity.
      * right. exists s'. split; reflexivity.
Qed.

Lemma lstrip_id (c : ascii) (s : string) :
  Py.isspace_char c = false -> Py.lstrip (String c s) = String c s.
Proof. intros H. cbn. rewrite H. reflexivity. Qed.

Lemma rstrip_id (s : string) :
  Py.all_chars (fun c => negb (Py.isspace_char c)) s = true -> Py.rstrip s = s.
Proof.
  unfold Py.rstrip. induction s as [| c s IH]; [reflexivity |].
  cbn. intros H. apply andb_true_iff in H as [H1 H2].
  rewrite (IH H2). apply negb_true_iff in H1. rewrite H1.
  destruct s; reflexivity.
Qed.

Lemma strip_id (s : string) :
  Py.all_chars (fun c => negb (Py.isspace_char c)) s = true -> Py.strip s = s.
Proof.
  intros H. unfold Py.strip. destruct s as [| c s]; [reflexivity |].
  rewrite lstrip_id.
  - apply rstrip_id, H.
  - cbn in H. apply andb_true_iff in H as [H _]. apply negb_true_iff, H.
Qed.

Lemma append_empty (s : string) : s +:+ EmptyString = s.
Proof.
  induction s as [| c s IH]; [reflexivity |].
  rewrite app_cons, IH. reflexivity.
Qed.

End Strings.

Section DottedQuad.

Local Open Scope Z_scope.

Lemma digits_stop (base acc : Z) (rest : string) :
  base <> 16 -> at_boundary rest -> Inet.digits base acc rest = Some (acc, rest).
Proof.
  intros Hb [-> | [r ->]]; [reflexivity |].
  cbn. apply Z.eqb_neq in Hb. rewrite Hb. reflexivity.
Qed.

(** The inner loop reads a run of decimal digits as Python's [int] does. *)
Lemma digits_decimal (ds : string) (acc : Z) (rest : string) :
  Py.all_chars Py.isdigit_char ds = true ->
  at_boundary rest ->
  Inet.digits 10 acc (ds +:+ rest) = Some (Py.int_acc acc ds, rest).
Proof.
  revert acc. induction ds as [| c ds IH]; intros acc Hd Hr.
  - rewrite app_nil. apply digits_stop; [discriminate | exact Hr].
  - cbn in Hd. apply andb_true_iff in Hd as [Hc Hd].
    rewrite app_cons. cbn [Inet.digits Py.int_acc]. rewrite Hc.
    cbn [Z.eqb andb]. apply IH; assumption.
Qed.

Lemma dec_octet_inv (a : string) :
  dec_octet a = true ->
  Py.all_chars Py.isdigit_char a = true
  /\ Py.int_of_digits a <= 255
  /\ (a = "0" \/ exists c a', a = String c a' /\ Py.chr_eqb c "0" = false).
Proof.
  unfold dec_octet. intros H.
  apply andb_true_iff in H as [H Hv]. apply andb_true_iff in H as [Hd Hz].
  apply Z.leb_le in Hv.
  destruct a as [| c a']; [discriminate Hd |].
  split; [exact Hd | split; [exact Hv |]].
  destruct (Py.chr_eqb c "0") eqn:E.
  - apply chr_eqb_true in E. subst c.
    destruct a'; [left; reflexivity | discriminate Hz].
  - right. exists c, a'. split; [reflexivity | exact E].
Qed.

(** One decimal octet, followed by a dot or by nothing, is read as its
    decimal value. *)
Lemma number_dec_octet (a rest : string) :
  dec_octet a = true ->
  at_boundary rest ->
  Inet.number (a +:+ rest) = Some (Py.int_of_digits a, rest).
Proof.
  intros Ha Hr. destruct (dec_octet_inv a Ha) as (Hd & _ & [-> | (c & a' & -> & Hc)]).
  - destruct Hr as [-> | [r ->]]; [reflexivity |]. destruct r; reflexivity.
  - rewrite app_cons. unfold Inet.number.
    pose proof Hd as Hd'. cbn in Hd'. apply andb_true_iff in Hd' as [Hc' _].
    rewrite Hc', Hc. cbn [negb].
    rewrite <- app_cons. apply digits_decimal; assumption.
Qed.

Lemma dotted_quad_inv (h : string) :
  dotted_quad h = true ->
  exists a b c d,
    h = a +:+ String "." (b +:+ String "." (c +:+ String "." d))
    /\ dec_octet a = true /\ dec_octet b = true
    /\ dec_octet c = true /\ dec_octet d = true.
Proof.
  unfold dotted_quad. intros H.
  destruct (Py.split "." h) as [| a [| b [| c [| d [| e l]]]]] eqn:Hs;
    try discriminate H.
  apply andb_true_iff in H as [H Hd]. apply andb_true_iff in H as [H Hc].
  apply andb_true_iff in H as [Ha Hb].
  destruct (split_cons_inv _ _ _ _ Hs) as [[? _] | (s1 & Hs1 & ->)]; [discriminate |].
  symmetry in Hs1.
  destruct (split_cons_inv _ _ _ _ Hs1) as [[? _] | (s2 & Hs2 & ->)]; [discriminate |].
  symmetry in Hs2.
  destruct (split_cons_inv _ _ _ _ Hs2) as [[? _] | (s3 & Hs3 & ->)]; [discriminate |].
  symmetry in Hs3.
  destruct (split_cons_inv _ _ _ _ Hs3) as [[_ ->] | (s4 & Hs4 & _)].
  - exists a, b, c, d. repeat split; assumption.
  - exfalso. symmetry in Hs4. exact (split_nonempty _ _ Hs4).
Qed.

(** The C routine accepts every dotted quad. *)
Lemma aton_dotted_quad (h : string) :
  dotted_quad h = true -> Inet.aton h = true.
Proof.
  intros H. destruct (dotted_quad_inv h H) as (a & b & c & d & -> & Ha & Hb & Hc & Hd).
  unfold Inet.aton.
  cbn [Inet.parts].
  rewrite (number_dec_octet a _ Ha) by (right; eexists; reflexivity).
  rewrite (number_dec_octet b _ Hb) by (right; eexists; reflexivity).
  rewrite (number_dec_octet c _ Hc) by (right; eexists; reflexivity).
  rewrite <- (append_empty d) at 1.
  rewrite (number_dec_octet d _ Hd) by (left; reflexivity).
  cbn [app Inet.trailing_ok Inet.in_range forallb andb].
  destruct (dec_octet_inv a Ha) as (_ & Va & _).
  destruct (dec_octet_inv b Hb) as (_ & Vb & _).
  destruct (dec_octet_inv c Hc) as (_ & Vc & _).
  destruct (dec_octet_inv d Hd) as (_ & Vd & _).
  apply Z.leb_le in Va, Vb, Vc, Vd.
  unfold Inet.in_range. cbn [forallb]. rewrite Va, Vb, Vc, Vd. reflexivity.
Qed.

Lemma dec_octet_chars (a : string) :
  dec_octet a = true -> Py.all_chars host_char a = true.
Proof.
  intros H. destruct (dec_octet_inv a H) as (Hd & _).
  revert Hd. apply all_chars_impl. intros c Hc. unfold host_char. rewrite Hc. reflexivity.
Qed.

Lemma dotted_quad_chars (h : string) :
  dotted_quad h = true ->
  Py.all_chars host_char h = true
  /\ exists c0 h', h = String c0 h' /\ Py.isdigit_char c0 = true.
Proof.
  intros H. destruct (dotted_quad_inv h H) as (a & b & c & d & -> & Ha & Hb & Hc & Hd).
  split.
  - rewrite all_chars_app. cbn [Py.all_chars]. rewrite all_chars_app.
    cbn [Py.all_chars]. rewrite all_chars_app. cbn [Py.all_chars].
    rewrite !dec_octet_chars by assumption. reflexivity.
  - destruct (dec_octet_inv a Ha) as (Hda & _ & _).
    destruct a as [| c0 a'].
    + unfold dec_octet in Ha. discriminate Ha.
    + exists c0. eexists. split; [rewrite app_cons; reflexivity |].
      cbn in Hda. apply andb_true_iff in Hda as [Hc0 _]. exact Hc0.
Qed.

Lemma host_char_not (k : ascii) :
  Py.isdigit_char k = false -> Py.chr_eqb "." k = false ->
  forall c, host_char c = true -> Py.chr_eqb c k = false.
Proof.
  intros Hk Hdot c Hc. unfold host_char in Hc. apply orb_true_iff in Hc as [Hc | Hc].
  - apply digit_is_not; assumption.
  - apply chr_eqb_true in Hc. subst c. exact Hdot.
Qed.

Lemma host_char_not_space (c : ascii) :
  host_char c = true -> negb (Py.isspace_char c) = true.
Proof.
  unfold host_char. intros Hc. apply orb_true_iff in Hc as [Hc | Hc].
  - rewrite digit_is_not_space by exact Hc. reflexivity.
  - apply chr_eqb_true in Hc. subst c. reflexivity.
Qed.

Lemma digit_not_space (c : ascii) :
  Py.isdigit_char c = true -> negb (Py.isspace_char c) = true.
Proof. intros H. rewrite digit_is_not_space by exact H. reflexivity. Qed.

(** [socket.inet_aton] packs every dotted quad. *)
Lemma inet_aton_dotted_quad (h : string) :
  dotted_quad h = true -> Inet.inet_aton h = Inet.Packed.
Proof.
  intros H. destruct (dotted_quad_chars h H) as (Hchars & _).
  unfold Inet.inet_aton, Inet.has_nul.
  rewrite (count_absent host_char "000" h) by
    (try exact Hchars; apply host_char_not; reflexivity).
  cbn [Z.ltb Z.compare]. rewrite (aton_dotted_quad h H). reflexivity.
Qed.

(** The prefixes of a number: hexadecimal and octal are read, an octal
    number with an 8 and a [0x] with no hexadecimal digit after it are
    refused, alone or before a dot. *)
Lemma inet_aton_prefixes :
  Inet.inet_aton "0x7f.1" = Inet.Packed
  /\ Inet.inet_aton "0177.0.0.1" = Inet.Packed
  /\ Inet.inet_aton "08" = Inet.SocketError
  /\ Inet.inet_aton "0x" = Inet.SocketError
  /\ Inet.inet_aton "0X.0.0.1" = Inet.SocketError
  /\ forall W : world,
       validate_address W "0x:80" = Raise (StringException "Bad address 0x:80").
Proof. repeat split. Qed.

Lemma int_acc_nonneg (s : string) (acc : Z) :
  Py.all_chars Py.isdigit_char s = true -> 0 <= acc -> 0 <= Py.int_acc acc s.
Proof.
  revert acc. induction s as [| c s IH]; intros acc Hd Ha; [exact Ha |].
  cbn in Hd. apply andb_true_iff in Hd as [Hc Hd].
  cbn. apply IH; [exact Hd |]. pose proof (digit_value_range c Hc). lia.
Qed.

End DottedQuad.

(** The path through [validate_address] that an address with exactly one
    colon takes, once it is split. *)
Lemma validate_address_one_colon
  (W : world) (c0 : ascii) (tail ip port : string) :
  Py.chr_eqb c0 "/" = false ->
  Py.chr_eqb c0 "." = false ->
  Py.count ":" (String c0 tail) = 1 ->
  map Py.strip (Py.split ":" (String c0 tail)) = [ip; port] ->
  (ip = EmptyString \/ Inet.inet_aton ip = Inet.Packed) ->
  Py.isdigit port = true ->
  0 <= Py.int_of_digits port <= 65535 ->
  validate_address W (String c0 tail)
    = Ok (APair (normalized_host ip) (Py.int_of_digits port), AF_INET).
Proof.
  intros Hslash Hdot Hcount Hsplit Hip Hport Hrange.
  unfold validate_address. rewrite Hslash, Hdot, Hcount, Hsplit. cbn [orb Z.ltb Z.eqb negb Z.compare Pos.compare Pos.eqb].
  rewrite Hport.
  assert (Hr : (0 <=? Py.int_of_digits port) && (Py.int_of_digits port <=? 65535) = true).
  { apply andb_true_iff. split; apply Z.leb_le; lia. }
  destruct Hip as [-> | Hip].
  - cbn [rbind normalized_host]. rewrite Hr. reflexivity.
  - destruct ip as [| i ip']; cbn [rbind normalized_host].
    + rewrite Hr. reflexivity.
    + rewrite Hip. cbn [rbind]. rewrite Hr. reflexivity.
Qed.

(** C6: for a host part that is a dotted quad or empty, and a port part
    made of decimal digits with a value of at most 65535, [validate_address]
    returns the family [AF_INET] with the pair of the host and the port as
    an integer, the empty host reported as ["0.0.0.0"]. *)
Theorem C6_validate_address_ipv4 :
  forall (W : world) (h p : string),
    h = EmptyString \/ dotted_quad h = true ->
    Py.isdigit p = true ->
    0 <= Py.int_of_digits p <= 65535 ->
    validate_address W (h +:+ ":" +:+ p)
      = Ok (APair (normalized_host h) (Py.int_of_digits p), AF_INET).
Proof.
  intros W h p Hh Hp Hrange.
  assert (Hpd : Py.all_chars Py.isdigit_char p = true).
  { destruct p; [discriminate Hp | exact Hp]. }
  assert (Hpc : Py.count ":" p = 0).
  { apply (count_absent Py.isdigit_char); [| exact Hpd].
    intros x. apply digit_is_not. reflexivity. }
  assert (Hps : Py.strip p = p).
  { apply strip_id. revert Hpd. apply all_chars_impl, digit_not_space. }
  change (":" +:+ p) with (String ":" p).
  destruct Hh as [-> | Hq].
  - rewrite app_nil.
    apply validate_address_one_colon; try reflexivity; try assumption.
    + cbn. rewrite Hpc. reflexivity.
    + cbn [Py.split]. change (Py.chr_eqb ":" ":") with true. cbn iota.
      rewrite (split_absent _ _ Hpc). cbn [map]. rewrite Hps. reflexivity.
    + left. reflexivity.
  - destruct (dotted_quad_chars h Hq) as (Hchars & c0 & h' & Hh & Hc0).
    assert (Hhc : Py.count ":" h = 0).
    { apply (count_absent host_char); [| exact Hchars].
      apply host_char_not; reflexivity. }
    assert (Hhs : Py.strip h = h).
    { apply strip_id. revert Hchars. apply all_chars_impl, host_char_not_space. }
    assert (Hshape : h +:+ String ":" p = String c0 (h' +:+ String ":" p)).
    { rewrite Hh. apply app_cons. }
    rewrite Hshape.
    apply (validate_address_one_colon W c0 _ h p); try assumption.
    + apply digit_is_not; [reflexivity | exact Hc0].
    + apply digit_is_not; [reflexivity | exact Hc0].
    + rewrite <- Hshape, count_app. cbn [Py.count].
      change (Py.chr_eqb ":" ":") with true. rewrite Hhc, Hpc. reflexivity.
    + rewrite <- Hshape, (split_app_sep _ _ _ Hhc), (split_absent _ _ Hpc).
      cbn [map]. rewrite Hhs, Hps. reflexivity.
    + right. apply inet_aton_dotted_quad, Hq.
Qed.

Lemma C6_validate_address_ipv4_witness :
  validate_address Sample.bare ("192.168.0.1" +:+ ":" +:+ "8080")
    = Ok (APair (normalized_host "192.168.0.1") (Py.int_of_digits "8080"), AF_INET)
  /\ validate_address Sample.bare (EmptyString +:+ ":" +:+ "65535")
    = Ok (APair (normalized_host EmptyString) (Py.int_of_digits "65535"), AF_INET).
Proof.
  split.
  - apply (C6_validate_address_ipv4 Sample.bare "192.168.0.1" "8080").
    + right. reflexivity.
    + reflexivity.
    + vm_compute. split; discriminate.
  - apply (C6_validate_address_ipv4 Sample.bare EmptyString "65535").
    + left. reflexivity.
    + reflexivity.
    + vm_compute. split; discriminate.
Defined.

(** ** Paths *)

(** C7: with both conf files present [Paths(root)] raises
    [ConfigurationError]; with neither it returns a [Paths] whose [aspen_conf],
    [etc], [lib], [pkg] and [plat] are all [None], and leaves the process
    state alone. *)
Theorem C7_conf_file_candidates :
  forall (W : world) (root : string) (p : process),
    (isfile W (Path.join root ["aspen.conf"]) = true ->
     isfile W (Path.join root ["etc"; "aspen.conf"]) = true ->
     exists msg, Paths.__init__ W root p = (Raise (ConfigurationError msg), p))
    /\
    (isfile W (Path.join root ["aspen.conf"]) = false ->
     isfile W (Path.join root ["etc"; "aspen.conf"]) = false ->
     Paths.__init__ W root p
       = (Ok {| Paths.root := root; Paths.aspen_conf := None; Paths.etc := None;
                Paths.lib := None; Paths.pkg := None; Paths.plat := None |}, p)).
Proof.
  intros W root p. unfold Paths.__init__. split; intros H1 H2; rewrite H1, H2; simpl.
  - eexists. reflexivity.
  - reflexivity.
Qed.

Lemma C7_conf_file_candidates_witness :
  (exists msg, Paths.__init__ Sample.both_confs "/srv/www" (Sample.process_in "development")
                 = (Raise (ConfigurationError msg), Sample.process_in "development"))
  /\ Paths.__init__ Sample.bare "/srv/www" (Sample.process_in "development")
     = (Ok {| Paths.root := "/srv/www"; Paths.aspen_conf := None; Paths.etc := None;
              Paths.lib := None; Paths.pkg := None; Paths.plat := None |},
        Sample.process_in "development").
Proof.
  split.
  - apply (proj1 (C7_conf_file_candidates Sample.both_confs "/srv/www"
                    (Sample.process_in "development"))); reflexivity.
  - apply (proj2 (C7_conf_file_candidates Sample.bare "/srv/www"
                    (Sample.process_in "development"))); reflexivity.
Defined.

(** C1, as stated, fails: on a root with [etc/aspen.conf] and the three
    directories, the first entry of the final search path is the platform
    directory, not the lib directory. *)
Lemma C1_lib_is_not_first :
  exists (P : Paths.t) (p' : process),
    Paths.__init__ Sample.with_lib "/srv/www" (Sample.process_in "development")
      = (Ok P, p')
    /\ Paths.lib P = Some "/srv/www/lib/python"
    /\ Paths.pkg P = Some "/srv/www/lib/python/site-packages"
    /\ Paths.plat P = Some "/srv/www/lib/python/plat-linux2"
    /\ head (sys_path p') <> Paths.lib P.
Proof.
  eexists. eexists. split; [vm_compute; reflexivity |].
  repeat split; discriminate.
Qed.

(** C1, amended: when the [etc/aspen.conf] variant is active and the lib,
    site-packages and platform directories exist, the three are inserted at
    the front of the search path in the order lib, pkg, plat; the final path
    starts with plat, then pkg, then lib, followed by the old entries. *)
Theorem C1_search_path_order :
  forall (W : world) (root : string) (p : process),
    isfile W (Path.join root ["aspen.conf"]) = false ->
    isfile W (Path.join root ["etc"; "aspen.conf"]) = true ->
    isdir W (lib_dir W root) = true ->
    isdir W (Path.join (lib_dir W root) ["site-packages"]) = true ->
    isdir W (Path.join (lib_dir W root) ["plat-" +:+ sys_platform W]) = true ->
    exists (P : Paths.t) (p' : process),
      Paths.__init__ W root p = (Ok P, p')
      /\ Paths.lib P = Some (lib_dir W root)
      /\ Paths.pkg P = Some (Path.join (lib_dir W root) ["site-packages"])
      /\ Paths.plat P = Some (Path.join (lib_dir W root) ["plat-" +:+ sys_platform W])
      /\ sys_path p'
         = Path.join (lib_dir W root) ["plat-" +:+ sys_platform W]
           :: Path.join (lib_dir W root) ["site-packages"]
           :: lib_dir W root
           :: sys_path p.
Proof.
  intros W root p Hconf Hetc Hlib Hpkg Hplat.
  unfold Paths.__init__. rewrite Hconf, Hetc. cbn [andb].
  unfold lib_dir in *.
  destruct (isdir W (Path.join root ["lib"; "python"])) eqn:Hd.
  - unfold bind, sys_path_insert0, modify, ret. cbn [fst snd].
    rewrite Hpkg, Hplat. cbn.
    eexists. eexists. repeat split; reflexivity.
  - rewrite Hlib. unfold bind, sys_path_insert0, modify, ret. cbn [fst snd].
    rewrite Hpkg, Hplat. cbn.
    eexists. eexists. repeat split; reflexivity.
Qed.

Lemma C1_search_path_order_witness :
  exists (P : Paths.t) (p' : process),
    Paths.__init__ Sample.with_lib "/srv/www" (Sample.process_in "development")
      = (Ok P, p')
    /\ Paths.lib P = Some (lib_dir Sample.with_lib "/srv/www")
    /\ Paths.pkg P = Some (Path.join (lib_dir Sample.with_lib "/srv/www") ["site-packages"])
    /\ Paths.plat P
       = Some (Path.join (lib_dir Sample.with_lib "/srv/www")
                 ["plat-" +:+ sys_platform Sample.with_lib])
    /\ sys_path p'
       = Path.join (lib_dir Sample.with_lib "/srv/www")
           ["plat-" +:+ sys_platform Sample.with_lib]
         :: Path.join (lib_dir Sample.with_lib "/srv/www") ["site-packages"]
         :: lib_dir Sample.with_lib "/srv/www"
         :: sys_path (Sample.process_in "development").
Proof.
  apply (C1_search_path_order Sample.with_lib "/srv/www"
           (Sample.process_in "development")); reflexivity.
Defined.

(** ** Reasoning about [M] *)

Lemma always_raises_raise {A : Type} (e : exn) : always_raises (@raise A e).
Proof. intros p. exists e, p. reflexivity. Qed.

Lemma always_raises_bind {A B : Type} (m : M A) (k : A -> M B) :
  (forall a, always_raises (k a)) -> always_raises (bind m k).
Proof.
  intros Hk p. unfold bind. destruct (m p) as [[a | e] p1].
  - apply Hk.
  - exists e, p1. reflexivity.
Qed.

Lemma always_raises_bind_l {A B : Type} (m : M A) (k : A -> M B) :
  always_raises m -> always_raises (bind m k).
Proof.
  intros Hm p. unfold bind. destruct (Hm p) as (e & p1 & ->).
  exists e, p1. reflexivity.
Qed.

Lemma returns_ret {A : Type} (P : A -> Prop) (a : A) : P a -> returns P (ret a).
Proof. intros Ha p b p' H. injection H as <- _. exact Ha. Qed.

Lemma returns_raise {A : Type} (P : A -> Prop) (e : exn) : returns P (raise e).
Proof. intros p b p' H. discriminate H. Qed.

Lemma returns_bind {A B : Type} (Q : A -> Prop) (P : B -> Prop)
  (m : M A) (k : A -> M B) :
  returns Q m -> (forall a, Q a -> returns P (k a)) -> returns P (bind m k).
Proof.
  intros Hm Hk p b p' H. unfold bind in H.
  destruct (m p) as [[a | e] p1] eqn:Hmp; [| discriminate H].
  exact (Hk a (Hm _ _ _ Hmp) _ _ _ H).
Qed.

Lemma bind_Ok_inv {A B : Type} (m : M A) (k : A -> M B) (p p' : process) (b : B) :
  bind m k p = (Ok b, p') ->
  exists a p1, m p = (Ok a, p1) /\ k a p1 = (Ok b, p').
Proof.
  unfold bind. destruct (m p) as [[a | e] p1]; [| discriminate].
  intros H. exists a, p1. split; [reflexivity | exact H].
Qed.

Lemma stateless_ret {A : Type} (a : A) : stateless (ret a).
Proof. intros p r p' H. injection H as _ <-. reflexivity. Qed.

Lemma stateless_raise {A : Type} (e : exn) : stateless (@raise A e).
Proof. intros p r p' H. injection H as _ <-. reflexivity. Qed.

Lemma stateless_lift {A : Type} (r : result A) : stateless (lift r).
Proof. intros p r' p' H. injection H as _ <-. reflexivity. Qed.

Lemma stateless_bind {A B : Type} (m : M A) (k : A -> M B) :
  stateless m -> (forall a, stateless (k a)) -> stateless (bind m k).
Proof.
  intros Hm Hk p r p' H. unfold bind in H.
  destruct (m p) as [[a | e] p1] eqn:Hmp.
  - rewrite (Hk a _ _ _ H). exact (Hm _ _ _ Hmp).
  - injection H as _ <-. exact (Hm _ _ _ Hmp).
Qed.

Ltac stateless_step :=
  first [ progress cbv zeta
        | apply stateless_ret | apply stateless_raise | apply stateless_lift
        | apply stateless_bind; [| intros ?] ].

Lemma stateless_bind_lift {A B : Type} (r : result A) (k : A -> M B) :
  (forall a, r = Ok a -> stateless (k a)) -> stateless (bind (lift r) k).
Proof.
  intros Hk p r' p' H. unfold bind, lift in H. destruct r as [a | e].
  - exact (Hk a eq_refl _ _ _ H).
  - injection H as _ <-. reflexivity.
Qed.

(** ** ConfFile *)

(** Without a path the constructor succeeds, and every section of the
    object is the empty dictionary. *)
Lemma ConfFile_without_path (W : world) :
  ConfFile.__init__ W None = Ok ConfFile.RawConfigParser
  /\ forall name, ConfFile.__getitem__ ConfFile.RawConfigParser name = ∅.
Proof. split; [reflexivity | intros name; reflexivity]. Qed.

(** C8: a path that cannot be opened makes the constructor raise [IOError]
    instead of giving the empty object its docstring announces. *)
Theorem C8_ConfFile_missing_file_raises :
  forall (W : world) (c : ascii) (path : string),
    open_ini W (String c path) = None ->
    ConfFile.__init__ W (Some (String c path)) = Raise (IOError (String c path)).
Proof. intros W c path H. unfold ConfFile.__init__. rewrite H. reflexivity. Qed.

Lemma C8_ConfFile_missing_file_raises_witness :
  ConfFile.__init__ Sample.bare (Some "/srv/www/aspen.conf")
    = Raise (IOError "/srv/www/aspen.conf").
Proof.
  apply (C8_ConfFile_missing_file_raises Sample.bare "/" "srv/www/aspen.conf").
  reflexivity.
Defined.

(** [readfp] never files a section under the name [DEFAULT]. *)
Lemma read_section_no_DEFAULT (self : ConfFile.t) (sec : ini_section) :
  ConfFile._sections self !! "DEFAULT" = None ->
  ConfFile._sections (ConfFile.read_section self sec) !! "DEFAULT" = None.
Proof.
  intros H. unfold ConfFile.read_section. cbv zeta.
  destruct (ConfFile._sections self !! fst sec) as [cursect |] eqn:Hs.
  - cbn. rewrite lookup_insert_ne; [exact H |]. intros Heq. congruence.
  - destruct (String.eqb (fst sec) "DEFAULT") eqn:He; cbn; [exact H |].
    rewrite lookup_insert_ne; [exact H |].
    intros Heq. rewrite Heq, String.eqb_refl in He. discriminate He.
Qed.

Lemma readfp_no_DEFAULT (fp : list ini_section) (self : ConfFile.t) :
  ConfFile._sections self !! "DEFAULT" = None ->
  ConfFile._sections (ConfFile.readfp self fp) !! "DEFAULT" = None.
Proof.
  revert self. induction fp as [| sec fp IH]; intros self H; [exact H |].
  apply IH, read_section_no_DEFAULT, H.
Qed.

(** Whatever the file holds, [conf.DEFAULT] is the empty dictionary:
    [__getitem__] asks [has_section] first. *)
Lemma ConfFile_DEFAULT_is_empty (W : world) (filepath : option string) (conf : ConfFile.t) :
  ConfFile.__init__ W filepath = Ok conf ->
  ConfFile.__getattr__ conf "DEFAULT" = ∅.
Proof.
  intros H.
  assert (Hs : ConfFile._sections conf !! "DEFAULT" = None).
  { unfold ConfFile.__init__ in H.
    destruct filepath as [[| c path] |]; try (injection H as <-; reflexivity).
    destruct (open_ini W (String c path)) as [[fp |] |]; try discriminate H.
    injection H as <-. apply readfp_no_DEFAULT. reflexivity. }
  unfold ConfFile.__getattr__, ConfFile.__getitem__, ConfFile.has_section.
  rewrite Hs. rewrite bool_decide_eq_false_2; [reflexivity |].
  intros [x Hx]. discriminate Hx.
Qed.

(** ** Configuration: the conf file *)

(** With a conf file in place, [update_from_conf_file] cannot complete:
    every path through it that raises nothing earlier reaches the test on
    the unassigned local [threads]. *)
Lemma update_from_conf_file_with_file_raises
  (W : world) (self : Configuration.t) (P : Paths.t) (path : string) :
  Configuration.paths self = Some P ->
  Paths.aspen_conf P = Some path ->
  always_raises (Configuration.update_from_conf_file W self).
Proof.
  intros HP Hpath. unfold Configuration.update_from_conf_file.
  rewrite HP, Hpath.
  apply always_raises_bind; intros conf.
  do 5 (apply always_raises_bind; intros ?).
  apply always_raises_bind_l, always_raises_raise.
Qed.

(** After the command line has been read the paths are in place. *)
Lemma update_from_command_line_sets_paths
  (W : world) (self : Configuration.t) (argv : list string) :
  returns (fun c => exists P, Configuration.paths c = Some P)
          (Configuration.update_from_command_line W self argv).
Proof.
  unfold Configuration.update_from_command_line.
  apply returns_bind with (Q := fun _ => True); [intros ? ? ? _; exact I |].
  intros parsed _.
  apply returns_bind with (Q := fun _ => True); [intros ? ? ? _; exact I |].
  intros paths _.
  destruct (negb (existsb _ COMMANDS)); [apply returns_raise |].
  destruct (_ && WINDOWS W); [apply returns_raise |].
  apply returns_bind with (Q := fun c => exists P, Configuration.paths c = Some P).
  { destruct (Values.have_address _); [| apply returns_ret; eexists; reflexivity].
    destruct (Values.sockfam _); [apply returns_ret; eexists; reflexivity | apply returns_raise]. }
  intros c1 H1.
  apply returns_bind with (Q := fun c => exists P, Configuration.paths c = Some P).
  { destruct (Values.have_mode _); [| apply returns_ret; exact H1].
    apply returns_bind with (Q := fun _ => True); [intros ? ? ? _; exact I |].
    intros _ _. apply returns_ret. exact H1. }
  intros c2 H2. apply returns_ret. exact H2.
Qed.

Lemma update_logging_stateless
  (W : world) (root : string) (logging : gmap string string) (self : Configuration.t) :
  stateless (Configuration.update_logging W root logging self).
Proof.
  unfold Configuration.update_logging.
  repeat (first [ stateless_step
                | match goal with
                  | |- stateless (match ?x with _ => _ end) => destruct x
                  | |- stateless (if ?x then _ else _) => destruct x
                  end ]).
Qed.

(** Reading the conf file changes nothing in the process: the one step that
    would, the [mode.set] of the [DEFAULT] section, finds that section
    empty. *)
Lemma update_from_conf_file_stateless (W : world) (self : Configuration.t) :
  stateless (Configuration.update_from_conf_file W self).
Proof.
  unfold Configuration.update_from_conf_file.
  destruct (Configuration.paths self) as [P |]; [| apply stateless_raise].
  destruct (Paths.aspen_conf P) as [path |].
  - apply stateless_bind_lift. intros conf Hconf. cbv zeta.
    rewrite (ConfFile_DEFAULT_is_empty W _ _ Hconf), !lookup_empty.
    repeat (first [ apply update_logging_stateless
                  | stateless_step
                  | match goal with
                    | |- stateless (match ?x with _ => _ end) => destruct x
                    | |- stateless (if ?x then _ else _) => destruct x
                    end ]).
  - repeat stateless_step.
Qed.

(** The [logging] section never changes [log_filepath]. *)
Lemma update_logging_keeps_log_filepath
  (W : world) (root : string) (logging : gmap string string) (self : Configuration.t) :
  returns (fun c => Configuration.log_filepath c = Configuration.log_filepath self)
          (Configuration.update_logging W root logging self).
Proof.
  unfold Configuration.update_logging.
  apply returns_bind with (Q := fun _ => True); [intros ? ? ? _; exact I |].
  intros _ _.
  apply returns_bind
    with (Q := fun c => Configuration.log_filepath c = Configuration.log_filepath self).
  { destruct (logging !! "filter"); apply returns_ret; reflexivity. }
  intros c1 H1.
  apply returns_bind
    with (Q := fun c => Configuration.log_filepath c = Configuration.log_filepath self).
  { destruct (logging !! "format"); [| apply returns_ret; exact H1].
    destruct (negb _); [apply returns_raise | apply returns_ret; exact H1]. }
  intros c2 H2.
  apply returns_bind
    with (Q := fun c => Configuration.log_filepath c = Configuration.log_filepath self).
  { destruct (logging !! "level"); [| apply returns_ret; exact H2].
    destruct (logging_getattr W _); [apply returns_ret; exact H2 | apply returns_raise]. }
  intros c3 H3.
  apply returns_bind
    with (Q := fun c => Configuration.log_filepath c = Configuration.log_filepath self).
  { destruct (logging !! "size"); [| apply returns_ret; exact H3].
    destruct (float W _); [apply returns_ret; exact H3 | apply returns_raise]. }
  intros c4 H4.
  apply returns_bind
    with (Q := fun c => Configuration.log_filepath c = Configuration.log_filepath self).
  { destruct (logging !! "keep"); [| apply returns_ret; exact H4].
    destruct (Py.int _); [apply returns_ret; exact H4 | apply returns_raise]. }
  intros c5 H5. apply returns_ret. exact H5.
Qed.

(** C5: a [filepath] of the [logging] section whose parent directory exists
    passes the check, and the log-file path of the configuration keeps its
    default all the same; a parent directory that does not exist raises
    [ConfigurationError]. *)
Theorem C5_logging_filepath_is_dropped :
  forall (W : world) (root value : string) (logging : gmap string string)
         (self : Configuration.t) (p : process),
    logging !! "filepath" = Some value ->
    let abs := if negb (Path.isabs value) then Path.join root [value] else value in
    (isdir W (Path.dirname abs) = false ->
     exists msg, Configuration.update_logging W root logging self p
                 = (Raise (ConfigurationError msg), p))
    /\
    (isdir W (Path.dirname abs) = true ->
     forall c p', Configuration.update_logging W root logging self p = (Ok c, p') ->
                  Configuration.log_filepath c = Configuration.log_filepath self).
Proof.
  intros W root value logging self p Hv abs. split.
  - intros Hd. unfold Configuration.update_logging, bind at 1.
    rewrite Hv. fold abs. rewrite Hd. cbn. eexists. reflexivity.
  - intros _ c p' H.
    exact (update_logging_keeps_log_filepath W root logging self p c p' H).
Qed.

Lemma C5_logging_filepath_is_dropped_witness :
  (exists msg,
     Configuration.update_logging (Sample.with_conf []) "/srv/www"
       {["filepath" := "/nowhere/aspen.log"]} (Configuration.initial []%list)
       (Sample.process_in "development")
     = (Raise (ConfigurationError msg), Sample.process_in "development"))
  /\ Configuration.update_logging (Sample.with_conf []) "/srv/www"
       (<["filter" := "aspen"]> {["filepath" := "/var/log/aspen.log"]})
       (Configuration.initial []%list) (Sample.process_in "development")
     = (Ok (Configuration.set_log_filter "aspen" (Configuration.initial []%list)),
        Sample.process_in "development")
  /\ Configuration.log_filepath
       (Configuration.set_log_filter "aspen" (Configuration.initial []%list))
     = Configuration.log_filepath (Configuration.initial []%list).
Proof.
  split; [| split].
  - destruct (C5_logging_filepath_is_dropped (Sample.with_conf []) "/srv/www"
                "/nowhere/aspen.log" {["filepath" := "/nowhere/aspen.log"]}
                (Configuration.initial []%list) (Sample.process_in "development"))
      as [H _]; [reflexivity |].
    apply H. reflexivity.
  - vm_compute. reflexivity.
  - destruct (C5_logging_filepath_is_dropped (Sample.with_conf []) "/srv/www"
                "/var/log/aspen.log"
                (<["filter" := "aspen"]> {["filepath" := "/var/log/aspen.log"]})
                (Configuration.initial []%list) (Sample.process_in "development"))
      as [_ H]; [reflexivity |].
    apply (H eq_refl _ (Sample.process_in "development")).
    vm_compute. reflexivity.
Defined.

(** C4: with a conf file whose [DEFAULT] section sets [threads], the
    constructor raises [UnboundLocalError] for the values ["0"], ["-1"] and
    ["4"] alike: the test [threads in self.conf.DEFAULT] reads the local
    [threads] before anything is assigned to it. *)
Theorem C4_threads_test_reads_unassigned_local :
  fst (Configuration.__init__ (Sample.with_conf (Sample.conf_threads "0"))
         ["aspen"] (Sample.process_in "development"))
    = Raise (UnboundLocalError "threads")
  /\ fst (Configuration.__init__ (Sample.with_conf (Sample.conf_threads "-1"))
            ["aspen"] (Sample.process_in "development"))
     = Raise (UnboundLocalError "threads")
  /\ fst (Configuration.__init__ (Sample.with_conf (Sample.conf_threads "4"))
            ["aspen"] (Sample.process_in "development"))
     = Raise (UnboundLocalError "threads").
Proof. repeat split; vm_compute; reflexivity. Qed.

(** C2: with [mode = production] in the [DEFAULT] section of the conf file,
    the constructor raises [UnboundLocalError] and the mode slot holds what
    it held before the conf file was read: [staging] from the environment
    when no mode flag is given, [debugging] when the command line says so. *)
Theorem C2_conf_file_mode_is_not_applied :
  Configuration.__init__ (Sample.with_conf Sample.conf_mode)
    ["aspen"] (Sample.process_in "staging")
    = (Raise (UnboundLocalError "threads"), Sample.process_in "staging")
  /\ Configuration.__init__ (Sample.with_conf Sample.conf_mode)
       ["aspen"; "--mode"; "debugging"] (Sample.process_in "staging")
     = (Raise (UnboundLocalError "threads"), Sample.process_in "debugging").
Proof. split; vm_compute; reflexivity. Qed.

(** ** Configuration: logging *)

(** C9: running the logging step twice with the same configuration succeeds
    both times and leaves exactly one handler on the 'aspen' logger, whatever
    handlers the logger carried before: after each run the handler list is
    the one handler built from the configuration (a stream handler, or for a
    daemon the rotating file handler on the log file, with the format and the
    filter of the configuration), so the step replaces the handlers it finds
    and the second run puts the logger in the state the first run left. The
    step runs for the two log formats the updates let through, and for a
    daemon when the log file can be opened. *)
Theorem C9_configure_logging_twice :
  forall (W : world) (self : Configuration.t) (p : process),
    Configuration.log_format self = "compact"
    \/ Configuration.log_format self = "verbose" ->
    Configuration.daemon self = false
    \/ can_append W (Configuration.log_filepath self) = true ->
    let h := {| kind :=
                  if Configuration.daemon self
                  then RotatingFileHandler (Configuration.log_filepath self) "a"
                         (Configuration.log_size self * inject_Z MEGABYTE)%Q
                         (Configuration.log_keep self)
                  else StreamHandler;
                formatter := Some (Configuration.log_format self);
                filters := [Configuration.log_filter self] |} in
    exists p1 p2,
      Configuration.configure_logging W self p = (Ok tt, p1)
      /\ Configuration.configure_logging W self p1 = (Ok tt, p2)
      /\ handlers (aspen_log p1) = [h]
      /\ handlers (aspen_log p2) = [h]
      /\ length (handlers (aspen_log p1)) = 1%nat
      /\ length (handlers (aspen_log p2)) = 1%nat
      /\ aspen_log p2 = aspen_log p1.
Proof.
  intros W self p Hfmt Hd.
  unfold Configuration.configure_logging.
  destruct (Configuration.daemon self) eqn:Hdaemon; cbn [negb].
  - destruct Hd as [Hd | Hc]; [discriminate Hd |]. rewrite Hc.
    destruct Hfmt as [-> | ->]; cbn;
      do 2 eexists; repeat split; reflexivity.
  - destruct Hfmt as [-> | ->]; cbn;
      do 2 eexists; repeat split; reflexivity.
Qed.

Lemma C9_configure_logging_twice_witness :
  exists p1 p2,
    Configuration.configure_logging Sample.bare (Configuration.initial ["aspen"])
      Sample.process_with_handlers = (Ok tt, p1)
    /\ Configuration.configure_logging Sample.bare (Configuration.initial ["aspen"]) p1
       = (Ok tt, p2)
    /\ handlers (aspen_log p1)
       = [{| kind := StreamHandler; formatter := Some "compact"; filters := [EmptyString] |}]
    /\ handlers (aspen_log p2)
       = [{| kind := StreamHandler; formatter := Some "compact"; filters := [EmptyString] |}]
    /\ length (handlers (aspen_log p1)) = 1%nat
    /\ length (handlers (aspen_log p2)) = 1%nat
    /\ aspen_log p2 = aspen_log p1.
Proof.
  apply (C9_configure_logging_twice Sample.bare (Configuration.initial ["aspen"])
           Sample.process_with_handlers).
  - left. reflexivity.
  - left. reflexivity.
Defined.

(** A successful run of the logging step leaves exactly one handler. *)
Lemma configure_logging_one_handler
  (W : world) (self : Configuration.t) (p p' : process) (u : unit) :
  Configuration.configure_logging W self p = (Ok u, p') ->
  length (handlers (aspen_log p')) = 1%nat.
Proof.
  unfold Configuration.configure_logging. intros H.
  apply bind_Ok_inv in H as (fmt & p1 & _ & H).
  apply bind_Ok_inv in H as (k & p2 & _ & H).
  cbn in H. injection H as _ <-. reflexivity.
Qed.

(** A configuration is delivered only for a root without a conf file, and
    then with exactly one handler on the 'aspen' logger. *)
Lemma init_Ok_inv (W : world) (argv : list string) (p p' : process) (c : Configuration.t) :
  Configuration.__init__ W argv p = (Ok c, p') ->
  (exists P, Configuration.paths c = Some P /\ Paths.aspen_conf P = None)
  /\ length (handlers (aspen_log p')) = 1%nat.
Proof.
  unfold Configuration.__init__. intros H.
  apply bind_Ok_inv in H as (c1 & p1 & _ & H).
  apply bind_Ok_inv in H as (c2 & p2 & H2 & H).
  apply bind_Ok_inv in H as (c3 & p3 & H3 & H).
  apply bind_Ok_inv in H as (u & p4 & H4 & H).
  injection H as <- <-.
  split; [| exact (configure_logging_one_handler _ _ _ _ _ H4)].
  destruct (update_from_command_line_sets_paths W c1 argv _ _ _ H2) as [P HP].
  destruct (Paths.aspen_conf P) as [path |] eqn:Hconf.
  - destruct (update_from_conf_file_with_file_raises W c2 P path HP Hconf p2)
      as (e & q & Hr).
    rewrite Hr in H3. discriminate H3.
  - unfold Configuration.update_from_conf_file in H3. rewrite HP, Hconf in H3.
    cbn in H3. injection H3 as <- _.
    exists P. split; [exact HP | exact Hconf].
Qed.

(** Without a conf file the resolution completes: the mode of the command
    line replaces the one of the environment, in the configuration and in
    the mode slot. *)
Example resolution_without_conf_file :
  exists c p',
    Configuration.__init__ Sample.bare ["aspen"; "--mode"; "debugging"]
      (Sample.process_in "staging") = (Ok c, p')
    /\ Configuration._mode c = "debugging"
    /\ mode_slot p' = "debugging"
    /\ Configuration.command c = "runfg".
Proof. do 2 eexists. split; [vm_compute; reflexivity |]. repeat split. Qed.

(** * Further properties *)

(** ** validate_address: the other branches *)

(** X1: an address that starts with a slash or a dot is taken as a UNIX
    socket path whatever follows: on Windows the validator raises
    [ConfigurationError], elsewhere it returns the real path with the family
    [AF_UNIX]; the path need not exist. *)
Theorem X1_validate_address_unix :
  forall (W : world) (c : ascii) (rest : string),
    c = "/"%char \/ c = "."%char ->
    validate_address W (String c rest)
      = if WINDOWS W
        then Raise (ConfigurationError "Can't use an AF_UNIX socket on Windows.")
        else Ok (AStr (realpath W (String c rest)), AF_UNIX).
Proof.
  intros W c rest [-> | ->]; reflexivity.
Qed.

Lemma X1_validate_address_unix_witness :
  validate_address Sample.bare "./var/aspen.sock"
    = Ok (AStr "./var/aspen.sock", AF_UNIX).
Proof.
  apply (X1_validate_address_unix Sample.bare "." "/var/aspen.sock").
  right. reflexivity.
Defined.

Lemma startswith_app (sub post : string) : Py.startswith sub (sub +:+ post) = true.
Proof.
  induction sub as [| c sub IH]; [reflexivity |].
  rewrite app_cons. cbn. unfold Py.chr_eqb. rewrite Ascii.eqb_refl. exact IH.
Qed.

Lemma contains_app (sub pre post : string) :
  Py.contains sub (pre +:+ sub +:+ post) = true.
Proof.
  induction pre as [| c pre IH].
  - rewrite app_nil. destruct (sub +:+ post) eqn:E.
    + cbn. rewrite <- E, startswith_app. reflexivity.
    + cbn [Py.contains]. rewrite <- E, startswith_app. reflexivity.
  - rewrite app_cons. cbn [Py.contains]. rewrite IH. apply orb_true_r.
Qed.

(** X2: [WINDOWS] is the test ['win' in sys.platform], so it holds on every
    platform whose name contains ["win"], such as ["darwin"]: there a UNIX
    socket address is refused with [ConfigurationError]. *)
Theorem X2_platform_name_containing_win :
  forall (W : world) (pre post : string) (c : ascii) (rest : string),
    sys_platform W = pre +:+ "win" +:+ post ->
    c = "/"%char \/ c = "."%char ->
    WINDOWS W = true
    /\ validate_address W (String c rest)
       = Raise (ConfigurationError "Can't use an AF_UNIX socket on Windows.").
Proof.
  intros W pre post c rest Hp Hc.
  assert (Hw : WINDOWS W = true).
  { unfold WINDOWS. rewrite Hp. apply contains_app. }
  split; [exact Hw |].
  destruct Hc as [-> | ->]; cbn; rewrite Hw; reflexivity.
Qed.

Lemma X2_platform_name_containing_win_witness :
  WINDOWS Sample2.darwin = true
  /\ validate_address Sample2.darwin "/tmp/aspen.sock"
     = Raise (ConfigurationError "Can't use an AF_UNIX socket on Windows.").
Proof.
  apply (X2_platform_name_containing_win Sample2.darwin "dar" EmptyString "/"
           "tmp/aspen.sock").
  - reflexivity.
  - left. reflexivity.
Defined.

(** X3: an address with more than one colon that starts with neither a
    slash nor a dot is returned as it is with the family [AF_INET6]; nothing
    in it is checked. *)
Theorem X3_validate_address_ipv6_passthrough :
  forall (W : world) (c : ascii) (rest : string),
    c <> "/"%char -> c <> "."%char ->
    1 < Py.count ":" (String c rest) ->
    validate_address W (String c rest) = Ok (AStr (String c rest), AF_INET6).
Proof.
  intros W c rest Hs Hd Hc. unfold validate_address.
  assert (E1 : Py.chr_eqb c "/" = false).
  { destruct (Py.chr_eqb c "/") eqn:E; [apply chr_eqb_true in E; contradiction | reflexivity]. }
  assert (E2 : Py.chr_eqb c "." = false).
  { destruct (Py.chr_eqb c ".") eqn:E; [apply chr_eqb_true in E; contradiction | reflexivity]. }
  rewrite E1, E2. cbn [orb].
  apply Z.ltb_lt in Hc. rewrite Hc. reflexivity.
Qed.

Lemma X3_validate_address_ipv6_passthrough_witness :
  validate_address Sample.bare "not:an:address"
    = Ok (AStr "not:an:address", AF_INET6).
Proof.
  apply (X3_validate_address_ipv6_passthrough Sample.bare "n" "ot:an:address").
  - discriminate.
  - discriminate.
  - reflexivity.
Defined.

Lemma split_length (sep : ascii) (s : string) :
  Z.of_nat (length (Py.split sep s)) = Py.count sep s + 1.
Proof.
  induction s as [| a s IH]; [reflexivity |].
  cbn [Py.split Py.count]. destruct (Py.chr_eqb a sep).
  - cbn [length]. lia.
  - destruct (Py.split sep s) as [| w ws] eqn:E.
    + exfalso. exact (split_nonempty sep s E).
    + cbn [length] in *. lia.
Qed.

Lemma split_one_sep (sep : ascii) (s : string) :
  Py.count sep s = 1 -> exists a b, Py.split sep s = [a; b].
Proof.
  intros H. pose proof (split_length sep s) as L. rewrite H in L.
  destruct (Py.split sep s) as [| a [| b [| c l]]]; cbn [length] in L; try lia.
  exists a, b. reflexivity.
Qed.

Lemma count_lstrip (c : ascii) (s : string) :
  Py.count c (Py.lstrip s) <= Py.count c s.
Proof.
  induction s as [| x s IH]; [reflexivity |].
  cbn [Py.lstrip]. destruct (Py.isspace_char x); [| lia].
  cbn [Py.count]. destruct (Py.chr_eqb x c); lia.
Qed.

Lemma count_rstrip_by (f : ascii -> bool) (c : ascii) (s : string) :
  Py.count c (Py.rstrip_by f s) <= Py.count c s.
Proof.
  induction s as [| x s IH]; [reflexivity |].
  cbn [Py.rstrip_by]. pose proof (count_nonneg c s) as Hs.
  destruct (Py.rstrip_by f s) as [| y r].
  - destruct (f x); cbn [Py.count] in *; destruct (Py.chr_eqb x c); lia.
  - cbn [Py.count] in *. lia.
Qed.

Lemma count_strip (c : ascii) (s : string) :
  Py.count c (Py.strip s) <= Py.count c s.
Proof.
  unfold Py.strip, Py.rstrip.
  pose proof (count_rstrip_by Py.isspace_char c (Py.lstrip s)).
  pose proof (count_lstrip c s). lia.
Qed.

(** An address with one colon is its two parts around the colon. *)
Lemma split_one_sep_app (sep : ascii) (s : string) :
  Py.count sep s = 1 ->
  exists a b, Py.split sep s = [a; b] /\ s = a +:+ String sep b.
Proof.
  intros H. destruct (split_one_sep sep s H) as (a & b & Hs).
  exists a, b. split; [exact Hs |].
  destruct (split_cons_inv _ _ _ _ Hs) as [[? _] | (s1 & Hs1 & ->)]; [discriminate |].
  symmetry in Hs1.
  destruct (split_cons_inv _ _ _ _ Hs1) as [[_ ->] | (s2 & Hs2 & _)]; [reflexivity |].
  exfalso. symmetry in Hs2. exact (split_nonempty _ _ Hs2).
Qed.

(** The ways in which [validate_address] fails. *)
Lemma validate_address_Raise_inv (W : world) (address : string) (e : exn) :
  validate_address W address = Raise e ->
  (e = IndexError /\ address = EmptyString)
  \/ (e = ConfigurationError "Can't use an AF_UNIX socket on Windows."
      /\ WINDOWS W = true)
  \/ e = StringException ("Bad address " +:+ address)
  \/ (e = TypeError Inet.null_bytes /\ 0 < Py.count "000" address).
Proof.
  unfold validate_address.
  destruct address as [| c0 tail].
  { intros H. injection H as <-. left. split; reflexivity. }
  destruct (Py.chr_eqb c0 "/" || Py.chr_eqb c0 ".").
  { destruct (WINDOWS W) eqn:Hw; intros H; [| discriminate H].
    injection H as <-. right. left. split; reflexivity. }
  destruct (1 <? Py.count ":" (String c0 tail)); [discriminate |].
  destruct (Py.count ":" (String c0 tail) =? 1) eqn:Hc; cbn [negb].
  2:{ intros H. injection H as <-. right. right. left. reflexivity. }
  apply Z.eqb_eq in Hc. destruct (split_one_sep_app _ _ Hc) as (a & b & -> & Hab).
  cbn [map].
  assert (Hport : forall ip,
            (port <- (if Py.isdigit (Py.strip b)
                      then Ok (Py.int_of_digits (Py.strip b))
                      else Raise (StringException
                                    ("Bad address " +:+ String c0 tail))) ;;
             if (0 <=? port) && (port <=? 65535)
             then Ok (APair ip port, AF_INET)
             else Raise (StringException ("Bad address " +:+ String c0 tail)))%result
            = Raise e ->
            e = StringException ("Bad address " +:+ String c0 tail)).
  { intros ip. destruct (Py.isdigit (Py.strip b)); cbn [rbind].
    - destruct (_ && _); [discriminate |]. intros H. injection H as <-. reflexivity.
    - intros H. injection H as <-. reflexivity. }
  destruct (Py.strip a) as [| i ip'] eqn:Ha.
  - cbn [rbind]. intros H. right. right. left. exact (Hport _ H).
  - destruct (Inet.inet_aton (String i ip')) eqn:Hi; cbn [rbind].
    + intros H. right. right. left. exact (Hport _ H).
    + intros H. injection H as <-. right. right. left. reflexivity.
    + intros H. injection H as <-. right. right. right. split; [reflexivity |].
      unfold Inet.inet_aton in Hi.
      destruct (Inet.has_nul (String i ip')) eqn:Hn.
      * unfold Inet.has_nul in Hn. apply Z.ltb_lt in Hn.
        pose proof (count_strip "000" a) as Hle. rewrite Ha in Hle.
        rewrite Hab, count_app.
        pose proof (count_nonneg "000" (String ":" b)). lia.
      * destruct (Inet.aton (String i ip')); discriminate Hi.
Qed.

(** X4: [validate_address] fails in four ways only: with [IndexError],
    which it raises exactly when the address is empty; with the
    [ConfigurationError] about Windows, and then the platform is Windows;
    at a [raise] of the string ["Bad address "] followed by the address; or
    with the [TypeError] that [socket.inet_aton] raises for a NUL byte and
    that [except socket.error] lets through, and then the address holds a
    NUL byte. *)
Theorem X4_validate_address_failures :
  forall (W : world) (address : string),
    (validate_address W address = Raise IndexError <-> address = EmptyString)
    /\ forall e : exn,
         validate_address W address = Raise e ->
         (e = IndexError /\ address = EmptyString)
         \/ (e = ConfigurationError "Can't use an AF_UNIX socket on Windows."
             /\ WINDOWS W = true)
         \/ e = StringException ("Bad address " +:+ address)
         \/ (e = TypeError Inet.null_bytes /\ 0 < Py.count "000" address).
Proof.
  intros W address. split; [split |].
  - intros H.
    destruct (validate_address_Raise_inv W address _ H)
      as [[_ Ha] | [[He _] | [He | [He _]]]];
      [exact Ha | discriminate He ..].
  - intros ->. reflexivity.
  - intros e. apply validate_address_Raise_inv.
Qed.

Lemma X4_validate_address_failures_witness :
  let nul := String "1" (String "000" ".1.1.1:80") in
  ((StringException "Bad address 1.1.1.1:99999" = IndexError
    /\ "1.1.1.1:99999" = EmptyString)
   \/ (StringException "Bad address 1.1.1.1:99999"
       = ConfigurationError "Can't use an AF_UNIX socket on Windows."
       /\ WINDOWS Sample.bare = true)
   \/ StringException "Bad address 1.1.1.1:99999"
      = StringException ("Bad address " +:+ "1.1.1.1:99999")
   \/ (StringException "Bad address 1.1.1.1:99999" = TypeError Inet.null_bytes
       /\ 0 < Py.count "000" "1.1.1.1:99999"))
  /\ ((TypeError Inet.null_bytes = IndexError /\ nul = EmptyString)
      \/ (TypeError Inet.null_bytes
          = ConfigurationError "Can't use an AF_UNIX socket on Windows."
          /\ WINDOWS Sample.bare = true)
      \/ TypeError Inet.null_bytes = StringException ("Bad address " +:+ nul)
      \/ (TypeError Inet.null_bytes = TypeError Inet.null_bytes
          /\ 0 < Py.count "000" nul)).
Proof.
  split.
  - apply (proj2 (X4_validate_address_failures Sample.bare "1.1.1.1:99999")).
    reflexivity.
  - apply (proj2 (X4_validate_address_failures Sample.bare
                    (String "1" (String "000" ".1.1.1:80")))).
    reflexivity.
Defined.

(** X5: what [validate_address] returns agrees with the form of its
    argument. A pair comes with [AF_INET]: the argument then splits at its
    one colon into a host part and a port part; stripped of white space, the
    host part is empty or packed by [socket.inet_aton], and the port part is
    made of digits; the pair holds the stripped host part, ["0.0.0.0"] for
    the empty one, and the value of the port, between 0 and 65535. A string
    comes with [AF_UNIX], and then it is the real path of the argument and
    the platform is not Windows, or with [AF_INET6], and then it is the
    argument. *)
Theorem X5_validate_address_results :
  forall (W : world) (address : string) (a : pyaddr) (fam : address_family),
    validate_address W address = Ok (a, fam) ->
    match a, fam with
    | APair ip port, AF_INET =>
        exists x y,
          Py.split ":" address = [x; y]
          /\ ip = normalized_host (Py.strip x)
          /\ (Py.strip x = EmptyString
              \/ Inet.inet_aton (Py.strip x) = Inet.Packed)
          /\ Py.isdigit (Py.strip y) = true
          /\ port = Py.int_of_digits (Py.strip y)
          /\ 0 <= port <= 65535
    | AStr s, AF_UNIX => s = realpath W address /\ WINDOWS W = false
    | AStr s, AF_INET6 => s = address /\ 1 < Py.count ":" address
    | _, _ => False
    end.
Proof.
  intros W address a fam. unfold validate_address.
  destruct address as [| c0 tail]; [discriminate |].
  destruct (Py.chr_eqb c0 "/" || Py.chr_eqb c0 ".").
  { destruct (WINDOWS W) eqn:Hw; intros H; [discriminate H |].
    injection H as <- <-. split; reflexivity. }
  destruct (1 <? Py.count ":" (String c0 tail)) eqn:Hgt.
  { intros H. injection H as <- <-. apply Z.ltb_lt in Hgt. split; [reflexivity | exact Hgt]. }
  destruct (Py.count ":" (String c0 tail) =? 1) eqn:Hc; cbn [negb]; [| discriminate].
  apply Z.eqb_eq in Hc. destruct (split_one_sep _ _ Hc) as (x & y & ->).
  cbn [map].
  assert (Hfin : forall ip,
            ip = normalized_host (Py.strip x) ->
            (Py.strip x = EmptyString
             \/ Inet.inet_aton (Py.strip x) = Inet.Packed) ->
            (port <- (if Py.isdigit (Py.strip y)
                      then Ok (Py.int_of_digits (Py.strip y))
                      else Raise (StringException
                                    ("Bad address " +:+ String c0 tail))) ;;
             if (0 <=? port) && (port <=? 65535)
             then Ok (APair ip port, AF_INET)
             else Raise (StringException ("Bad address " +:+ String c0 tail)))%result
            = Ok (a, fam) ->
            match a, fam with
            | APair ip port, AF_INET =>
                exists x0 y0,
                  [x; y] = [x0; y0]
                  /\ ip = normalized_host (Py.strip x0)
                  /\ (Py.strip x0 = EmptyString
                      \/ Inet.inet_aton (Py.strip x0) = Inet.Packed)
                  /\ Py.isdigit (Py.strip y0) = true
                  /\ port = Py.int_of_digits (Py.strip y0)
                  /\ 0 <= port <= 65535
            | AStr s, AF_UNIX => s = realpath W (String c0 tail) /\ WINDOWS W = false
            | AStr s, AF_INET6 => s = String c0 tail /\ 1 < Py.count ":" (String c0 tail)
            | _, _ => False
            end).
  { intros ip Hip Hhost.
    destruct (Py.isdigit (Py.strip y)) eqn:Hdig; cbn [rbind]; [| discriminate].
    destruct (_ && _) eqn:Hr; [| discriminate].
    intros H. injection H as <- <-.
    apply andb_true_iff in Hr as [H1 H2].
    apply Z.leb_le in H1. apply Z.leb_le in H2.
    exists x, y. repeat split; try assumption; lia. }
  destruct (Py.strip x) as [| i ip'] eqn:Hx.
  - cbn [rbind]. apply Hfin; [reflexivity | left; reflexivity].
  - destruct (Inet.inet_aton (String i ip')) eqn:Hi; cbn [rbind]; try discriminate.
    apply Hfin; [reflexivity | right; reflexivity].
Qed.

Lemma X5_validate_address_results_witness :
  exists x y,
    Py.split ":" " 127.0.0.1 : 8080" = [x; y]
    /\ "127.0.0.1" = normalized_host (Py.strip x)
    /\ (Py.strip x = EmptyString \/ Inet.inet_aton (Py.strip x) = Inet.Packed)
    /\ Py.isdigit (Py.strip y) = true
    /\ 8080 = Py.int_of_digits (Py.strip y)
    /\ 0 <= 8080 <= 65535.
Proof.
  apply (X5_validate_address_results Sample.bare " 127.0.0.1 : 8080"
           (APair "127.0.0.1" 8080) AF_INET).
  reflexivity.
Defined.

(** ** Paths: the other cases *)

(** X6: when only [<root>/aspen.conf] exists, [Paths] records it and
    nothing else: [etc], [lib], [pkg] and [plat] are [None] and the search
    path is not touched, whatever directories the root holds. *)
Theorem X6_Paths_root_conf_file :
  forall (W : world) (root : string) (p : process),
    isfile W (Path.join root ["aspen.conf"]) = true ->
    isfile W (Path.join root ["etc"; "aspen.conf"]) = false ->
    Paths.__init__ W root p
      = (Ok {| Paths.root := root;
               Paths.aspen_conf := Some (Path.join root ["aspen.conf"]);
               Paths.etc := None; Paths.lib := None;
               Paths.pkg := None; Paths.plat := None |}, p).
Proof.
  intros W root p H1 H2. unfold Paths.__init__. rewrite H1, H2. reflexivity.
Qed.

Lemma X6_Paths_root_conf_file_witness :
  Paths.__init__ (Sample.with_conf []) "/srv/www" (Sample.process_in "development")
    = (Ok {| Paths.root := "/srv/www";
             Paths.aspen_conf := Some (Path.join "/srv/www" ["aspen.conf"]);
             Paths.etc := None; Paths.lib := None;
             Paths.pkg := None; Paths.plat := None |},
       Sample.process_in "development").
Proof.
  apply (X6_Paths_root_conf_file (Sample.with_conf []) "/srv/www"
           (Sample.process_in "development")); reflexivity.
Defined.

(** What [Paths] does to the process depends on the root alone: it puts
    some directories in front of the search path. *)
Lemma Paths_effect (W : world) (root : string) :
  exists (added : list string) (r : result Paths.t),
    (forall p, Paths.__init__ W root p
               = (r, {| sys_path := added ++ sys_path p;
                        mode_slot := mode_slot p;
                        aspen_log := aspen_log p |}))
    /\ (length added <= 3)%nat
    /\ (forall d, In d added -> isdir W d = true)
    /\ (forall e, r = Raise e -> added = []).
Proof.
  exists (if negb (isfile W (Path.join root ["aspen.conf"]))
             && isfile W (Path.join root ["etc"; "aspen.conf"])
          then (if isdir W (Path.join (lib_dir W root) ["plat-" +:+ sys_platform W])
                then [Path.join (lib_dir W root) ["plat-" +:+ sys_platform W]] else [])
               ++ (if isdir W (Path.join (lib_dir W root) ["site-packages"])
                   then [Path.join (lib_dir W root) ["site-packages"]] else [])
               ++ (if isdir W (lib_dir W root) then [lib_dir W root] else [])
          else []).
  unfold Paths.__init__, lib_dir.
  destruct (isfile W (Path.join root ["aspen.conf"]));
    destruct (isfile W (Path.join root ["etc"; "aspen.conf"])); cbn [andb negb].
  1-2,4: (eexists;
          (split; [intros [sp ms al]; reflexivity |]);
          (split; [cbn [length]; lia |]);
          (split; [intros d [] | reflexivity])).
  unfold bind, sys_path_insert0, modify, ret.
  destruct (isdir W (Path.join root ["lib"; "python"])) eqn:H1;
    [| destruct (isdir W (Path.join root
                            ["lib"; "python" +:+ Py.take 3 (sys_version W)])) eqn:H1'];
    cbn [fst snd];
    match goal with
    | |- context [isdir W (Path.join ?l ["site-packages"])] =>
        destruct (isdir W (Path.join l ["site-packages"])) eqn:H2;
        destruct (isdir W (Path.join l ["plat-" +:+ sys_platform W])) eqn:H3
    end;
    rewrite ?H1, ?H1';
    eexists;
    (split; [intros [sp ms al]; cbn [sys_path mode_slot aspen_log app]; reflexivity |]);
    (split; [cbn [length app]; lia |]);
    (split; [| intros e He; discriminate He]);
    intros d Hd; cbn [app In] in Hd;
    repeat (destruct Hd as [<- | Hd]; [assumption |]); destruct Hd.
Qed.

(** X7: [Paths] only ever adds to the front of the search path: at most
    three entries, each of them an existing directory, and none when it
    raises; the entries that were there stay in place, and the rest of the
    process state is left alone. *)
Theorem X7_Paths_extends_search_path :
  forall (W : world) (root : string) (p p' : process) (r : result Paths.t),
    Paths.__init__ W root p = (r, p') ->
    mode_slot p' = mode_slot p
    /\ aspen_log p' = aspen_log p
    /\ exists added,
         sys_path p' = added ++ sys_path p
         /\ (length added <= 3)%nat
         /\ (forall d, In d added -> isdir W d = true)
         /\ (forall e, r = Raise e -> added = []).
Proof.
  intros W root p p' r H.
  destruct (Paths_effect W root) as (added & r0 & Heq & Hlen & Hdir & Hraise).
  rewrite Heq in H. injection H as <- <-.
  split; [reflexivity | split; [reflexivity |]].
  exists added. repeat split; assumption.
Qed.

Lemma X7_Paths_extends_search_path_witness :
  mode_slot (snd (Paths.__init__ Sample.with_lib "/srv/www" (Sample.process_in "staging")))
    = mode_slot (Sample.process_in "staging")
  /\ aspen_log (snd (Paths.__init__ Sample.with_lib "/srv/www" (Sample.process_in "staging")))
     = aspen_log (Sample.process_in "staging")
  /\ exists added,
       sys_path (snd (Paths.__init__ Sample.with_lib "/srv/www" (Sample.process_in "staging")))
         = added ++ sys_path (Sample.process_in "staging")
       /\ (length added <= 3)%nat
       /\ (forall d, In d added -> isdir Sample.with_lib d = true)
       /\ (forall e, fst (Paths.__init__ Sample.with_lib "/srv/www"
                            (Sample.process_in "staging")) = Raise e -> added = []).
Proof.
  apply (X7_Paths_extends_search_path Sample.with_lib "/srv/www"
           (Sample.process_in "staging")).
  apply surjective_pairing.
Defined.

(** X8: running [Paths] a second time on the same root gives the same
    record and puts the same directories on the search path once more: the
    entries are duplicated, not recognised. *)
Theorem X8_Paths_twice_duplicates :
  forall (W : world) (root : string) (p p1 : process) (P : Paths.t),
    Paths.__init__ W root p = (Ok P, p1) ->
    exists added p2,
      sys_path p1 = added ++ sys_path p
      /\ Paths.__init__ W root p1 = (Ok P, p2)
      /\ sys_path p2 = added ++ added ++ sys_path p.
Proof.
  intros W root p p1 P H.
  destruct (Paths_effect W root) as (added & r0 & Heq & _).
  rewrite Heq in H. injection H as -> <-.
  exists added. eexists. split; [reflexivity |].
  split; [apply Heq | reflexivity].
Qed.

Lemma X8_Paths_twice_duplicates_witness :
  exists added p2,
    sys_path (snd (Paths.__init__ Sample.with_lib "/srv/www" (Sample.process_in "staging")))
      = added ++ sys_path (Sample.process_in "staging")
    /\ Paths.__init__ Sample.with_lib "/srv/www"
         (snd (Paths.__init__ Sample.with_lib "/srv/www" (Sample.process_in "staging")))
       = (Ok {| Paths.root := "/srv/www";
                Paths.aspen_conf := Some "/srv/www/etc/aspen.conf";
                Paths.etc := Some "/srv/www/etc";
                Paths.lib := Some "/srv/www/lib/python";
                Paths.pkg := Some "/srv/www/lib/python/site-packages";
                Paths.plat := Some "/srv/www/lib/python/plat-linux2" |}, p2)
    /\ sys_path p2 = added ++ added ++ sys_path (Sample.process_in "staging").
Proof.
  apply (X8_Paths_twice_duplicates Sample.with_lib "/srv/www"
           (Sample.process_in "staging")).
  vm_compute. reflexivity.
Defined.

(** X9: the record that [Paths] returns is consistent: the root is the
    argument; [etc] is set exactly when the conf file is the one under
    [etc]; [lib], [pkg] and [plat] are set only when [etc] is; and every
    directory recorded is an existing directory that is on the search path
    afterwards. *)
Theorem X9_Paths_record_invariants :
  forall (W : world) (root : string) (p p' : process) (P : Paths.t),
    Paths.__init__ W root p = (Ok P, p') ->
    Paths.root P = root
    /\ (Paths.etc P = None ->
        Paths.lib P = None /\ Paths.pkg P = None /\ Paths.plat P = None)
    /\ (forall e, Paths.etc P = Some e ->
                  e = Path.join root ["etc"]
                  /\ Paths.aspen_conf P = Some (Path.join root ["etc"; "aspen.conf"]))
    /\ (forall d, Paths.lib P = Some d \/ Paths.pkg P = Some d \/ Paths.plat P = Some d ->
                  isdir W d = true /\ In d (sys_path p')).
Proof.
  intros W root p p' P. unfold Paths.__init__.
  destruct (isfile W (Path.join root ["aspen.conf"]));
    destruct (isfile W (Path.join root ["etc"; "aspen.conf"])); cbn [andb].
  1: discriminate.
  1,3: (intros H; injection H as <- <-;
        cbn [Paths.root Paths.etc Paths.lib Paths.pkg Paths.plat Paths.aspen_conf];
        (split; [reflexivity |]);
        (split; [intros _; repeat split; reflexivity |]);
        (split; [intros e He; discriminate He |]);
        intros d [Hd | [Hd | Hd]]; discriminate Hd).
  unfold bind, sys_path_insert0, modify, ret.
  destruct (isdir W (Path.join root ["lib"; "python"])) eqn:H1;
    [| destruct (isdir W (Path.join root
                            ["lib"; "python" +:+ Py.take 3 (sys_version W)])) eqn:H1'];
    cbn [fst snd];
    match goal with
    | |- context [isdir W (Path.join ?l ["site-packages"])] =>
        destruct (isdir W (Path.join l ["site-packages"])) eqn:H2;
        destruct (isdir W (Path.join l ["plat-" +:+ sys_platform W])) eqn:H3
    end;
    intros H; injection H as <- <-;
    cbn [Paths.root Paths.etc Paths.lib Paths.pkg Paths.plat Paths.aspen_conf sys_path];
    (split; [reflexivity |]);
    (split; [discriminate |]);
    (split; [intros e He; injection He as <-; split; reflexivity |]);
    intros d [Hd | [Hd | Hd]]; try discriminate Hd;
    injection Hd as <-; (split; [assumption | cbn [In]; tauto]).
Qed.

Lemma X9_Paths_record_invariants_witness :
  "/srv/www" = "/srv/www"
  /\ (Some "/srv/www/etc" = None ->
      Some "/srv/www/lib/python" = None
      /\ Some "/srv/www/lib/python/site-packages" = None
      /\ Some "/srv/www/lib/python/plat-linux2" = None)
  /\ (forall e, Some "/srv/www/etc" = Some e ->
                e = Path.join "/srv/www" ["etc"]
                /\ Some "/srv/www/etc/aspen.conf"
                   = Some (Path.join "/srv/www" ["etc"; "aspen.conf"]))
  /\ (forall d, Some "/srv/www/lib/python" = Some d
                \/ Some "/srv/www/lib/python/site-packages" = Some d
                \/ Some "/srv/www/lib/python/plat-linux2" = Some d ->
                isdir Sample.with_lib d = true
                /\ In d ["/srv/www/lib/python/plat-linux2";
                         "/srv/www/lib/python/site-packages";
                         "/srv/www/lib/python"; "/usr/lib/python2.5"]).
Proof.
  apply (X9_Paths_record_invariants Sample.with_lib "/srv/www"
           (Sample.process_in "staging")
           {| sys_path := ["/srv/www/lib/python/plat-linux2";
                           "/srv/www/lib/python/site-packages";
                           "/srv/www/lib/python"; "/usr/lib/python2.5"];
              mode_slot := "staging"; aspen_log := Sample.logger0 |}
           {| Paths.root := "/srv/www";
              Paths.aspen_conf := Some "/srv/www/etc/aspen.conf";
              Paths.etc := Some "/srv/www/etc";
              Paths.lib := Some "/srv/www/lib/python";
              Paths.pkg := Some "/srv/www/lib/python/site-packages";
              Paths.plat := Some "/srv/www/lib/python/plat-linux2" |}).
  vm_compute. reflexivity.
Defined.

(** ** Configuration: the command line *)

(** What a successful [update_from_command_line] has done, step by step. *)
Lemma update_from_command_line_inv
  (W : world) (self : Configuration.t) (argv : list string)
  (p p' : process) (c : Configuration.t) :
  Configuration.update_from_command_line W self argv p = (Ok c, p') ->
  exists opts args paths p1,
    Optparse.parse_args W argv = Ok (opts, args)
    /\ Paths.__init__ W (Values.root opts) p = (Ok paths, p1)
    /\ let command := match args with
                      | _ :: EmptyString :: _ => "runfg"
                      | _ :: arg1 :: _ => arg1
                      | _ => "runfg"
                      end in
       let base :=
         Configuration.set_daemon (negb (String.eqb command "runfg"))
           (Configuration.set_command command
              (Configuration.set_paths (Some paths)
                 (Configuration.set_args (Some args)
                    (Configuration.set_opts (Some opts) self)))) in
       existsb (String.eqb command) COMMANDS = true
       /\ (negb (String.eqb command "runfg") = true -> WINDOWS W = false)
       /\ exists c1,
            (if Values.have_address opts
             then exists fam, Values.sockfam opts = Some fam
                              /\ c1 = Configuration.set_sockfam fam
                                        (Configuration.set_address (Values.address opts) base)
             else c1 = base)
            /\ (if Values.have_mode opts
                then c = Configuration.set__mode (Values.mode opts) c1
                     /\ p' = {| sys_path := sys_path p1;
                                mode_slot := Values.mode opts;
                                aspen_log := aspen_log p1 |}
                else c = c1 /\ p' = p1).
Proof.
  unfold Configuration.update_from_command_line. intros H.
  apply bind_Ok_inv in H as ([opts args] & p0 & Hparse & H).
  unfold lift in Hparse. injection Hparse as Hparse <-.
  apply bind_Ok_inv in H as (paths & p1 & Hpaths & H).
  cbn [fst snd] in H.
  exists opts, args, paths, p1.
  split; [exact Hparse | split; [exact Hpaths |]].
  cbv zeta.
  set (command := match args with
                  | _ :: EmptyString :: _ => "runfg"
                  | _ :: arg1 :: _ => arg1
                  | _ => "runfg"
                  end) in *.
  destruct (existsb (String.eqb command) COMMANDS) eqn:Hcmd; cbn [negb] in H;
    [| discriminate H].
  split; [reflexivity |].
  destruct (negb (String.eqb command "runfg") && WINDOWS W) eqn:Hd; [discriminate H |].
  split.
  { intros Hdaemon. rewrite Hdaemon in Hd. exact Hd. }
  apply bind_Ok_inv in H as (c1 & p2 & H1 & H).
  apply bind_Ok_inv in H as (c2 & p3 & H2 & H).
  injection H as <- <-.
  exists c1. split.
  - destruct (Values.have_address opts).
    + destruct (Values.sockfam opts) as [fam |]; [| discriminate H1].
      injection H1 as <- _. exists fam. split; reflexivity.
    + injection H1 as <- _. reflexivity.
  - assert (Hp2 : p2 = p1).
    { destruct (Values.have_address opts).
      - destruct (Values.sockfam opts); [| discriminate H1].
        injection H1 as _ <-. reflexivity.
      - injection H1 as _ <-. reflexivity. }
    subst p2.
    destruct (Values.have_mode opts).
    + apply bind_Ok_inv in H2 as (u & p4 & Hset & H2).
      injection Hset as _ <-. injection H2 as <- <-. split; reflexivity.
    + injection H2 as <- <-. split; reflexivity.
Qed.

(** X10: after a successful [update_from_command_line] the command is the
    second positional argument, or ['runfg'] when there is none or it is
    empty; it is one of [COMMANDS]; [daemon] says whether it differs from
    ['runfg']; and a daemon is only accepted off Windows. *)
Theorem X10_command_and_daemon :
  forall (W : world) (self : Configuration.t) (argv : list string)
         (p p' : process) (c : Configuration.t),
    Configuration.update_from_command_line W self argv p = (Ok c, p') ->
    In (Configuration.command c) COMMANDS
    /\ Configuration.daemon c = negb (String.eqb (Configuration.command c) "runfg")
    /\ (Configuration.daemon c = true -> WINDOWS W = false)
    /\ exists args,
         Configuration.args c = Some args
         /\ Configuration.command c
            = match args with
              | _ :: EmptyString :: _ => "runfg"
              | _ :: arg1 :: _ => arg1
              | _ => "runfg"
              end.
Proof.
  intros W self argv p p' c H.
  destruct (update_from_command_line_inv W self argv p p' c H)
    as (opts & args & paths & p1 & _ & _ & Hcmd & Hwin & c1 & Hc1 & Hc).
  assert (Hfields :
            Configuration.command c
            = match args with
              | _ :: EmptyString :: _ => "runfg"
              | _ :: arg1 :: _ => arg1
              | _ => "runfg"
              end
            /\ Configuration.daemon c
               = negb (String.eqb (Configuration.command c) "runfg")
            /\ Configuration.args c = Some args).
  { destruct (Values.have_address opts);
      [destruct Hc1 as (fam & _ & ->) | subst c1];
      (destruct (Values.have_mode opts); destruct Hc as [-> _];
       repeat split; reflexivity). }
  destruct Hfields as (Hcommand & Hdaemon & Hargs).
  split.
  { rewrite Hcommand. apply existsb_exists in Hcmd as (x & Hin & Hx).
    apply String.eqb_eq in Hx. rewrite Hx. exact Hin. }
  split; [exact Hdaemon |].
  split.
  { intros Hd. apply Hwin. rewrite <- Hcommand, <- Hdaemon. exact Hd. }
  exists args. split; assumption.
Qed.

Lemma X10_command_and_daemon_witness :
  In (Configuration.command
        (Sample2.value_of (Configuration.initial [])
           (fst (Configuration.update_from_command_line Sample.bare
                   (Configuration.initial ["aspen"; "restart"])
                   ["aspen"; "restart"] (Sample.process_in "staging")))))
     COMMANDS.
Proof.
  apply (X10_command_and_daemon Sample.bare (Configuration.initial ["aspen"; "restart"])
           ["aspen"; "restart"] (Sample.process_in "staging")
           (snd (Configuration.update_from_command_line Sample.bare
                   (Configuration.initial ["aspen"; "restart"])
                   ["aspen"; "restart"] (Sample.process_in "staging")))).
  vm_compute. reflexivity.
Defined.

(** ** Configuration: what the constructor delivers *)

(** The command line leaves alone what only the conf file can set. *)
Lemma update_from_command_line_frame
  (W : world) (self : Configuration.t) (argv : list string)
  (p p' : process) (c : Configuration.t) :
  Configuration.update_from_command_line W self argv p = (Ok c, p') ->
  Configuration.argv c = Configuration.argv self
  /\ Configuration.conf c = Configuration.conf self
  /\ Configuration.defaults c = Configuration.defaults self
  /\ Configuration.http_version c = Configuration.http_version self
  /\ Configuration.log_filepath c = Configuration.log_filepath self
  /\ Configuration.log_filter c = Configuration.log_filter self
  /\ Configuration.log_format c = Configuration.log_format self
  /\ Configuration.log_keep c = Configuration.log_keep self
  /\ Configuration.log_level c = Configuration.log_level self
  /\ Configuration.log_size c = Configuration.log_size self
  /\ Configuration.threads c = Configuration.threads self
  /\ Configuration.verbosity c = Configuration.verbosity self.
Proof.
  intros H.
  destruct (update_from_command_line_inv W self argv p p' c H)
    as (opts & args & paths & p1 & _ & _ & _ & _ & c1 & Hc1 & Hc).
  destruct (Values.have_address opts);
    [destruct Hc1 as (fam & _ & ->) | subst c1];
    (destruct (Values.have_mode opts); destruct Hc as [-> _];
     repeat split; reflexivity).
Qed.

(** What a successful logging step has done. *)
Lemma configure_logging_inv
  (W : world) (self : Configuration.t) (p p' : process) (u : unit) :
  Configuration.configure_logging W self p = (Ok u, p') ->
  exists k,
    (if Configuration.daemon self
     then can_append W (Configuration.log_filepath self) = true
          /\ k = RotatingFileHandler (Configuration.log_filepath self) "a"
                   (Configuration.log_size self * inject_Z MEGABYTE)%Q
                   (Configuration.log_keep self)
     else k = StreamHandler)
    /\ (Configuration.log_format self = "compact"
        \/ Configuration.log_format self = "verbose")
    /\ p' = {| sys_path := sys_path p;
               mode_slot := mode_slot p;
               aspen_log :=
                 {| handlers := [{| kind := k;
                                    formatter := Some (Configuration.log_format self);
                                    filters := [Configuration.log_filter self] |}];
                    level := Configuration.log_level self;
                    propagate := false |} |}.
Proof.
  unfold Configuration.configure_logging. intros H.
  apply bind_Ok_inv in H as (fmt & p1 & Hfmt & H).
  apply bind_Ok_inv in H as (k & p2 & Hk & H).
  assert (Hf : fmt = Configuration.log_format self /\ p1 = p
               /\ (Configuration.log_format self = "compact"
                   \/ Configuration.log_format self = "verbose")).
  { destruct (String.eqb (Configuration.log_format self) "compact") eqn:E1.
    - apply String.eqb_eq in E1. injection Hfmt as <- <-. rewrite E1. auto.
    - destruct (String.eqb (Configuration.log_format self) "verbose") eqn:E2;
        [| discriminate Hfmt].
      apply String.eqb_eq in E2. injection Hfmt as <- <-. rewrite E2. auto. }
  destruct Hf as (-> & -> & Hformat).
  exists k. split; [| split; [exact Hformat |]].
  - destruct (Configuration.daemon self); cbn [negb] in Hk.
    + destruct (can_append W (Configuration.log_filepath self)); [| discriminate Hk].
      injection Hk as <- _. split; reflexivity.
    + injection Hk as <- _. reflexivity.
  - assert (Hp2 : p2 = p).
    { destruct (negb (Configuration.daemon self)).
      - injection Hk as _ <-. reflexivity.
      - destruct (can_append W (Configuration.log_filepath self)); [| discriminate Hk].
        injection Hk as _ <-. reflexivity. }
    subst p2. cbn in H. injection H as _ <-. reflexivity.
Qed.

(** What a successful construction went through. *)
Lemma init_inv (W : world) (argv : list string) (p p' : process) (c : Configuration.t) :
  Configuration.__init__ W argv p = (Ok c, p') ->
  exists c2 p2 P,
    Configuration.update_from_command_line W
      (Configuration.set__mode (mode_slot p) (Configuration.initial argv)) argv p
      = (Ok c2, p2)
    /\ Configuration.paths c2 = Some P
    /\ Paths.aspen_conf P = None
    /\ c = Configuration.set_conf (Some ConfFile.RawConfigParser) c2
    /\ Configuration.configure_logging W c p2 = (Ok tt, p').
Proof.
  unfold Configuration.__init__. intros H.
  apply bind_Ok_inv in H as (c1 & p1 & H1 & H).
  injection H1 as <- <-.
  apply bind_Ok_inv in H as (c2 & p2 & H2 & H).
  apply bind_Ok_inv in H as (c3 & p3 & H3 & H).
  apply bind_Ok_inv in H as ([] & p4 & H4 & H).
  injection H as <- <-.
  destruct (update_from_command_line_sets_paths W _ argv _ _ _ H2) as [P HP].
  exists c2, p2, P. split; [exact H2 | split; [exact HP |]].
  destruct (Paths.aspen_conf P) as [path |] eqn:Hconf.
  - destruct (update_from_conf_file_with_file_raises W c2 P path HP Hconf p2)
      as (e & q & Hr).
    rewrite Hr in H3. discriminate H3.
  - unfold Configuration.update_from_conf_file in H3. rewrite HP, Hconf in H3.
    cbn in H3. injection H3 as <- <-.
    repeat split. exact H4.
Qed.

(** X11: every configuration that the constructor delivers carries the
    built-in values of all the settings that only the conf file could
    change, and an empty conf file object: a root with a conf file never
    gets as far as a configuration. *)
Theorem X11_delivered_configuration_has_builtin_settings :
  forall (W : world) (argv : list string) (p p' : process) (c : Configuration.t),
    Configuration.__init__ W argv p = (Ok c, p') ->
    Configuration.conf c = Some ConfFile.RawConfigParser
    /\ Configuration.defaults c = ["index.html"; "index.htm"]
    /\ Configuration.http_version c = "1.1"
    /\ Configuration.threads c = 10
    /\ Configuration.log_filepath c = "var/aspen.log"
    /\ Configuration.log_filter c = EmptyString
    /\ Configuration.log_format c = "compact"
    /\ Configuration.log_keep c = 5
    /\ Configuration.log_level c = inl 20
    /\ Configuration.log_size c = 1%Q.
Proof.
  intros W argv p p' c H.
  destruct (init_inv W argv p p' c H) as (c2 & p2 & P & H2 & _ & _ & -> & _).
  destruct (update_from_command_line_frame W _ argv _ _ _ H2)
    as (_ & _ & Hd & Hh & Hfp & Hfl & Hfo & Hk & Hl & Hs & Ht & _).
  cbn [Configuration.set_conf Configuration.conf Configuration.defaults
       Configuration.http_version Configuration.threads Configuration.log_filepath
       Configuration.log_filter Configuration.log_format Configuration.log_keep
       Configuration.log_level Configuration.log_size].
  rewrite Hd, Hh, Hfp, Hfl, Hfo, Hk, Hl, Hs, Ht.
  repeat split; reflexivity.
Qed.

Lemma X11_delivered_configuration_has_builtin_settings_witness :
  Configuration.threads
    (Sample2.value_of (Configuration.initial [])
       (fst (Configuration.__init__ Sample.bare ["aspen"; "-a"; ":80"]
               (Sample.process_in "staging")))) = 10.
Proof.
  apply (X11_delivered_configuration_has_builtin_settings Sample.bare
           ["aspen"; "-a"; ":80"] (Sample.process_in "staging")
           (snd (Configuration.__init__ Sample.bare ["aspen"; "-a"; ":80"]
                   (Sample.process_in "staging")))).
  vm_compute. reflexivity.
Defined.

(** X12: in a delivered configuration the mode is the one of the command
    line when a mode option was given and the one of the environment
    otherwise, and the mode slot of the process holds the same value; the
    address is the one of the command line when an address option was
    given, and otherwise the built-in [('', 8080)] with [AF_INET], not the
    default of the option parser. *)
Theorem X12_delivered_mode_and_address :
  forall (W : world) (argv : list string) (p p' : process) (c : Configuration.t),
    Configuration.__init__ W argv p = (Ok c, p') ->
    exists opts,
      Configuration.opts c = Some opts
      /\ Configuration._mode c
         = (if Values.have_mode opts then Values.mode opts else mode_slot p)
      /\ mode_slot p' = Configuration._mode c
      /\ Configuration.address c
         = (if Values.have_address opts then Values.address opts
            else APair EmptyString 8080)
      /\ (Values.have_address opts = false -> Configuration.sockfam c = AF_INET).
Proof.
  intros W argv p p' c H.
  destruct (init_inv W argv p p' c H) as (c2 & p2 & P & H2 & _ & _ & -> & Hlog).
  destruct (configure_logging_inv _ _ _ _ _ Hlog) as (k & _ & _ & ->).
  destruct (update_from_command_line_inv W _ argv p p2 c2 H2)
    as (opts & args & paths & p1 & _ & Hpaths & _ & _ & c1 & Hc1 & Hc).
  destruct (Paths_effect W (Values.root opts)) as (added & r0 & Heq & _).
  rewrite Heq in Hpaths. injection Hpaths as _ <-.
  exists opts.
  destruct (Values.have_address opts);
    [destruct Hc1 as (fam & _ & ->) | subst c1];
    (destruct (Values.have_mode opts); destruct Hc as [-> ->];
     repeat split; try reflexivity; discriminate).
Qed.

Lemma X12_delivered_mode_and_address_witness :
  exists opts,
    Configuration.opts
      (Sample2.value_of (Configuration.initial [])
         (fst (Configuration.__init__ Sample.bare ["aspen"; "--mode"; "prod"]
                 (Sample.process_in "staging")))) = Some opts
    /\ Configuration._mode
         (Sample2.value_of (Configuration.initial [])
            (fst (Configuration.__init__ Sample.bare ["aspen"; "--mode"; "prod"]
                    (Sample.process_in "staging"))))
       = (if Values.have_mode opts then Values.mode opts
          else mode_slot (Sample.process_in "staging"))
    /\ mode_slot (snd (Configuration.__init__ Sample.bare ["aspen"; "--mode"; "prod"]
                         (Sample.process_in "staging")))
       = Configuration._mode
           (Sample2.value_of (Configuration.initial [])
              (fst (Configuration.__init__ Sample.bare ["aspen"; "--mode"; "prod"]
                      (Sample.process_in "staging"))))
    /\ Configuration.address
         (Sample2.value_of (Configuration.initial [])
            (fst (Configuration.__init__ Sample.bare ["aspen"; "--mode"; "prod"]
                    (Sample.process_in "staging"))))
       = (if Values.have_address opts then Values.address opts
          else APair EmptyString 8080)
    /\ (Values.have_address opts = false ->
        Configuration.sockfam
          (Sample2.value_of (Configuration.initial [])
             (fst (Configuration.__init__ Sample.bare ["aspen"; "--mode"; "prod"]
                     (Sample.process_in "staging")))) = AF_INET).
Proof.
  apply (X12_delivered_mode_and_address Sample.bare ["aspen"; "--mode"; "prod"]
           (Sample.process_in "staging")).
  vm_compute. reflexivity.
Defined.

(** X13: after a successful construction the 'aspen' logger is fully
    determined: one handler with the compact format and the empty filter,
    a stream handler unless the command daemonizes and otherwise a rotating
    file handler on [var/aspen.log] in append mode with a limit of 1048576
    bytes and 5 backups; level [INFO] (20); propagation off. *)
Theorem X13_delivered_logger :
  forall (W : world) (argv : list string) (p p' : process) (c : Configuration.t),
    Configuration.__init__ W argv p = (Ok c, p') ->
    aspen_log p'
      = {| handlers :=
             [{| kind := if Configuration.daemon c
                         then RotatingFileHandler "var/aspen.log" "a" (1048576 # 1) 5
                         else StreamHandler;
                 formatter := Some "compact";
                 filters := [EmptyString] |}];
           level := inl 20;
           propagate := false |}.
Proof.
  intros W argv p p' c H.
  destruct (init_inv W argv p p' c H) as (c2 & p2 & P & H2 & _ & _ & Hc & Hlog).
  destruct (configure_logging_inv _ _ _ _ _ Hlog) as (k & Hkind & _ & ->).
  destruct (update_from_command_line_frame W _ argv _ _ _ H2)
    as (_ & _ & _ & _ & Hfp & Hfl & Hfo & Hk & Hl & Hs & _ & _).
  assert (Hfields :
            Configuration.log_filepath c = "var/aspen.log"
            /\ Configuration.log_filter c = EmptyString
            /\ Configuration.log_format c = "compact"
            /\ Configuration.log_keep c = 5
            /\ Configuration.log_level c = inl 20
            /\ Configuration.log_size c = 1%Q).
  { rewrite Hc.
    cbn [Configuration.set_conf Configuration.log_filepath Configuration.log_filter
         Configuration.log_format Configuration.log_keep Configuration.log_level
         Configuration.log_size].
    rewrite Hfp, Hfl, Hfo, Hk, Hl, Hs. repeat split; reflexivity. }
  destruct Hfields as (Efp & Efl & Efo & Ek & El & Es).
  cbn [aspen_log]. rewrite Efo, Efl, El.
  destruct (Configuration.daemon c).
  - destruct Hkind as [_ ->]. rewrite Efp, Es, Ek. reflexivity.
  - rewrite Hkind. reflexivity.
Qed.

Lemma X13_delivered_logger_witness :
  aspen_log (snd (Configuration.__init__ Sample.bare ["aspen"]
                    (Sample.process_in "staging")))
    = {| handlers :=
           [{| kind := if Configuration.daemon
                            (Sample2.value_of (Configuration.initial [])
                               (fst (Configuration.__init__ Sample.bare ["aspen"]
                                       (Sample.process_in "staging"))))
                       then RotatingFileHandler "var/aspen.log" "a" (1048576 # 1) 5
                       else StreamHandler;
               formatter := Some "compact";
               filters := [EmptyString] |}];
         level := inl 20;
         propagate := false |}.
Proof.
  apply (X13_delivered_logger Sample.bare ["aspen"] (Sample.process_in "staging")).
  vm_compute. reflexivity.
Defined.

(** ** Configuration: failures *)

Lemma raises_only_ret {A : Type} (P : exn -> Prop) (a : A) : raises_only P (ret a).
Proof. intros p e p' H. discriminate H. Qed.

Lemma raises_only_raise {A : Type} (P : exn -> Prop) (e : exn) :
  P e -> raises_only P (@raise A e).
Proof. intros He p e' p' H. injection H as <- _. exact He. Qed.

Lemma raises_only_bind {A B : Type} (P : exn -> Prop) (m : M A) (k : A -> M B) :
  raises_only P m -> (forall a, raises_only P (k a)) -> raises_only P (bind m k).
Proof.
  intros Hm Hk p e p' H. unfold bind in H.
  destruct (m p) as [[a | e0] p1] eqn:Hmp.
  - exact (Hk a _ _ _ H).
  - injection H as <- _. exact (Hm _ _ _ Hmp).
Qed.

Lemma raises_only_bind_lift {A B : Type} (P : exn -> Prop) (r : result A) (k : A -> M B) :
  (forall e, r = Raise e -> P e) ->
  (forall a, r = Ok a -> raises_only P (k a)) ->
  raises_only P (bind (lift r) k).
Proof.
  intros Hr Hk p e p' H. unfold bind, lift in H. destruct r as [a | e0].
  - exact (Hk a eq_refl _ _ _ H).
  - injection H as <- _. apply Hr. reflexivity.
Qed.

Ltac raises_only_step :=
  first [ progress cbv zeta
        | apply raises_only_ret
        | apply raises_only_raise
        | apply raises_only_bind; [| intros ?] ].

(** X14: a logging step that fails leaves the process as it was, the
    handlers already attached included; it fails only with the
    [ConfigurationError] of the sanity check, for a log format that is
    neither compact nor verbose, or with the [IOError] of a log file that
    cannot be opened for a daemon. *)
Theorem X14_configure_logging_failure :
  forall (W : world) (self : Configuration.t) (p p' : process) (e : exn),
    Configuration.configure_logging W self p = (Raise e, p') ->
    p' = p
    /\ ((e = ConfigurationError "Sanity check."
         /\ Configuration.log_format self <> "compact"
         /\ Configuration.log_format self <> "verbose")
        \/ (e = IOError (Configuration.log_filepath self)
            /\ Configuration.daemon self = true
            /\ can_append W (Configuration.log_filepath self) = false)).
Proof.
  intros W self p p' e. unfold Configuration.configure_logging, bind.
  destruct (String.eqb (Configuration.log_format self) "compact") eqn:E1;
    [| destruct (String.eqb (Configuration.log_format self) "verbose") eqn:E2].
  3:{ intros H. injection H as <- <-. split; [reflexivity | left].
      apply String.eqb_neq in E1. apply String.eqb_neq in E2. auto. }
  all: cbn [ret];
    destruct (Configuration.daemon self); cbn [negb ret];
    [destruct (can_append W (Configuration.log_filepath self)) eqn:Hc |];
    cbn; intros H; try discriminate H;
    injection H as <- <-; split; [reflexivity | right]; auto.
Qed.

Lemma X14_configure_logging_failure_witness :
  snd (Configuration.configure_logging Sample.bare
         (Configuration.set_daemon true (Configuration.initial ["aspen"; "start"]))
         (Sample.process_in "staging"))
    = Sample.process_in "staging"
  /\ ((IOError "var/aspen.log" = ConfigurationError "Sanity check."
       /\ Configuration.log_format
            (Configuration.set_daemon true (Configuration.initial ["aspen"; "start"]))
          <> "compact"
       /\ Configuration.log_format
            (Configuration.set_daemon true (Configuration.initial ["aspen"; "start"]))
          <> "verbose")
      \/ (IOError "var/aspen.log"
          = IOError (Configuration.log_filepath
                       (Configuration.set_daemon true
                          (Configuration.initial ["aspen"; "start"])))
          /\ Configuration.daemon
               (Configuration.set_daemon true (Configuration.initial ["aspen"; "start"]))
             = true
          /\ can_append Sample.bare
               (Configuration.log_filepath
                  (Configuration.set_daemon true
                     (Configuration.initial ["aspen"; "start"]))) = false)).
Proof.
  apply (X14_configure_logging_failure Sample.bare
           (Configuration.set_daemon true (Configuration.initial ["aspen"; "start"]))
           (Sample.process_in "staging")).
  vm_compute. reflexivity.
Defined.

Lemma update_logging_raises_ConfigurationError
  (W : world) (root : string) (logging : gmap string string) (self : Configuration.t) :
  raises_only (fun e => is_ConfigurationError e = true)
              (Configuration.update_logging W root logging self).
Proof.
  unfold Configuration.update_logging.
  repeat (first [ raises_only_step
                | reflexivity
                | match goal with
                  | |- raises_only _ (match ?x with _ => _ end) => destruct x
                  | |- raises_only _ (if ?x then _ else _) => destruct x
                  end ]).
Qed.

(** X15: the [logging] section is validated without side effect and fails
    with [ConfigurationError] only. *)
Theorem X15_update_logging_failures :
  forall (W : world) (root : string) (logging : gmap string string)
         (self : Configuration.t) (p p' : process) (e : exn),
    Configuration.update_logging W root logging self p = (Raise e, p') ->
    is_ConfigurationError e = true /\ p' = p.
Proof.
  intros W root logging self p p' e H. split.
  - exact (update_logging_raises_ConfigurationError W root logging self p e p' H).
  - exact (update_logging_stateless W root logging self p _ p' H).
Qed.

Lemma X15_update_logging_failures_witness :
  is_ConfigurationError (ConfigurationError "Bad log format: loud") = true
  /\ Sample.process_in "staging" = Sample.process_in "staging".
Proof.
  apply (X15_update_logging_failures (Sample.with_conf []) "/srv/www"
           {["format" := "LOUD"]} (Configuration.initial [])
           (Sample.process_in "staging")).
  vm_compute. reflexivity.
Defined.

(** X16: when the [logging] block succeeds, every key that is present has
    been stored: [filter] as it is, [format] in lower case and equal to
    compact or verbose, [level] as the attribute of the logging module named
    by its upper case, [size] as a float and [keep] as an integer of any
    sign; the settings whose keys are absent, and everything outside the
    logging settings, stay as they were. *)
Theorem X16_update_logging_stores_each_key :
  forall (W : world) (root : string) (logging : gmap string string)
         (self : Configuration.t) (p p' : process) (c : Configuration.t),
    Configuration.update_logging W root logging self p = (Ok c, p') ->
    match logging !! "filter" with
    | Some v => Configuration.log_filter c = v
    | None => Configuration.log_filter c = Configuration.log_filter self
    end
    /\ match logging !! "format" with
       | Some v => Configuration.log_format c = Py.lower v
                   /\ (Py.lower v = "compact" \/ Py.lower v = "verbose")
       | None => Configuration.log_format c = Configuration.log_format self
       end
    /\ match logging !! "level" with
       | Some v => logging_getattr W (Py.upper v) = Some (Configuration.log_level c)
       | None => Configuration.log_level c = Configuration.log_level self
       end
    /\ match logging !! "size" with
       | Some v => float W v = Some (Configuration.log_size c)
       | None => Configuration.log_size c = Configuration.log_size self
       end
    /\ match logging !! "keep" with
       | Some v => Py.int v = Some (Configuration.log_keep c)
       | None => Configuration.log_keep c = Configuration.log_keep self
       end
    /\ Configuration.address c = Configuration.address self
    /\ Configuration.sockfam c = Configuration.sockfam self
    /\ Configuration._mode c = Configuration._mode self
    /\ Configuration.threads c = Configuration.threads self
    /\ Configuration.defaults c = Configuration.defaults self
    /\ Configuration.http_version c = Configuration.http_version self.
Proof.
  intros W root logging self p p' c H.
  unfold Configuration.update_logging in H.
  apply bind_Ok_inv in H as (u & p0 & _ & H).
  apply bind_Ok_inv in H as (c1 & p1 & H1 & H).
  apply bind_Ok_inv in H as (c2 & p2 & H2 & H).
  apply bind_Ok_inv in H as (c3 & p3 & H3 & H).
  apply bind_Ok_inv in H as (c4 & p4 & H4 & H).
  apply bind_Ok_inv in H as (c5 & p5 & H5 & H).
  injection H as <- _.
  destruct (logging !! "filter") as [vf |]; injection H1 as <- _.
  all: destruct (logging !! "format") as [vo |];
    [ cbv zeta in H2;
      destruct (existsb (String.eqb (Py.lower vo)) ["compact"; "verbose"]) eqn:Ho;
      cbn [negb] in H2; [| discriminate H2]
    | ]; injection H2 as <- _.
  all: destruct (logging !! "level") as [vl |];
    [ destruct (logging_getattr W (Py.upper vl)) as [lvl |] eqn:Hl; [| discriminate H3]
    | ]; injection H3 as <- _.
  all: destruct (logging !! "size") as [vs |];
    [ destruct (float W vs) as [x |] eqn:Hs; [| discriminate H4]
    | ]; injection H4 as <- _.
  all: destruct (logging !! "keep") as [vk |];
    [ destruct (Py.int vk) as [n |] eqn:Hk; [| discriminate H5]
    | ]; injection H5 as <- _.
  all: repeat split; try reflexivity.
  all: cbn [existsb] in Ho; apply orb_true_iff in Ho as [Ho | Ho];
    [ left; apply String.eqb_eq in Ho; exact Ho
    | right; apply orb_true_iff in Ho as [Ho | Ho]; [| discriminate Ho];
      apply String.eqb_eq in Ho; exact Ho ].
Qed.

Lemma X16_update_logging_stores_each_key_witness :
  Configuration.log_format
    (Sample2.value_of (Configuration.initial [])
       (fst (Configuration.update_logging (Sample.with_conf []) "/srv/www"
               (<["keep" := "-3"]> {["format" := "Verbose"]})
               (Configuration.initial []) (Sample.process_in "staging"))))
    = Py.lower "Verbose"
  /\ Py.int "-3"
     = Some (Configuration.log_keep
               (Sample2.value_of (Configuration.initial [])
                  (fst (Configuration.update_logging (Sample.with_conf []) "/srv/www"
                          (<["keep" := "-3"]> {["format" := "Verbose"]})
                          (Configuration.initial []) (Sample.process_in "staging"))))).
Proof.
  pose proof (X16_update_logging_stores_each_key (Sample.with_conf []) "/srv/www"
                (<["keep" := "-3"]> {["format" := "Verbose"]})
                (Configuration.initial []) (Sample.process_in "staging")
                (Sample.process_in "staging")
                (Sample2.value_of (Configuration.initial [])
                   (fst (Configuration.update_logging (Sample.with_conf []) "/srv/www"
                           (<["keep" := "-3"]> {["format" := "Verbose"]})
                           (Configuration.initial []) (Sample.process_in "staging")))))
    as H.
  destruct H as (_ & Hformat & _ & _ & Hkeep & _); [vm_compute; reflexivity |].
  split; [exact (proj1 Hformat) | exact Hkeep].
Defined.

(** X17: with a conf file at hand, [update_from_conf_file] always ends in
    an exception and leaves the process as it was. The exception is the
    [IOError] or the parsing error of the file, a [ConfigurationError] of
    the logging section, or the [UnboundLocalError] of the threads test:
    the checks of [address], [http_version] and [threads] never get to
    fail. *)
Theorem X17_update_from_conf_file_outcomes :
  forall (W : world) (self : Configuration.t) (P : Paths.t) (path : string)
         (p p' : process) (r : result Configuration.t),
    Configuration.paths self = Some P ->
    Paths.aspen_conf P = Some path ->
    Configuration.update_from_conf_file W self p = (r, p') ->
    p' = p
    /\ exists e,
         r = Raise e
         /\ (e = IOError path \/ e = ParsingError path
             \/ is_ConfigurationError e = true
             \/ e = UnboundLocalError "threads").
Proof.
  intros W self P path p p' r HP Hpath H.
  split; [exact (update_from_conf_file_stateless W self p r p' H) |].
  destruct (update_from_conf_file_with_file_raises W self P path HP Hpath p)
    as (e & q & He).
  rewrite He in H. injection H as <- <-.
  exists e. split; [reflexivity |].
  revert p e q He.
  change (raises_only (fun e => e = IOError path \/ e = ParsingError path
                                \/ is_ConfigurationError e = true
                                \/ e = UnboundLocalError "threads")
            (Configuration.update_from_conf_file W self)).
  unfold Configuration.update_from_conf_file. rewrite HP, Hpath.
  apply raises_only_bind_lift.
  - intros e He. unfold ConfFile.__init__ in He.
    destruct path as [| ch path']; [discriminate He |].
    destruct (open_ini W (String ch path')) as [[fp |] |];
      [discriminate He | injection He as <- | injection He as <-]; auto.
  - intros conf Hconf. cbv zeta.
    rewrite (ConfFile_DEFAULT_is_empty W _ _ Hconf), !lookup_empty.
    assert (HL : forall root logging c0,
               raises_only (fun e => e = IOError path \/ e = ParsingError path
                                     \/ is_ConfigurationError e = true
                                     \/ e = UnboundLocalError "threads")
                 (Configuration.update_logging W root logging c0)).
    { intros root logging c0 p0 e0 p0' H0. right. right. left.
      exact (update_logging_raises_ConfigurationError _ _ _ _ _ _ _ H0). }
    repeat (first [ apply HL
                  | apply raises_only_ret
                  | apply raises_only_raise; auto; fail
                  | apply raises_only_bind; [| intros ?]
                  | match goal with
                    | |- raises_only _ (if ?x then _ else _) => destruct x
                    | |- raises_only _ (match ?x with _ => _ end) => destruct x
                    end ]).
Qed.

Lemma X17_update_from_conf_file_outcomes_witness :
  snd (Configuration.update_from_conf_file
         (Sample.with_conf [("DEFAULT", [("http_version", "2.0"); ("threads", "x")])])
         (Configuration.set_paths
            (Some {| Paths.root := "/srv/www";
                     Paths.aspen_conf := Some "/srv/www/aspen.conf";
                     Paths.etc := None; Paths.lib := None;
                     Paths.pkg := None; Paths.plat := None |})
            (Configuration.initial []))
         (Sample.process_in "staging"))
    = Sample.process_in "staging"
  /\ exists e,
       fst (Configuration.update_from_conf_file
              (Sample.with_conf [("DEFAULT", [("http_version", "2.0"); ("threads", "x")])])
              (Configuration.set_paths
                 (Some {| Paths.root := "/srv/www";
                          Paths.aspen_conf := Some "/srv/www/aspen.conf";
                          Paths.etc := None; Paths.lib := None;
                          Paths.pkg := None; Paths.plat := None |})
                 (Configuration.initial []))
              (Sample.process_in "staging"))
         = Raise e
       /\ (e = IOError "/srv/www/aspen.conf" \/ e = ParsingError "/srv/www/aspen.conf"
           \/ is_ConfigurationError e = true
           \/ e = UnboundLocalError "threads").
Proof.
  apply (X17_update_from_conf_file_outcomes
           (Sample.with_conf [("DEFAULT", [("http_version", "2.0"); ("threads", "x")])])
           (Configuration.set_paths
              (Some {| Paths.root := "/srv/www";
                       Paths.aspen_conf := Some "/srv/www/aspen.conf";
                       Paths.etc := None; Paths.lib := None;
                       Paths.pkg := None; Paths.plat := None |})
              (Configuration.initial []))
           {| Paths.root := "/srv/www";
              Paths.aspen_conf := Some "/srv/www/aspen.conf";
              Paths.etc := None; Paths.lib := None;
              Paths.pkg := None; Paths.plat := None |}
           "/srv/www/aspen.conf" (Sample.process_in "staging")).
  - reflexivity.
  - reflexivity.
  - apply surjective_pairing.
Defined.

(** ** The command line: options and positional arguments *)

(** An argument that does not start with a dash is positional. *)
Lemma process_args_positional
  (W : world) (arg : string) (rest largs : list string) (values : Values.t) :
  Py.startswith "-" arg = false ->
  Optparse.process_args W (arg :: rest) largs values
    = Optparse.process_args W rest (largs ++ [arg]) values.
Proof.
  intros H. destruct arg as [| c s]; [reflexivity |].
  cbn in H. rewrite andb_true_r in H.
  destruct c as [[] [] [] [] [] [] [] []]; try discriminate H; reflexivity.
Qed.

Lemma process_args_all_positional
  (W : world) (argv largs : list string) (values : Values.t) :
  Forall (fun a => Py.startswith "-" a = false) argv ->
  Optparse.process_args W argv largs values = Ok (values, largs ++ argv).
Proof.
  intros H. revert largs. induction H as [| a argv Ha _ IH]; intros largs.
  - cbn. rewrite app_nil_r. reflexivity.
  - rewrite process_args_positional by exact Ha.
    rewrite IH, <- app_assoc. reflexivity.
Qed.

(** X18: with no option on the command line, a second argument that is
    not empty and not one of [COMMANDS] is refused with
    [ConfigurationError], after the paths of the current directory have been
    worked out: if those fail, their error comes first. *)
Theorem X18_bad_command :
  forall (W : world) (self : Configuration.t) (prog cmd : string)
         (rest : list string) (p : process),
    Forall (fun a => Py.startswith "-" a = false) (prog :: cmd :: rest) ->
    cmd <> EmptyString ->
    ~ In cmd COMMANDS ->
    Configuration.update_from_command_line W self (prog :: cmd :: rest) p
      = match Paths.__init__ W (getcwd W) p with
        | (Ok _, p1) => (Raise (ConfigurationError ("Bad command: " +:+ cmd)), p1)
        | (Raise e, p1) => (Raise e, p1)
        end.
Proof.
  intros W self prog cmd rest p Hargs Hne Hnot.
  unfold Configuration.update_from_command_line, Optparse.parse_args.
  rewrite (process_args_all_positional W _ [] _ Hargs).
  unfold bind at 1, lift. cbn [fst snd app].
  unfold bind at 1. cbn [Optparse.defaults Values.root].
  destruct (Paths.__init__ W (getcwd W) p) as [[paths | e] p1]; [| reflexivity].
  assert (Hcmd : match prog :: cmd :: rest with
                 | _ :: EmptyString :: _ => "runfg"
                 | _ :: arg1 :: _ => arg1
                 | _ => "runfg"
                 end = cmd).
  { destruct cmd; [contradiction | reflexivity]. }
  cbv zeta. rewrite Hcmd.
  assert (Hex : existsb (String.eqb cmd) COMMANDS = false).
  { destruct (existsb (String.eqb cmd) COMMANDS) eqn:E; [| reflexivity].
    apply existsb_exists in E as (x & Hin & Hx). apply String.eqb_eq in Hx.
    subst x. contradiction. }
  rewrite Hex. reflexivity.
Qed.

Lemma X18_bad_command_witness :
  Configuration.update_from_command_line Sample.bare (Configuration.initial [])
    ["aspen"; "reload"] (Sample.process_in "staging")
    = match Paths.__init__ Sample.bare (getcwd Sample.bare) (Sample.process_in "staging") with
      | (Ok _, p1) => (Raise (ConfigurationError ("Bad command: " +:+ "reload")), p1)
      | (Raise e, p1) => (Raise e, p1)
      end.
Proof.
  apply (X18_bad_command Sample.bare (Configuration.initial []) "aspen" "reload" []
           (Sample.process_in "staging")).
  - repeat constructor.
  - discriminate.
  - cbn. intros H. repeat (destruct H as [H | H]; [discriminate H |]). exact H.
Defined.

(** The validator never raises what the option parser would catch. *)
Lemma validate_address_not_usage_error (W : world) (value : string) (e : exn) :
  validate_address W value = Raise e ->
  (forall msg, e <> OptionValueError msg) /\ e <> SystemExit 2.
Proof.
  intros H.
  destruct (validate_address_Raise_inv W value e H)
    as [[-> _] | [[-> _] | [-> | [-> _]]]];
    (split; [intros msg |]; discriminate).
Qed.

(** X19: an address option whose value the validator refuses does not end
    in the usage error of the option parser: what [validate_address] raises
    leaves [parse_args] as it is. *)
Theorem X19_bad_address_option_escapes :
  forall (W : world) (prog flag value : string) (rest : list string) (e : exn),
    Py.startswith "-" prog = false ->
    flag = "-a" \/ flag = "--address" ->
    validate_address W value = Raise e ->
    Optparse.parse_args W (prog :: flag :: value :: rest) = Raise e
    /\ e <> SystemExit 2.
Proof.
  intros W prog flag value rest e Hprog Hflag Hv.
  assert (He : (forall msg, e <> OptionValueError msg) /\ e <> SystemExit 2).
  { exact (validate_address_not_usage_error W value e Hv). }
  destruct He as [Hov Hse].
  split; [| exact Hse].
  unfold Optparse.parse_args.
  rewrite process_args_positional by exact Hprog.
  assert (Hp : Optparse.process_args W (flag :: value :: rest) ([] ++ [prog])
                 (Optparse.defaults W) = Raise e).
  { destruct Hflag as [-> | ->]; cbn; unfold Optparse.callback_address;
      rewrite Hv; reflexivity. }
  rewrite Hp. destruct e; try reflexivity. exfalso. exact (Hov msg eq_refl).
Qed.

Lemma X19_bad_address_option_escapes_witness :
  Optparse.parse_args Sample.bare ["aspen"; "-a"; "bad"]
    = Raise (StringException "Bad address bad")
  /\ StringException "Bad address bad" <> SystemExit 2.
Proof.
  apply (X19_bad_address_option_escapes Sample.bare "aspen" "-a" "bad" []).
  - reflexivity.
  - left. reflexivity.
  - reflexivity.
Defined.

(** X20: a mode option is checked against the eight choices and stored as
    it was written: an alias such as ['deb'] is not replaced by the mode it
    stands for. Any other value ends the process with the exit status 2 of
    a usage error. *)
Theorem X20_mode_option :
  forall (W : world) (prog flag m : string) (rest : list string),
    Py.startswith "-" prog = false ->
    flag = "-m" \/ flag = "--mode" ->
    Forall (fun a => Py.startswith "-" a = false) rest ->
    Optparse.parse_args W (prog :: flag :: m :: rest)
      = if existsb (String.eqb m) Optparse.choices
        then Ok ({| Values.address := APair "0.0.0.0" 8080;
                    Values.sockfam := None;
                    Values.have_address := false;
                    Values.mode := m;
                    Values.have_mode := true;
                    Values.root := getcwd W |}, prog :: rest)
        else Raise (SystemExit 2).
Proof.
  intros W prog flag m rest Hprog Hflag Hrest.
  unfold Optparse.parse_args.
  rewrite process_args_positional by exact Hprog.
  assert (Hstep : Optparse.process_args W (flag :: m :: rest) ([] ++ [prog])
                    (Optparse.defaults W)
                  = (values <- Optparse.process W Optparse.OptMode m (Optparse.defaults W) ;;
                     Optparse.process_args W rest [prog] values)%result).
  { destruct Hflag as [-> | ->]; reflexivity. }
  rewrite Hstep. unfold Optparse.process.
  destruct (existsb (String.eqb m) Optparse.choices); [| reflexivity].
  cbn [rbind Optparse.callback_mode].
  rewrite (process_args_all_positional W rest [prog] _ Hrest). reflexivity.
Qed.

Lemma X20_mode_option_witness :
  Optparse.parse_args Sample.bare ["aspen"; "--mode"; "deb"; "start"]
    = if existsb (String.eqb "deb") Optparse.choices
      then Ok ({| Values.address := APair "0.0.0.0" 8080;
                  Values.sockfam := None;
                  Values.have_address := false;
                  Values.mode := "deb";
                  Values.have_mode := true;
                  Values.root := getcwd Sample.bare |}, ["aspen"; "start"])
      else Raise (SystemExit 2).
Proof.
  apply (X20_mode_option Sample.bare "aspen" "--mode" "deb" ["start"]).
  - reflexivity.
  - right. reflexivity.
  - repeat constructor.
Defined.

(** X21: a root option is replaced by its real path and must then be a
    directory; otherwise the process ends with the exit status 2 of a usage
    error. *)
Theorem X21_root_option :
  forall (W : world) (prog flag dir : string) (rest : list string),
    Py.startswith "-" prog = false ->
    flag = "-r" \/ flag = "--root" ->
    Forall (fun a => Py.startswith "-" a = false) rest ->
    Optparse.parse_args W (prog :: flag :: dir :: rest)
      = if isdir W (realpath W dir)
        then Ok ({| Values.address := APair "0.0.0.0" 8080;
                    Values.sockfam := None;
                    Values.have_address := false;
                    Values.mode := "development";
                    Values.have_mode := false;
                    Values.root := realpath W dir |}, prog :: rest)
        else Raise (SystemExit 2).
Proof.
  intros W prog flag dir rest Hprog Hflag Hrest.
  unfold Optparse.parse_args.
  rewrite process_args_positional by exact Hprog.
  assert (Hstep : Optparse.process_args W (flag :: dir :: rest) ([] ++ [prog])
                    (Optparse.defaults W)
                  = (values <- Optparse.process W Optparse.OptRoot dir (Optparse.defaults W) ;;
                     Optparse.process_args W rest [prog] values)%result).
  { destruct Hflag as [-> | ->]; reflexivity. }
  rewrite Hstep. unfold Optparse.process, Optparse.callback_root.
  destruct (isdir W (realpath W dir)); cbn [negb rbind]; [| reflexivity].
  rewrite (process_args_all_positional W rest [prog] _ Hrest). reflexivity.
Qed.

Lemma X21_root_option_witness :
  Optparse.parse_args Sample.bare ["aspen"; "-r"; "/nowhere"]
    = if isdir Sample.bare (realpath Sample.bare "/nowhere")
      then Ok ({| Values.address := APair "0.0.0.0" 8080;
                  Values.sockfam := None;
                  Values.have_address := false;
                  Values.mode := "development";
                  Values.have_mode := false;
                  Values.root := realpath Sample.bare "/nowhere" |}, ["aspen"])
      else Raise (SystemExit 2).
Proof.
  apply (X21_root_option Sample.bare "aspen" "-r" "/nowhere" []).
  - reflexivity.
  - left. reflexivity.
  - constructor.
Defined.

(** ** ConfFile: sections and their dictionaries *)

Lemma read_section_sections (self : ConfFile.t) (sec : ini_section) (name : string) :
  is_Some (ConfFile._sections (ConfFile.read_section self sec) !! name)
  <-> is_Some (ConfFile._sections self !! name)
      \/ (name = fst sec /\ name <> "DEFAULT").
Proof.
  unfold ConfFile.read_section. cbv zeta.
  destruct (ConfFile._sections self !! fst sec) as [cursect |] eqn:Hs.
  - cbn. rewrite lookup_insert_is_Some. split.
    + intros [<- | [_ H]]; [left; rewrite Hs; eauto | left; exact H].
    + intros [H | [-> _]]; [| left; reflexivity].
      destruct (decide (fst sec = name)); [left; assumption | right; split; assumption].
  - destruct (String.eqb (fst sec) "DEFAULT") eqn:He; cbn.
    + apply String.eqb_eq in He. split; [intros H; left; exact H |].
      intros [H | [-> H]]; [exact H | congruence].
    + apply String.eqb_neq in He. rewrite lookup_insert_is_Some. split.
      * intros [<- | [_ H]]; [right; split; [reflexivity | exact He] | left; exact H].
      * intros [H | [-> _]]; [| left; reflexivity].
        destruct (decide (fst sec = name)); [left; assumption | right; split; assumption].
Qed.

Lemma readfp_sections (fp : list ini_section) (self : ConfFile.t) (name : string) :
  is_Some (ConfFile._sections (ConfFile.readfp self fp) !! name)
  <-> is_Some (ConfFile._sections self !! name)
      \/ (In name (map fst fp) /\ name <> "DEFAULT").
Proof.
  revert self. induction fp as [| sec fp IH]; intros self.
  - cbn. split; [intros H; left; exact H | intros [H | [[] _]]; exact H].
  - change (ConfFile.readfp self (sec :: fp))
      with (ConfFile.readfp (ConfFile.read_section self sec) fp).
    rewrite IH, read_section_sections. cbn [map In]. split.
    + intros [[H | [-> H]] | [H1 H2]]; auto.
    + intros [H | [[<- | H1] H2]]; auto.
Qed.

(** X22: the sections of a conf file that was read are the headers of the
    file other than [DEFAULT], and asking for any other name, [DEFAULT]
    included, gives the empty dictionary instead of an error. *)
Theorem X22_ConfFile_sections :
  forall (fp : list ini_section) (name : string),
    (ConfFile.has_section (ConfFile.readfp ConfFile.RawConfigParser fp) name = true
     <-> In name (map fst fp) /\ name <> "DEFAULT")
    /\ (~ (In name (map fst fp) /\ name <> "DEFAULT") ->
        ConfFile.__getitem__ (ConfFile.readfp ConfFile.RawConfigParser fp) name = ∅).
Proof.
  intros fp name.
  assert (H : ConfFile.has_section (ConfFile.readfp ConfFile.RawConfigParser fp) name = true
              <-> In name (map fst fp) /\ name <> "DEFAULT").
  { unfold ConfFile.has_section. rewrite bool_decide_eq_true, readfp_sections.
    cbn. rewrite lookup_empty. split.
    - intros [[x Hx] | H]; [discriminate Hx | exact H].
    - intros H. right. exact H. }
  split; [exact H |].
  intros Hn. unfold ConfFile.__getitem__.
  destruct (ConfFile.has_section (ConfFile.readfp ConfFile.RawConfigParser fp) name) eqn:E;
    [| reflexivity].
  exfalso. apply Hn, H. reflexivity.
Qed.

Lemma X22_ConfFile_sections_witness :
  ConfFile.__getitem__
    (ConfFile.readfp ConfFile.RawConfigParser [("DEFAULT", [("mode", "production")])])
    "DEFAULT" = ∅.
Proof.
  apply (proj2 (X22_ConfFile_sections [("DEFAULT", [("mode", "production")])] "DEFAULT")).
  intros [_ H]. apply H. reflexivity.
Defined.

(** X23: the dictionary of a section holds the options of the section and,
    for the names the section does not set, those of the [DEFAULT] section;
    the internal [__name__] entry is never part of it. *)
Theorem X23_ConfFile_section_inherits_defaults :
  forall (self : ConfFile.t) (name : string) (d : gmap string string),
    ConfFile._sections self !! name = Some d ->
    ConfFile.__getitem__ self name !! "__name__" = None
    /\ forall k, k <> "__name__" ->
                 ConfFile.__getitem__ self name !! k
                 = match d !! k with
                   | Some v => Some v
                   | None => ConfFile._defaults self !! k
                   end.
Proof.
  intros self name d Hd.
  unfold ConfFile.__getitem__, ConfFile.has_section, ConfFile.items.
  rewrite Hd, bool_decide_eq_true_2 by eauto.
  split.
  - apply lookup_delete_eq.
  - intros k Hk. rewrite lookup_delete_ne by congruence.
    destruct (d !! k) as [v |] eqn:E.
    + apply lookup_union_Some_l. exact E.
    + rewrite lookup_union_r by exact E. reflexivity.
Qed.

Lemma X23_ConfFile_section_inherits_defaults_witness :
  ConfFile.__getitem__
    (ConfFile.readfp ConfFile.RawConfigParser
       [("DEFAULT", [("level", "debug"); ("keep", "3")]); ("logging", [("keep", "7")])])
    "logging" !! "__name__" = None
  /\ forall k, k <> "__name__" ->
       ConfFile.__getitem__
         (ConfFile.readfp ConfFile.RawConfigParser
            [("DEFAULT", [("level", "debug"); ("keep", "3")]); ("logging", [("keep", "7")])])
         "logging" !! k
       = match (<["keep" := "7"]> {["__name__" := "logging"]} : gmap string string) !! k with
         | Some v => Some v
         | None => ConfFile._defaults
                     (ConfFile.readfp ConfFile.RawConfigParser
                        [("DEFAULT", [("level", "debug"); ("keep", "3")]);
                         ("logging", [("keep", "7")])]) !! k
         end.
Proof.
  apply (X23_ConfFile_section_inherits_defaults
           (ConfFile.readfp ConfFile.RawConfigParser
              [("DEFAULT", [("level", "debug"); ("keep", "3")]); ("logging", [("keep", "7")])])
           "logging").
  vm_compute. reflexivity.
Defined.

(** X24: the iteration API of a conf file that was loaded runs over its
    sections, each once and never [DEFAULT]; [iteritems] pairs every
    section name with the dictionary that item access gives for it, and
    [itervalues] yields those dictionaries in the same order. *)
Theorem X24_ConfFile_iteration :
  forall (W : world) (filepath : option string) (conf : ConfFile.t),
    ConfFile.__init__ W filepath = Ok conf ->
    (forall k, In k (ConfFile.iterkeys conf) <-> ConfFile.has_section conf k = true)
    /\ ~ In "DEFAULT" (ConfFile.iterkeys conf)
    /\ List.NoDup (ConfFile.iterkeys conf)
    /\ map fst (ConfFile.iteritems conf) = ConfFile.iterkeys conf
    /\ map snd (ConfFile.iteritems conf) = ConfFile.itervalues conf
    /\ (forall k d, In (k, d) (ConfFile.iteritems conf) ->
                    d = ConfFile.__getitem__ conf k).
Proof.
  intros W filepath conf Hconf.
  assert (Hkeys : forall k, In k (ConfFile.iterkeys conf)
                            <-> ConfFile.has_section conf k = true).
  { intros k. unfold ConfFile.iterkeys, ConfFile.sections, ConfFile.has_section.
    rewrite bool_decide_eq_true, <- list_elem_of_In, list_elem_of_fmap. split.
    - intros ([k' d] & -> & Hin). apply elem_of_map_to_list in Hin. eauto.
    - intros [d Hd]. exists (k, d). split; [reflexivity |].
      apply elem_of_map_to_list. exact Hd. }
  split; [exact Hkeys |].
  split.
  { intros Hin. apply Hkeys in Hin.
    pose proof (ConfFile_DEFAULT_is_empty W filepath conf Hconf) as He.
    unfold ConfFile.has_section in Hin. apply bool_decide_eq_true in Hin as [d Hd].
    assert (Hs : ConfFile._sections conf !! "DEFAULT" = None).
    { unfold ConfFile.__init__ in Hconf.
      destruct filepath as [[| c path] |]; try (injection Hconf as <-; reflexivity).
      destruct (open_ini W (String c path)) as [[fp |] |]; try discriminate Hconf.
      injection Hconf as <-. apply readfp_no_DEFAULT. reflexivity. }
    congruence. }
  split.
  { unfold ConfFile.iterkeys, ConfFile.sections. apply NoDup_ListNoDup.
    change (NoDup ((map_to_list (ConfFile._sections conf)).*1)).
    apply NoDup_fst_map_to_list. }
  unfold ConfFile.iteritems, ConfFile.itervalues.
  split; [| split].
  - rewrite map_map. cbn. apply map_id.
  - rewrite map_map. reflexivity.
  - intros k d Hin. apply in_map_iff in Hin as (k' & Heq & _).
    injection Heq as <- <-. reflexivity.
Qed.

Lemma X24_ConfFile_iteration_witness :
  ~ In "DEFAULT"
      (ConfFile.iterkeys
         (ConfFile.readfp ConfFile.RawConfigParser
            [("DEFAULT", [("mode", "production")]); ("logging", [("keep", "7")])])).
Proof.
  apply (X24_ConfFile_iteration
           (Sample.with_conf [("DEFAULT", [("mode", "production")]);
                              ("logging", [("keep", "7")])])
           (Some "/srv/www/aspen.conf")).
  reflexivity.
Defined.

(** ** The static handler *)

(** X25: [CHUNK_SIZE] is 8192 when the [static] section has no
    [chunk_size]; a value that is not made of digits raises [ConfigError];
    every string of digits is accepted with its integer value, zero
    included, since the test [val < 1] never holds for a string. The chunk
    size is never negative. *)
Theorem X25_CHUNK_SIZE :
  forall (conf : ConfFile.t),
    (ConfFile.__getattr__ conf "static" !! "chunk_size" = None ->
     Static.CHUNK_SIZE conf = Static.Return 8192)
    /\ (forall s, ConfFile.__getattr__ conf "static" !! "chunk_size" = Some s ->
                  Static.CHUNK_SIZE conf
                  = if Py.isdigit s then Static.Return (Py.int_of_digits s)
                    else Static.Throw
                           (Static.ConfigError
                              "chunk_size must be an integer greater than 0"
                              "__/etc/aspen.conf" "<?>"))
    /\ (forall n, Static.CHUNK_SIZE conf = Static.Return n -> 0 <= n).
Proof.
  intros conf. unfold Static.CHUNK_SIZE.
  destruct (ConfFile.__getattr__ conf "static" !! "chunk_size") as [s |].
  - split; [discriminate |]. split.
    + intros s' H. injection H as <-. cbn [Static.str_of Static.less_than_1 Static.int_of].
      rewrite orb_false_r. destruct (Py.isdigit s); reflexivity.
    + intros n. cbn [Static.str_of Static.less_than_1 Static.int_of].
      rewrite orb_false_r. destruct (Py.isdigit s) eqn:Hd; cbn [negb]; [| discriminate].
      intros H. injection H as <-. apply int_acc_nonneg; [| lia].
      destruct s; [discriminate Hd | exact Hd].
  - split; [intros _; reflexivity |]. split; [discriminate |].
    intros n H. vm_compute in H. injection H as <-. lia.
Qed.

Lemma X25_CHUNK_SIZE_witness :
  Static.CHUNK_SIZE (Sample2.conf_static [("chunk_size", "0")])
    = if Py.isdigit "0" then Static.Return (Py.int_of_digits "0")
      else Static.Throw
             (Static.ConfigError "chunk_size must be an integer greater than 0"
                "__/etc/aspen.conf" "<?>").
Proof.
  apply (proj1 (proj2 (X25_CHUNK_SIZE (Sample2.conf_static [("chunk_size", "0")])))).
  reflexivity.
Defined.

Lemma iterate_positive (chunk_size : Z) (calls : nat) (content : list Byte.byte) :
  1 <= chunk_size ->
  (length content < calls)%nat ->
  exists chunks,
    Static.iterate calls chunk_size content = Some chunks
    /\ concat chunks = content
    /\ Forall (fun c => c <> [] /\ Z.of_nat (length c) <= chunk_size) chunks.
Proof.
  intros Hn. revert content.
  induction calls as [| calls IH]; intros content Hlen; [lia |].
  cbn [Static.iterate]. unfold Static.next, Static.read.
  destruct (chunk_size <? 0) eqn:Hneg; [apply Z.ltb_lt in Hneg; lia |].
  cbn [fst snd].
  destruct (take (Z.to_nat chunk_size) content) as [| b chunk] eqn:Htake.
  - exists []. split; [reflexivity |]. split; [| constructor].
    destruct content as [| b content]; [reflexivity |].
    destruct (Z.to_nat chunk_size) eqn:E; [lia | discriminate Htake].
  - assert (Hdrop : (length (drop (Z.to_nat chunk_size) content) < calls)%nat).
    { rewrite length_drop.
      assert (length content <> 0)%nat
        by (destruct content; [rewrite take_nil in Htake; discriminate Htake | discriminate]).
      lia. }
    destruct (IH _ Hdrop) as (chunks & Hit & Hcat & Hall).
    exists ((b :: chunk) :: chunks). rewrite Hit. split; [reflexivity |].
    split.
    + cbn [concat]. rewrite Hcat, <- Htake. apply take_drop.
    + constructor; [| exact Hall]. split; [discriminate |].
      rewrite <- Htake, length_take. lia.
Qed.

(** X26: with a chunk size of at least 1, a consumer of a [Resource]
    reaches [StopIteration] after at most as many chunks as the file has
    bytes; the chunks put together are the content of the file, none of
    them is empty and none is longer than the chunk size. *)
Theorem X26_Resource_chunks_reassemble :
  forall (chunk_size : Z) (content : list Byte.byte),
    1 <= chunk_size ->
    exists chunks,
      Static.iterate (S (length content)) chunk_size content = Some chunks
      /\ concat chunks = content
      /\ Forall (fun c => c <> [] /\ Z.of_nat (length c) <= chunk_size) chunks.
Proof.
  intros chunk_size content Hn. apply iterate_positive; [exact Hn | lia].
Qed.

Lemma X26_Resource_chunks_reassemble_witness :
  exists chunks,
    Static.iterate 6 2 [Byte.x68; Byte.x65; Byte.x6c; Byte.x6c; Byte.x6f] = Some chunks
    /\ concat chunks = [Byte.x68; Byte.x65; Byte.x6c; Byte.x6c; Byte.x6f]
    /\ Forall (fun c => c <> [] /\ Z.of_nat (length c) <= 2) chunks.
Proof.
  apply (X26_Resource_chunks_reassemble 2
           [Byte.x68; Byte.x65; Byte.x6c; Byte.x6c; Byte.x6f]).
  lia.
Defined.

(** X27: a [chunk_size] written with zeros only is accepted and makes
    [CHUNK_SIZE] 0; the first [next] of every [Resource] then raises
    [StopIteration], so no byte of any file is delivered. *)
Theorem X27_zero_chunk_size_delivers_nothing :
  forall (conf : ConfFile.t) (s : string),
    ConfFile.__getattr__ conf "static" !! "chunk_size" = Some s ->
    Py.isdigit s = true ->
    Py.int_of_digits s = 0 ->
    Static.CHUNK_SIZE conf = Static.Return 0
    /\ forall (content : Static.Resource) (calls : nat),
         Static.next 0 content = None
         /\ Static.iterate (S calls) 0 content = Some [].
Proof.
  intros conf s Hs Hd Hz. split.
  - unfold Static.CHUNK_SIZE. rewrite Hs.
    cbn [Static.str_of Static.less_than_1 Static.int_of]. rewrite Hd, Hz. reflexivity.
  - intros content calls.
    assert (Hnext : Static.next 0 content = None).
    { unfold Static.next, Static.read. cbn. rewrite take_0. reflexivity. }
    split; [exact Hnext |]. cbn [Static.iterate]. rewrite Hnext. reflexivity.
Qed.

Lemma X27_zero_chunk_size_delivers_nothing_witness :
  Static.CHUNK_SIZE (Sample2.conf_static [("chunk_size", "00")]) = Static.Return 0
  /\ forall (content : Static.Resource) (calls : nat),
       Static.next 0 content = None
       /\ Static.iterate (S calls) 0 content = Some [].
Proof.
  apply (X27_zero_chunk_size_delivers_nothing
           (Sample2.conf_static [("chunk_size", "00")]) "00"); reflexivity.
Defined.

(** X28: whenever the static handler calls [start_response], the request
    names a file that is not a directory; the headers are Last-Modified,
    Content-Type and Content-Length in this order, the content type being
    the one guessed from the path, or ["text/plain"] when none (or an empty
    one) is guessed, and the content length the size of the file; the
    status is 304 only in staging or production, for
    a request whose If-Modified-Since date is not before the modification
    time, and then the body is the empty list; in every other case the
    status is 200 and the body is the file, or the [IOError] of opening
    it. *)
Theorem X28_static_response :
  forall (E : Static.env) (stprod : bool) (environ : gmap string string)
         (status : string) (headers : list (string * string))
         (out : Static.outcome Static.body),
    Static.static E stprod environ = (Some (status, headers), out) ->
    exists path mtime size content_type,
      environ !! "PATH_TRANSLATED" = Some path
      /\ Static.isdir E path = false
      /\ Static.isfile E path = true
      /\ Static.stat E path = Some (mtime, size)
      /\ headers = [("Last-Modified", Static.formatdate E mtime);
                    ("Content-Type", content_type);
                    ("Content-Length", Py.str_of_int size)]
      /\ content_type = match Static.guess_type E path with
                        | None | Some EmptyString => "text/plain"
                        | Some t => t
                        end
      /\ content_type <> EmptyString
      /\ ((status = "304 Not Modified"
           /\ out = Static.Return (Static.Strings [])
           /\ stprod = true
           /\ exists ims mod_since,
                environ !! "HTTP_IF_MODIFIED_SINCE" = Some ims
                /\ ims <> EmptyString
                /\ Static.parsedate E ims = Some mod_since
                /\ Static.tuple_le (take 6 (Static.gmtime E mtime)) (take 6 mod_since)
                   = true)
          \/ (status = "200 OK"
              /\ out = match Static.open_rb E path with
                       | Some content => Static.Return (Static.File content)
                       | None => Static.Throw (Static.IOError path)
                       end)).
Proof.
  intros E stprod environ status headers out. unfold Static.static.
  destruct (environ !! "PATH_TRANSLATED") as [path |]; [| discriminate].
  destruct (Static.isdir E path) eqn:Hdir; [discriminate |].
  destruct (Static.isfile E path) eqn:Hfile; cbn [negb]; [| discriminate].
  destruct (Static.stat E path) as [[mtime size] |] eqn:Hstat; [| discriminate].
  cbv zeta.
  set (content_type := match Static.guess_type E path with
                       | None | Some EmptyString => "text/plain"
                       | Some t => t
                       end).
  assert (Hct : content_type <> EmptyString).
  { subst content_type. destruct (Static.guess_type E path) as [[| c t] |]; discriminate. }
  assert (H200 : forall hs o,
             (if String.eqb "200 OK" "304 Not Modified"
              then (Some ("200 OK", hs), Static.Return (Static.Strings []))
              else (Some ("200 OK", hs),
                    match Static.Resource_init E path with
                    | Static.Return r => Static.Return (Static.File r)
                    | Static.Throw e => Static.Throw e
                    end)) = (Some (status, headers), o) ->
             status = "200 OK" /\ headers = hs
             /\ o = match Static.open_rb E path with
                    | Some content => Static.Return (Static.File content)
                    | None => Static.Throw (Static.IOError path)
                    end).
  { intros hs o H. cbn [String.eqb Ascii.eqb Bool.eqb] in H.
    injection H as <- <- <-. repeat split.
    unfold Static.Resource_init. destruct (Static.open_rb E path); reflexivity. }
  destruct stprod.
  2:{ intros H. apply H200 in H as (-> & -> & ->).
      exists path, mtime, size, content_type. repeat split; try assumption.
      right. split; reflexivity. }
  destruct (environ !! "HTTP_IF_MODIFIED_SINCE") as [ims |] eqn:Hims;
    cbn [default from_option id].
  2:{ intros H. apply H200 in H as (-> & -> & ->).
      exists path, mtime, size, content_type. repeat split; try assumption.
      right. split; reflexivity. }
  destruct ims as [| c ims'].
  { intros H. apply H200 in H as (-> & -> & ->).
    exists path, mtime, size, content_type. repeat split; try assumption.
    right. split; reflexivity. }
  destruct (Static.parsedate E (String c ims')) as [mod_since |] eqn:Hparse;
    [| discriminate].
  destruct (Static.tuple_le (take 6 (Static.gmtime E mtime)) (take 6 mod_since)) eqn:Hle.
  - cbn [String.eqb Ascii.eqb Bool.eqb]. intros H. injection H as <- <- <-.
    exists path, mtime, size, content_type. repeat split; try assumption.
    left. repeat split. exists (String c ims'), mod_since.
    repeat split; try assumption. discriminate.
  - intros H. apply H200 in H as (-> & -> & ->).
    exists path, mtime, size, content_type. repeat split; try assumption.
    right. split; reflexivity.
Qed.

Lemma X28_static_response_witness :
  exists path mtime size content_type,
    <["HTTP_IF_MODIFIED_SINCE" := "2000"]> (Sample2.request "/srv/www/index.html")
      !! "PATH_TRANSLATED" = Some path
    /\ Static.isdir Sample2.server path = false
    /\ Static.isfile Sample2.server path = true
    /\ Static.stat Sample2.server path = Some (mtime, size)
    /\ [("Last-Modified", "1000"); ("Content-Type", "text/html"); ("Content-Length", "5")]
       = [("Last-Modified", Static.formatdate Sample2.server mtime);
          ("Content-Type", content_type);
          ("Content-Length", Py.str_of_int size)]
    /\ content_type = match Static.guess_type Sample2.server path with
                      | None | Some EmptyString => "text/plain"
                      | Some t => t
                      end
    /\ content_type <> EmptyString
    /\ (("304 Not Modified" = "304 Not Modified"
         /\ Static.Return (Static.Strings []) = Static.Return (Static.Strings [])
         /\ true = true
         /\ exists ims mod_since,
              <["HTTP_IF_MODIFIED_SINCE" := "2000"]> (Sample2.request "/srv/www/index.html")
                !! "HTTP_IF_MODIFIED_SINCE" = Some ims
              /\ ims <> EmptyString
              /\ Static.parsedate Sample2.server ims = Some mod_since
              /\ Static.tuple_le (take 6 (Static.gmtime Sample2.server mtime))
                   (take 6 mod_since) = true)
        \/ ("304 Not Modified" = "200 OK"
            /\ Static.Return (Static.Strings [])
               = match Static.open_rb Sample2.server path with
                 | Some content => Static.Return (Static.File content)
                 | None => Static.Throw (Static.IOError path)
                 end)).
Proof.
  apply (X28_static_response Sample2.server true
           (<["HTTP_IF_MODIFIED_SINCE" := "2000"]> (Sample2.request "/srv/www/index.html"))
           "304 Not Modified"
           [("Last-Modified", "1000"); ("Content-Type", "text/html"); ("Content-Length", "5")]
           (Static.Return (Static.Strings []))).
  vm_compute. reflexivity.
Defined.

(** X29: when the static handler ends without calling [start_response],
    it has raised: [KeyError] without PATH_TRANSLATED, [NotImplementedError]
    for a directory, [AssertionError] for what is neither a directory nor a
    file, [OSError] when the file cannot be examined, or, in staging or
    production only, [TypeError] for an If-Modified-Since header that
    [parsedate] cannot read. *)
Theorem X29_static_failures :
  forall (E : Static.env) (stprod : bool) (environ : gmap string string)
         (out : Static.outcome Static.body),
    Static.static E stprod environ = (None, out) ->
    exists e,
      out = Static.Throw e
      /\ ((e = Static.KeyError "PATH_TRANSLATED" /\ environ !! "PATH_TRANSLATED" = None)
          \/ exists path,
               environ !! "PATH_TRANSLATED" = Some path
               /\ ((e = Static.NotImplementedError /\ Static.isdir E path = true)
                   \/ (e = Static.AssertionError
                       /\ Static.isdir E path = false /\ Static.isfile E path = false)
                   \/ (e = Static.OSError path /\ Static.stat E path = None)
                   \/ (e = Static.TypeError "'NoneType' object is unsubscriptable"
                       /\ stprod = true
                       /\ exists ims,
                            environ !! "HTTP_IF_MODIFIED_SINCE" = Some ims
                            /\ ims <> EmptyString
                            /\ Static.parsedate E ims = None))).
Proof.
  intros E stprod environ out. unfold Static.static.
  destruct (environ !! "PATH_TRANSLATED") as [path |].
  2:{ intros H. injection H as <-. eexists. split; [reflexivity |]. left. auto. }
  destruct (Static.isdir E path) eqn:Hdir.
  { intros H. injection H as <-. eexists. split; [reflexivity |].
    right. exists path. split; [reflexivity |]. left. split; [reflexivity | assumption]. }
  destruct (Static.isfile E path) eqn:Hfile; cbn [negb].
  2:{ intros H. injection H as <-. eexists. split; [reflexivity |].
      right. exists path. split; [reflexivity |]. right. left.
      repeat split; assumption. }
  destruct (Static.stat E path) as [[mtime size] |] eqn:Hstat.
  2:{ intros H. injection H as <-. eexists. split; [reflexivity |].
      right. exists path. split; [reflexivity |]. right. right. left.
      split; [reflexivity | assumption]. }
  cbv zeta.
  destruct stprod;
    [| destruct (String.eqb "200 OK" "304 Not Modified"); discriminate].
  destruct (environ !! "HTTP_IF_MODIFIED_SINCE") as [ims |] eqn:Hims;
    cbn [default from_option id];
    [| destruct (String.eqb "200 OK" "304 Not Modified"); discriminate].
  destruct ims as [| c ims'];
    [destruct (String.eqb "200 OK" "304 Not Modified"); discriminate |].
  destruct (Static.parsedate E (String c ims')) as [mod_since |] eqn:Hparse.
  - destruct (Static.tuple_le _ _);
      match goal with
      | |- context [String.eqb ?s "304 Not Modified"] =>
          destruct (String.eqb s "304 Not Modified"); discriminate
      end.
  - intros H. injection H as <-. eexists. split; [reflexivity |].
    right. exists path. split; [reflexivity |]. right. right. right.
    repeat split. exists (String c ims'). repeat split; [discriminate | exact Hparse].
Qed.

Lemma X29_static_failures_witness :
  exists e,
    @Static.Throw Static.body Static.NotImplementedError = Static.Throw e
    /\ ((e = Static.KeyError "PATH_TRANSLATED"
         /\ Sample2.request "/srv/www" !! "PATH_TRANSLATED" = None)
        \/ exists path,
             Sample2.request "/srv/www" !! "PATH_TRANSLATED" = Some path
             /\ ((e = Static.NotImplementedError /\ Static.isdir Sample2.server path = true)
                 \/ (e = Static.AssertionError
                     /\ Static.isdir Sample2.server path = false
                     /\ Static.isfile Sample2.server path = false)
                 \/ (e = Static.OSError path /\ Static.stat Sample2.server path = None)
                 \/ (e = Static.TypeError "'NoneType' object is unsubscriptable"
                     /\ false = true
                     /\ exists ims,
                          Sample2.request "/srv/www" !! "HTTP_IF_MODIFIED_SINCE" = Some ims
                          /\ ims <> EmptyString
                          /\ Static.parsedate Sample2.server ims = None))).
Proof.
  apply (X29_static_failures Sample2.server false (Sample2.request "/srv/www")).
  vm_compute. reflexivity.
Defined.

(** ** The static application *)

Lemma rev_app_app (a b acc : string) :
  String.rev_app (a +:+ b) acc = String.rev_app b (String.rev_app a acc).
Proof.
  revert acc. induction a as [| c a IH]; intros acc; [reflexivity |].
  rewrite app_cons. cbn [String.rev_app]. apply IH.
Qed.

Lemma append_assoc (a b c : string) : (a +:+ b) +:+ c = a +:+ b +:+ c.
Proof.
  induction a as [| x a IH]; [reflexivity |].
  rewrite !app_cons, IH. reflexivity.
Qed.

Lemma rev_app_acc (s acc : string) :
  String.rev_app s acc = String.rev_app s EmptyString +:+ acc.
Proof.
  revert acc. induction s as [| c s IH]; intros acc; [reflexivity |].
  cbn [String.rev_app]. rewrite IH, (IH (String c EmptyString)).
  rewrite append_assoc. reflexivity.
Qed.

Lemma endswith_app (suffix pre : string) :
  Static.endswith suffix (pre +:+ suffix) = true.
Proof.
  unfold Static.endswith, String.rev.
  rewrite rev_app_app, (rev_app_acc suffix (String.rev_app pre EmptyString)).
  apply startswith_app.
Qed.

(** X30: the static application answers by itself in two cases, whatever
    [translate] and [find_default] do: 403 when the path found is a
    directory, and 404 when it is not a file or is a file whose name ends
    in README.aspen, which is thus never served. In the remaining case the
    answer is the one of the static handler for the mapping that
    [find_default] left. *)
Theorem X30_static_app :
  forall (E : Static.env) (stprod : bool)
         (translate : string -> string -> Static.outcome string)
         (find_default : list string -> gmap string string ->
                         Static.outcome (string * gmap string string))
         (conf : ConfFile.t) (defaults : list string)
         (environ environ' : gmap string string)
         (path_translated path_info translated fspath : string),
    environ !! "PATH_TRANSLATED" = Some path_translated ->
    environ !! "PATH_INFO" = Some path_info ->
    translate (default path_translated
                 (ConfFile.__getattr__ conf "statics" !! "doc_root")) path_info
      = Static.Return translated ->
    find_default defaults (<["PATH_TRANSLATED" := translated]> environ)
      = Static.Return (fspath, environ') ->
    (Static.isdir E fspath = true ->
     Static.static_app E stprod translate find_default conf defaults environ
       = (Some ("403 Forbidden", []),
          Static.Return (Static.Strings ["This directory has no index."])))
    /\ (Static.isdir E fspath = false ->
        Static.isfile E fspath = false
        \/ (exists dir, fspath = dir +:+ "README.aspen") ->
        Static.static_app E stprod translate find_default conf defaults environ
          = (Some ("404 Not Found", []),
             Static.Return (Static.Strings ["Resource not found."])))
    /\ (Static.isdir E fspath = false ->
        Static.isfile E fspath = true ->
        Static.endswith "README.aspen" fspath = false ->
        Static.static_app E stprod translate find_default conf defaults environ
          = Static.static E stprod environ').
Proof.
  intros E stprod translate find_default conf defaults environ environ'
         path_translated path_info translated fspath Hpt Hpi Htr Hfd.
  unfold Static.static_app. rewrite Hpt, Hpi. cbv zeta. rewrite Htr, Hfd.
  split; [| split].
  - intros ->. reflexivity.
  - intros -> [-> | [dir ->]]; [reflexivity |].
    rewrite endswith_app, orb_true_r. reflexivity.
  - intros -> -> ->. reflexivity.
Qed.

Lemma X30_static_app_witness :
  Static.static_app Sample2.server false
    (fun root path_info => Static.Return (root +:+ path_info))
    (fun _ environ =>
       Static.Return (default EmptyString (environ !! "PATH_TRANSLATED"), environ))
    ConfFile.RawConfigParser ["index.html"]
    (<["PATH_INFO" := "/README.aspen"]> (Sample2.request "/srv/www"))
    = (Some ("404 Not Found", []),
       Static.Return (Static.Strings ["Resource not found."])).
Proof.
  refine (proj1 (proj2 (X30_static_app Sample2.server false
            (fun root path_info => Static.Return (root +:+ path_info))
            (fun _ environ =>
               Static.Return (default EmptyString (environ !! "PATH_TRANSLATED"), environ))
            ConfFile.RawConfigParser ["index.html"]
            (<["PATH_INFO" := "/README.aspen"]> (Sample2.request "/srv/www"))
            (<["PATH_TRANSLATED" := "/srv/www/README.aspen"]>
               (<["PATH_INFO" := "/README.aspen"]> (Sample2.request "/srv/www")))
            "/srv/www" "/README.aspen" "/srv/www/README.aspen" "/srv/www/README.aspen"
            _ _ _ _)) _ _).
  - reflexivity.
  - reflexivity.
  - reflexivity.
  - reflexivity.
  - reflexivity.
  - right. exists "/srv/www/". reflexivity.
Defined.
